(** * vhost-user protocol engine of yc-libvhost-server (vdev.c)

    A shallow embedding of the device-side protocol engine: the guest
    memory map, the per-vring negotiation state, the inflight region, the
    request dispatcher with its reply policy, the connection state
    machine, and the listen, accept and set-up paths of a server device.
    C integers are [Z] with their wrap-around written out, C arrays are
    lists indexed with stdpp's lookup and insert, pointers are addresses
    in [Z] with [0] for [NULL].  Every call that leaves vdev.c (system
    calls, the event loops, the virtqueue primitive, the device type
    vtable) is an operation of the [Host] class, or of the [SocketHost]
    class for sockets and the file system; its outcome may depend on the
    moment of the call, which is the [w_tick] counter of the [World]. *)

From Stdlib Require Import ZArith Lia Bool List.
From Stdlib Require String.
Import String.StringSyntax.
Delimit Scope string_scope with string.
From stdpp Require Import base list.
Import ListNotations.

Local Open Scope Z_scope.

(** ** Constants *)

(** errno values (Linux). *)
Definition EIO : Z := 5.
Definition EBUSY : Z := 16.
Definition EINVAL : Z := 22.
Definition ENOTSUP : Z := 95.

(** Modelled from the spec: the protocol header with
    VHOST_USER_MEM_REGIONS_MAX is not part of the sources at hand; the
    memory map has "up to MAX_MEM_REGIONS (8) regions". *)
Definition VHOST_USER_MEM_REGIONS_MAX : Z := 8.

(** Modelled from the spec: the wire header is "a fixed 12-byte header
    {req, flags, size}"; the macro itself is in the protocol header. *)
Definition VHOST_MSG_HDR_SIZE : Z := 12.

(** Constants of the platform and protocol headers that vdev.c uses but
    that are declared elsewhere. *)
Class Constants := {
  PAGE_SHIFT : Z;
  VHOST_USER_F_PROTOCOL_FEATURES : Z;
  VHOST_USER_PROTOCOL_F_REPLY_ACK : Z;
  VHOST_USER_MSG_FLAGS_REPLY : Z;
  VHOST_USER_MSG_FLAGS_REPLY_ACK : Z;
  VHOST_VRING_IDX_MASK : Z;
  VHOST_VRING_INVALID_FD : Z;
  sizeof_inflight_split_region : Z;
  sizeof_inflight_split_desc : Z;
  sizeof_config_header : Z
}.

Definition wrap64 (x : Z) : Z := x mod 2 ^ 64.
Definition wrap32 (x : Z) : Z := x mod 2 ^ 32.
Definition wrap16 (x : Z) : Z := x mod 2 ^ 16.
Definition wrap8 (x : Z) : Z := x mod 2 ^ 8.

(** Conversion of an [unsigned int] to [int]. *)
Definition to_int32 (x : Z) : Z :=
  let y := wrap32 x in if y <? 2 ^ 31 then y else y - 2 ^ 32.

(** ** Data model (vdev.h) *)

Record vhd_guest_memory_region := mk_region {
  reg_gpa : Z;
  reg_uva : Z;
  reg_hva : Z;
  reg_pages : Z;
  reg_fd : Z
}.

(** [memset(reg, 0, sizeof( *reg))] *)
Definition zero_region : vhd_guest_memory_region := mk_region 0 0 0 0 0.

(** [struct vhd_guest_memory_map]: the array [regions]. *)
Abbreviation vhd_guest_memory_map := (list vhd_guest_memory_region).

Inductive vhd_vdev_state := VDEV_INITIALIZED | VDEV_LISTENING | VDEV_CONNECTED.

Record vring_client_info := mk_client_info {
  desc_addr : Z;
  avail_addr : Z;
  used_addr : Z;
  num : Z;
  base : Z;
  inflight_addr : Z
}.

(** Modelled from the spec: [struct virtio_virtq] belongs to the
    virtqueue primitive (virtio/virt_queue.c), "an external collaborator";
    vdev.c attaches it to host addresses, sets its notify fd, releases it
    and reads [last_avail]. *)
Record virtio_virtq := mk_virtq {
  vq_attached : bool;
  vq_info : vring_client_info;
  vq_notify_fd : Z;
  last_avail : Z
}.

Record vhd_vring := mk_vring {
  client_info : vring_client_info;
  id : Z;
  kickfd : Z;
  callfd : Z;
  errfd : Z;
  is_enabled : bool;
  vq : virtio_virtq
}.

(** [struct vhd_vdev].  [vdev_list] is the link of the device in the
    process-wide list [g_vdevs]: [true] while the device is linked
    ([LIST_INSERT_HEAD] in [vhd_vdev_init_server]), [false] once
    [LIST_REMOVE] has unlinked it; the device type, the private pointer
    and the request-queue pointer are not modelled. *)
Record vhd_vdev := mk_vdev {
  listenfd : Z;
  connfd : Z;
  state : vhd_vdev_state;
  is_owned : bool;
  supported_protocol_features : Z;
  negotiated_protocol_features : Z;
  supported_features : Z;
  negotiated_features : Z;
  max_queues : Z;
  num_queues : Z;
  vrings : list vhd_vring;
  guest_memmap : vhd_guest_memory_map;
  inflightfd : Z;
  inflight_mem : Z;
  inflight_size : Z;
  vdev_list : bool
}.

(** ** Messages *)

Inductive vhost_user_request :=
| VHOST_USER_NONE
| VHOST_USER_GET_FEATURES
| VHOST_USER_SET_FEATURES
| VHOST_USER_SET_OWNER
| VHOST_USER_RESET_OWNER
| VHOST_USER_SET_MEM_TABLE
| VHOST_USER_SET_LOG_BASE
| VHOST_USER_SET_LOG_FD
| VHOST_USER_SET_VRING_NUM
| VHOST_USER_SET_VRING_ADDR
| VHOST_USER_SET_VRING_BASE
| VHOST_USER_GET_VRING_BASE
| VHOST_USER_SET_VRING_KICK
| VHOST_USER_SET_VRING_CALL
| VHOST_USER_SET_VRING_ERR
| VHOST_USER_GET_PROTOCOL_FEATURES
| VHOST_USER_SET_PROTOCOL_FEATURES
| VHOST_USER_GET_QUEUE_NUM
| VHOST_USER_SET_VRING_ENABLE
| VHOST_USER_SEND_RARP
| VHOST_USER_NET_SET_MTU
| VHOST_USER_SET_SLAVE_REQ_FD
| VHOST_USER_IOTLB_MSG
| VHOST_USER_SET_VRING_ENDIAN
| VHOST_USER_GET_CONFIG
| VHOST_USER_SET_CONFIG
| VHOST_USER_CREATE_CRYPTO_SESSION
| VHOST_USER_CLOSE_CRYPTO_SESSION
| VHOST_USER_POSTCOPY_ADVISE
| VHOST_USER_POSTCOPY_LISTEN
| VHOST_USER_POSTCOPY_END
| VHOST_USER_GET_INFLIGHT_FD
| VHOST_USER_SET_INFLIGHT_FD
| VHOST_USER_UNDEFINED (code : Z).

Record vhost_user_vring_state := mk_vring_state {
  vs_index : Z;
  vs_num : Z
}.

Record vhost_user_vring_addr := mk_vring_addr {
  va_index : Z;
  va_desc_addr : Z;
  va_used_addr : Z;
  va_avail_addr : Z
}.

Record vhost_user_mem_region := mk_mem_region {
  guest_addr : Z;
  size : Z;
  user_addr : Z;
  mmap_offset : Z
}.

Record vhost_user_mem_desc := mk_mem_desc {
  nregions : Z;
  regions : list vhost_user_mem_region
}.

Record vhost_user_config_space := mk_config_space {
  cfg_size : Z;
  cfg_payload : list Z
}.

Record vhost_user_inflight_desc := mk_inflight_desc {
  id_mmap_size : Z;
  id_mmap_offset : Z;
  id_num_queues : Z;
  id_queue_size : Z
}.

(** The payload is a C union.  Each handler reads one member of it; the
    record keeps one field per member that vdev.c reads, so a message is
    whatever the wire bytes decode to under each view. *)
Record vhost_user_payload := mk_payload {
  u64 : Z;
  vring_state : vhost_user_vring_state;
  vring_addr : vhost_user_vring_addr;
  mem_desc : vhost_user_mem_desc;
  config : vhost_user_config_space;
  inflight_desc : vhost_user_inflight_desc
}.

Record vhost_user_msg := mk_msg {
  req : vhost_user_request;
  flags : Z;
  msg_size : Z;
  payload : vhost_user_payload
}.

(** ** The world outside vdev.c *)

(** What the process has done to the operating system and to the two
    event loops, newest entry first, and the bytes of the memory it has
    mapped. *)
Record World := mk_world {
  w_tick : nat;
  w_closed : list Z;
  w_unmapped : list (Z * Z);
  w_sent : list (vhost_user_msg * list Z);
  w_vhost_events : list Z;
  w_rq_events : list Z;
  w_mem : Z -> Z
}.

(** Outcomes of the calls that leave vdev.c.  The first argument is the
    tick of the call.  errno values are positive and a successful [mmap]
    never yields [NULL], hence [positive]. *)
Class Host := {
  (** [mmap(NULL, length, PROT_READ | PROT_WRITE, MAP_SHARED, fd, offset)]:
      the address, or errno. *)
  sys_mmap : nat -> Z -> Z -> Z -> positive + positive;
  (** [sendmsg(fd, msg, fds)]: the number of bytes sent, or errno. *)
  sys_sendmsg : nat -> Z -> vhost_user_msg -> list Z -> Z + positive;
  (** [memfd_create]: the new fd, or errno. *)
  sys_memfd_create : nat -> Z + positive;
  (** [ftruncate(fd, length)]: errno on failure. *)
  sys_ftruncate : nat -> Z -> Z -> option positive;
  (** return value of [virtio_virtq_attach] *)
  virtq_attach_result : nat -> vring_client_info -> Z;
  (** return value of [vhd_attach_event(rq, fd, ev)] *)
  attach_event_result : nat -> Z -> Z;
  (** return value of [vhd_add_vhost_event(fd, ...)] *)
  add_vhost_event_result : nat -> Z -> Z;
  (** [vdev->type->get_features(vdev)] *)
  type_get_features : nat -> Z;
  (** [vdev->type->get_config(vdev, buf, bufsize)]: the bytes written and
      the buffer afterwards. *)
  type_get_config : nat -> list Z -> Z -> Z * list Z
}.

Definition tick (w : World) : World :=
  mk_world (S (w_tick w)) (w_closed w) (w_unmapped w) (w_sent w)
           (w_vhost_events w) (w_rq_events w) (w_mem w).

(** [close(fd)] *)
Definition sys_close (fd : Z) (w : World) : World :=
  mk_world (w_tick w) (fd :: w_closed w) (w_unmapped w) (w_sent w)
           (w_vhost_events w) (w_rq_events w) (w_mem w).

(** [munmap(addr, len)] *)
Definition sys_munmap (addr len : Z) (w : World) : World :=
  mk_world (w_tick w) (w_closed w) ((addr, len) :: w_unmapped w) (w_sent w)
           (w_vhost_events w) (w_rq_events w) (w_mem w).

Definition log_sent (m : vhost_user_msg) (fds : list Z) (w : World) : World :=
  mk_world (w_tick w) (w_closed w) (w_unmapped w) ((m, fds) :: w_sent w)
           (w_vhost_events w) (w_rq_events w) (w_mem w).

Definition set_vhost_events (evs : list Z) (w : World) : World :=
  mk_world (w_tick w) (w_closed w) (w_unmapped w) (w_sent w)
           evs (w_rq_events w) (w_mem w).

Definition set_rq_events (evs : list Z) (w : World) : World :=
  mk_world (w_tick w) (w_closed w) (w_unmapped w) (w_sent w)
           (w_vhost_events w) evs (w_mem w).

Definition set_mem (m : Z -> Z) (w : World) : World :=
  mk_world (w_tick w) (w_closed w) (w_unmapped w) (w_sent w)
           (w_vhost_events w) (w_rq_events w) m.

Definition remove_fd (fd : Z) (l : list Z) : list Z :=
  List.filter (fun x => negb (x =? fd)) l.

Section Engine.
Context {K : Constants} {H : Host}.

Definition PAGE_SIZE : Z := Z.shiftl 1 PAGE_SHIFT.

(** Modelled from the spec: the macro VHD_IS_ALIGNED is in the platform
    header; "size/offset not page-aligned" for a power-of-two alignment
    is the usual mask test. *)
Definition VHD_IS_ALIGNED (x a : Z) : bool := Z.land x (a - 1) =? 0.

(** *** Memory mappings *)

Definition map_guest_region (memmap : vhd_guest_memory_map) (index : Z)
    (guest_addr user_addr size offset fd : Z) (w : World)
  : Z * vhd_guest_memory_map * World :=
  if VHOST_USER_MEM_REGIONS_MAX <=? index then (EINVAL, memmap, w)
  else if negb (VHD_IS_ALIGNED size PAGE_SIZE) then (EINVAL, memmap, w)
  else if negb (VHD_IS_ALIGNED offset PAGE_SIZE) then (EINVAL, memmap, w)
  else
    let pages := wrap32 (Z.shiftr size PAGE_SHIFT) in
    let region := default zero_region (memmap !! Z.to_nat index) in
    if negb (reg_hva region =? 0) then
      if (reg_gpa region =? guest_addr) && (reg_pages region =? pages)
      then (0, memmap, sys_close fd w)
      else (EBUSY, memmap, w)
    else
      match sys_mmap (w_tick w) size fd offset with
      | inr errno => (Z.pos errno, memmap, tick w)
      | inl vaddr =>
          (0,
           <[Z.to_nat index := mk_region guest_addr user_addr (Z.pos vaddr) pages fd]> memmap,
           tick w)
      end.

Definition is_region_mapped (reg : vhd_guest_memory_region) : bool :=
  negb (reg_hva reg =? 0).

Definition region_size_bytes (reg : vhd_guest_memory_region) : Z :=
  wrap64 (Z.shiftl (reg_pages reg) PAGE_SHIFT).

Definition unmap_guest_region (reg : vhd_guest_memory_region) (w : World)
  : vhd_guest_memory_region * World :=
  if negb (is_region_mapped reg) then (reg, w)
  else
    (zero_region,
     sys_close (reg_fd reg) (sys_munmap (reg_hva reg) (reg_pages reg * PAGE_SIZE) w)).

(** The loop [for (i = 0; i < VHOST_USER_MEM_REGIONS_MAX; ++i)] of
    [vhd_guest_memory_unmap_all], counting [n] slots from slot [i]. *)
Fixpoint unmap_from (n : nat) (i : nat) (map : vhd_guest_memory_map) (w : World)
  : vhd_guest_memory_map * World :=
  match n with
  | O => (map, w)
  | S n' =>
      match map !! i with
      | Some reg =>
          let '(reg', w') := unmap_guest_region reg w in
          unmap_from n' (S i) (<[i := reg']> map) w'
      | None => unmap_from n' (S i) map w
      end
  end.

Definition vhd_guest_memory_unmap_all (map : vhd_guest_memory_map) (w : World)
  : vhd_guest_memory_map * World :=
  unmap_from (Z.to_nat VHOST_USER_MEM_REGIONS_MAX) 0 map w.

(** The search loops [for (i = 0; i < VHOST_USER_MEM_REGIONS_MAX; i++)]
    of [map_uva] and [map_gpa_len], with [n] slots left from slot [i]. *)
Fixpoint map_uva_from (n : nat) (i : nat) (map : vhd_guest_memory_map) (uva : Z) : Z :=
  match n with
  | O => 0
  | S n' =>
      let reg := default zero_region (map !! i) in
      if is_region_mapped reg
         && (reg_uva reg <=? uva)
         && (wrap64 (uva - reg_uva reg) <? region_size_bytes reg)
      then wrap64 (reg_hva reg + wrap64 (uva - reg_uva reg))
      else map_uva_from n' (S i) map uva
  end.

Definition map_uva (map : vhd_guest_memory_map) (uva : Z) : Z :=
  map_uva_from (Z.to_nat VHOST_USER_MEM_REGIONS_MAX) 0 map uva.

Fixpoint map_gpa_len_from (n : nat) (i : nat) (map : vhd_guest_memory_map)
    (gpa last_gpa : Z) : Z :=
  match n with
  | O => 0
  | S n' =>
      let reg := default zero_region (map !! i) in
      if is_region_mapped reg
         && (reg_gpa reg <=? gpa)
         && (wrap64 (gpa - reg_gpa reg) <? region_size_bytes reg)
      then
        if region_size_bytes reg <=? wrap64 (last_gpa - reg_gpa reg) then 0
        else wrap64 (reg_hva reg + wrap64 (gpa - reg_gpa reg))
      else map_gpa_len_from n' (S i) map gpa last_gpa
  end.

Definition map_gpa_len (map : vhd_guest_memory_map) (gpa len : Z) : Z :=
  if len =? 0 then 0
  else
    let last_gpa := wrap64 (gpa + len - 1) in
    map_gpa_len_from (Z.to_nat VHOST_USER_MEM_REGIONS_MAX) 0 map gpa last_gpa.

(** *** Field updates *)

Definition set_client_info (ci : vring_client_info) (v : vhd_vring) : vhd_vring :=
  mk_vring ci (id v) (kickfd v) (callfd v) (errfd v) (is_enabled v) (vq v).
Definition set_kickfd (fd : Z) (v : vhd_vring) : vhd_vring :=
  mk_vring (client_info v) (id v) fd (callfd v) (errfd v) (is_enabled v) (vq v).
Definition set_callfd (fd : Z) (v : vhd_vring) : vhd_vring :=
  mk_vring (client_info v) (id v) (kickfd v) fd (errfd v) (is_enabled v) (vq v).
Definition set_errfd (fd : Z) (v : vhd_vring) : vhd_vring :=
  mk_vring (client_info v) (id v) (kickfd v) (callfd v) fd (is_enabled v) (vq v).
Definition set_is_enabled (b : bool) (v : vhd_vring) : vhd_vring :=
  mk_vring (client_info v) (id v) (kickfd v) (callfd v) (errfd v) b (vq v).
Definition set_vq (q : virtio_virtq) (v : vhd_vring) : vhd_vring :=
  mk_vring (client_info v) (id v) (kickfd v) (callfd v) (errfd v) (is_enabled v) q.

Definition set_connfd (fd : Z) (d : vhd_vdev) : vhd_vdev :=
  mk_vdev (listenfd d) fd (state d) (is_owned d)
    (supported_protocol_features d) (negotiated_protocol_features d)
    (supported_features d) (negotiated_features d) (max_queues d) (num_queues d)
    (vrings d) (guest_memmap d) (inflightfd d) (inflight_mem d) (inflight_size d)
    (vdev_list d).
Definition set_state (st : vhd_vdev_state) (d : vhd_vdev) : vhd_vdev :=
  mk_vdev (listenfd d) (connfd d) st (is_owned d)
    (supported_protocol_features d) (negotiated_protocol_features d)
    (supported_features d) (negotiated_features d) (max_queues d) (num_queues d)
    (vrings d) (guest_memmap d) (inflightfd d) (inflight_mem d) (inflight_size d)
    (vdev_list d).
Definition set_is_owned (b : bool) (d : vhd_vdev) : vhd_vdev :=
  mk_vdev (listenfd d) (connfd d) (state d) b
    (supported_protocol_features d) (negotiated_protocol_features d)
    (supported_features d) (negotiated_features d) (max_queues d) (num_queues d)
    (vrings d) (guest_memmap d) (inflightfd d) (inflight_mem d) (inflight_size d)
    (vdev_list d).
Definition set_negotiated_protocol_features (f : Z) (d : vhd_vdev) : vhd_vdev :=
  mk_vdev (listenfd d) (connfd d) (state d) (is_owned d)
    (supported_protocol_features d) f
    (supported_features d) (negotiated_features d) (max_queues d) (num_queues d)
    (vrings d) (guest_memmap d) (inflightfd d) (inflight_mem d) (inflight_size d)
    (vdev_list d).
Definition set_supported_features (f : Z) (d : vhd_vdev) : vhd_vdev :=
  mk_vdev (listenfd d) (connfd d) (state d) (is_owned d)
    (supported_protocol_features d) (negotiated_protocol_features d)
    f (negotiated_features d) (max_queues d) (num_queues d)
    (vrings d) (guest_memmap d) (inflightfd d) (inflight_mem d) (inflight_size d)
    (vdev_list d).
Definition set_negotiated_features (f : Z) (d : vhd_vdev) : vhd_vdev :=
  mk_vdev (listenfd d) (connfd d) (state d) (is_owned d)
    (supported_protocol_features d) (negotiated_protocol_features d)
    (supported_features d) f (max_queues d) (num_queues d)
    (vrings d) (guest_memmap d) (inflightfd d) (inflight_mem d) (inflight_size d)
    (vdev_list d).
Definition set_vrings (vs : list vhd_vring) (d : vhd_vdev) : vhd_vdev :=
  mk_vdev (listenfd d) (connfd d) (state d) (is_owned d)
    (supported_protocol_features d) (negotiated_protocol_features d)
    (supported_features d) (negotiated_features d) (max_queues d) (num_queues d)
    vs (guest_memmap d) (inflightfd d) (inflight_mem d) (inflight_size d)
    (vdev_list d).
Definition set_guest_memmap (m : vhd_guest_memory_map) (d : vhd_vdev) : vhd_vdev :=
  mk_vdev (listenfd d) (connfd d) (state d) (is_owned d)
    (supported_protocol_features d) (negotiated_protocol_features d)
    (supported_features d) (negotiated_features d) (max_queues d) (num_queues d)
    (vrings d) m (inflightfd d) (inflight_mem d) (inflight_size d)
    (vdev_list d).
Definition set_inflight (fd mem sz : Z) (d : vhd_vdev) : vhd_vdev :=
  mk_vdev (listenfd d) (connfd d) (state d) (is_owned d)
    (supported_protocol_features d) (negotiated_protocol_features d)
    (supported_features d) (negotiated_features d) (max_queues d) (num_queues d)
    (vrings d) (guest_memmap d) fd mem sz (vdev_list d).
Definition set_vdev_list (b : bool) (d : vhd_vdev) : vhd_vdev :=
  mk_vdev (listenfd d) (connfd d) (state d) (is_owned d)
    (supported_protocol_features d) (negotiated_protocol_features d)
    (supported_features d) (negotiated_features d) (max_queues d) (num_queues d)
    (vrings d) (guest_memmap d) (inflightfd d) (inflight_mem d) (inflight_size d) b.

Definition set_flags (f : Z) (m : vhost_user_msg) : vhost_user_msg :=
  mk_msg (req m) f (msg_size m) (payload m).
Definition set_msg_size (sz : Z) (m : vhost_user_msg) : vhost_user_msg :=
  mk_msg (req m) (flags m) sz (payload m).
Definition set_payload (p : vhost_user_payload) (m : vhost_user_msg) : vhost_user_msg :=
  mk_msg (req m) (flags m) (msg_size m) p.
Definition set_u64 (x : Z) (p : vhost_user_payload) : vhost_user_payload :=
  mk_payload x (vring_state p) (vring_addr p) (mem_desc p) (config p) (inflight_desc p).
Definition set_config (c : vhost_user_config_space) (p : vhost_user_payload) : vhost_user_payload :=
  mk_payload (u64 p) (vring_state p) (vring_addr p) (mem_desc p) c (inflight_desc p).
Definition set_inflight_desc (i : vhost_user_inflight_desc) (p : vhost_user_payload)
  : vhost_user_payload :=
  mk_payload (u64 p) (vring_state p) (vring_addr p) (mem_desc p) (config p) i.

Definition zero_client_info : vring_client_info := mk_client_info 0 0 0 0 0 0.
Definition zero_virtq : virtio_virtq := mk_virtq false zero_client_info 0 0.
Definition zero_vring : vhd_vring := mk_vring zero_client_info 0 0 0 0 false zero_virtq.

(** *** Sending *)

Definition g_default_features : Z := Z.shiftl 1 VHOST_USER_F_PROTOCOL_FEATURES.

Definition has_feature (features_qword : Z) (feature_bit : Z) : bool :=
  negb (Z.land features_qword (Z.shiftl 1 feature_bit) =? 0).

Definition net_send_msg_fds (fd : Z) (msg : vhost_user_msg) (fds : list Z) (w : World)
  : Z * World :=
  let w' := tick (log_sent msg fds w) in
  match sys_sendmsg (w_tick w) fd msg fds with
  | inr errno => (- Z.pos errno, w')
  | inl len =>
      if negb (len =? VHOST_MSG_HDR_SIZE + msg_size msg) then (- EIO, w')
      else (len, w')
  end.

Definition vhost_send_fds (vdev : vhd_vdev) (msg : vhost_user_msg) (fds : list Z) (w : World)
  : Z * World :=
  let '(len, w') := net_send_msg_fds (connfd vdev) msg fds w in
  if len <? 0 then (len, w') else (0, w').

Definition vhost_send (vdev : vhd_vdev) (msg : vhost_user_msg) (w : World) : Z * World :=
  vhost_send_fds vdev msg [] w.

Definition zero_payload : vhost_user_payload :=
  mk_payload 0 (mk_vring_state 0 0) (mk_vring_addr 0 0 0 0) (mk_mem_desc 0 [])
             (mk_config_space 0 []) (mk_inflight_desc 0 0 0 0).

(** The reply is a fresh message on the stack; only its header and the
    [u64] member are written, and [reply.size] bytes of payload are sent.
    The argument is converted to [uint64_t]. *)
Definition vhost_send_reply (vdev : vhd_vdev) (msgin : vhost_user_msg) (u64 : Z) (w : World)
  : Z * World :=
  let reply :=
    mk_msg (req msgin) VHOST_USER_MSG_FLAGS_REPLY 8
           (set_u64 (wrap64 u64) zero_payload) in
  vhost_send vdev reply w.

(** *** Feature negotiation, ownership, configuration *)

Definition vhost_get_protocol_features (vdev : vhd_vdev) (msg : vhost_user_msg) (w : World)
  : Z * World :=
  vhost_send_reply vdev msg (supported_protocol_features vdev) w.

Definition vhost_set_protocol_features (vdev : vhd_vdev) (msg : vhost_user_msg)
  : Z * vhd_vdev :=
  let feats := u64 (payload msg) in
  let feats :=
    if negb (Z.land feats (wrap64 (Z.lnot (supported_protocol_features vdev))) =? 0)
    then Z.land feats (supported_protocol_features vdev)
    else feats in
  (0, set_negotiated_protocol_features feats vdev).

Definition vhost_get_features (vdev : vhd_vdev) (msg : vhost_user_msg) (w : World)
  : Z * vhd_vdev * World :=
  let vdev' :=
    set_supported_features
      (Z.lor g_default_features (type_get_features (w_tick w))) vdev in
  let '(r, w') := vhost_send_reply vdev' msg (supported_features vdev') (tick w) in
  (r, vdev', w').

Definition vhost_set_features (vdev : vhd_vdev) (msg : vhost_user_msg) : Z * vhd_vdev :=
  let requested_features := u64 (payload msg) in
  (0, set_negotiated_features (Z.land requested_features (supported_features vdev)) vdev).

Definition vhost_set_owner (vdev : vhd_vdev) (msg : vhost_user_msg) : Z * vhd_vdev :=
  (0, set_is_owned true vdev).

Definition vhost_reset_owner (vdev : vhd_vdev) (msg : vhost_user_msg) : Z := ENOTSUP.

Definition vhost_get_config (vdev : vhd_vdev) (msg : vhost_user_msg) (w : World)
  : Z * vhost_user_msg * World :=
  let cfg := config (payload msg) in
  let '(n, buf) := type_get_config (w_tick w) (cfg_payload cfg) (cfg_size cfg) in
  let cfg' := mk_config_space (wrap32 n) buf in
  let msg' :=
    set_msg_size (wrap32 (sizeof_config_header + cfg_size cfg'))
      (set_flags VHOST_USER_MSG_FLAGS_REPLY
         (set_payload (set_config cfg' (payload msg)) msg)) in
  let '(r, w') := vhost_send vdev msg' (tick w) in
  (r, msg', w').

Definition vhost_set_config (vdev : vhd_vdev) (msg : vhost_user_msg) : Z := ENOTSUP.

Definition vhost_get_queue_num (vdev : vhd_vdev) (msg : vhost_user_msg) (w : World)
  : Z * World :=
  vhost_send_reply vdev msg (max_queues vdev) w.

(** *** SET_MEM_TABLE *)

(** [for (; i < desc->nregions; ++i) close(fds[i]);] with [n] fds left. *)
Fixpoint close_fds_from (n : nat) (i : nat) (fds : list Z) (w : World) : World :=
  match n with
  | O => w
  | S n' => close_fds_from n' (S i) fds (sys_close (default (-1) (fds !! i)) w)
  end.

(** The loop [for (i = 0; i < desc->nregions; i++)] with [n] regions left
    from region [i]; the error branch closes the fds that are left and
    leaves through [error_unmap]. *)
Fixpoint set_mem_table_from (n : nat) (i : nat) (desc : vhost_user_mem_desc)
    (fds : list Z) (memmap : vhd_guest_memory_map) (w : World)
  : Z * vhd_guest_memory_map * World :=
  match n with
  | O => (0, memmap, w)
  | S n' =>
      let region := default (mk_mem_region 0 0 0 0) (regions desc !! i) in
      let '(error, memmap1, w1) :=
        map_guest_region memmap (Z.of_nat i)
          (guest_addr region) (user_addr region) (size region) (mmap_offset region)
          (default (-1) (fds !! i)) w in
      if negb (error =? 0) then
        let w2 := close_fds_from n i fds w1 in
        let '(memmap3, w3) := vhd_guest_memory_unmap_all memmap1 w2 in
        (error, memmap3, w3)
      else set_mem_table_from n' (S i) desc fds memmap1 w1
  end.

Definition vhost_set_mem_table (vdev : vhd_vdev) (msg : vhost_user_msg) (fds : list Z)
    (w : World) : Z * vhd_vdev * World :=
  let desc := mem_desc (payload msg) in
  if VHOST_USER_MEM_REGIONS_MAX <? nregions desc then (EINVAL, vdev, w)
  else
    let '(error, memmap, w') :=
      set_mem_table_from (Z.to_nat (nregions desc)) 0 desc fds (guest_memmap vdev) w in
    (error, set_guest_memmap memmap vdev, w').

(** *** Vrings *)

(** Modelled from the spec: [virtio_virtq_attach], [virtq_set_notify_fd]
    and [virtio_virtq_release] are the virtqueue primitive's; enabling
    "attaches the external virtqueue primitive to those host addresses,
    sets the notify fd to callfd", disabling "releases the virtqueue
    primitive".  A failed attach leaves the queue as it was. *)
Definition virtio_virtq_attach (q : virtio_virtq) (ci : vring_client_info) (w : World)
  : Z * virtio_virtq * World :=
  let res := virtq_attach_result (w_tick w) ci in
  if negb (res =? 0) then (res, q, tick w)
  else (0, mk_virtq true ci (vq_notify_fd q) (last_avail q), tick w).

Definition virtq_set_notify_fd (q : virtio_virtq) (fd : Z) : virtio_virtq :=
  mk_virtq (vq_attached q) (vq_info q) fd (last_avail q).

Definition virtio_virtq_release (q : virtio_virtq) : virtio_virtq :=
  mk_virtq false (vq_info q) (vq_notify_fd q) (last_avail q).

(** Modelled from the spec: [vhd_attach_event] and [vhd_detach_event]
    are the request queue's (server.c); they register and remove "kickfd
    as an event source on the associated request queue's event loop". *)
Definition vhd_attach_event (fd : Z) (w : World) : Z * World :=
  let res := attach_event_result (w_tick w) fd in
  if negb (res =? 0) then (res, tick w)
  else (0, tick (set_rq_events (fd :: w_rq_events w) w)).

Definition vhd_detach_event (fd : Z) (w : World) : World :=
  set_rq_events (remove_fd fd (w_rq_events w)) w.

(** Modelled from the spec: [vhd_add_vhost_event] and
    [vhd_del_vhost_event] are the vhost event loop's (server.c); they
    register an fd with that loop and unregister it. *)
Definition vhd_add_vhost_event (fd : Z) (w : World) : Z * World :=
  let res := add_vhost_event_result (w_tick w) fd in
  if negb (res =? 0) then (res, tick w)
  else (0, tick (set_vhost_events (fd :: w_vhost_events w) w)).

Definition vhd_del_vhost_event (fd : Z) (w : World) : World :=
  set_vhost_events (remove_fd fd (w_vhost_events w)) w.

Definition vring_set_enable (vring : vhd_vring) (do_enable : bool) (w : World)
  : Z * vhd_vring * World :=
  if Bool.eqb do_enable (is_enabled vring) then (0, vring, w)
  else if do_enable then
    let '(res, q, w1) := virtio_virtq_attach (vq vring) (client_info vring) w in
    if negb (res =? 0) then (res, set_vq q vring, w1)
    else
      let q := virtq_set_notify_fd q (callfd vring) in
      let '(res, w2) := vhd_attach_event (kickfd vring) w1 in
      if negb (res =? 0) then (res, set_vq (virtio_virtq_release q) vring, w2)
      else (0, set_is_enabled true (set_vq q vring), w2)
  else
    let w1 := vhd_detach_event (kickfd vring) w in
    (0, set_is_enabled false (set_vq (virtio_virtq_release (vq vring)) vring), w1).

Definition vhd_vring_init (vring : vhd_vring) (id : Z) : vhd_vring :=
  mk_vring (client_info vring) id (-1) (-1) (errfd vring) false (vq vring).

Definition vhd_vring_uninit (vring : vhd_vring) (w : World) : vhd_vring * World :=
  if negb (is_enabled vring) then (vring, w)
  else
    let '(_, vring', w') := vring_set_enable vring false w in
    (vring', w').

(** A [struct vhd_vring*] into [vdev->vrings] is the index of the slot;
    [None] is [NULL]. *)
Definition get_vring (vdev : vhd_vdev) (index : Z) : option nat :=
  if num_queues vdev <=? index then None else Some (Z.to_nat index).

Definition vring_at (vdev : vhd_vdev) (p : nat) : vhd_vring :=
  default zero_vring (vrings vdev !! p).

Definition store_vring (p : nat) (vring : vhd_vring) (vdev : vhd_vdev) : vhd_vdev :=
  set_vrings (<[p := vring]> (vrings vdev)) vdev.

Definition get_vring_not_enabled (vdev : vhd_vdev) (index : Z) : option nat :=
  match get_vring vdev (wrap32 index) with
  | Some p => if is_enabled (vring_at vdev p) then None else Some p
  | None => None
  end.

Inductive vring_desc_type := VRING_KICKFD | VRING_CALLFD | VRING_ERRFD.

Definition vhost_set_vring_fd_common (vdev : vhd_vdev) (msg : vhost_user_msg) (fd : Z)
    (type : vring_desc_type) (w : World) : Z * vhd_vdev * World :=
  let vring_idx := wrap8 (Z.land (u64 (payload msg)) VHOST_VRING_IDX_MASK) in
  let has_fd := Z.land (u64 (payload msg)) VHOST_VRING_INVALID_FD =? 0 in
  if negb has_fd then (ENOTSUP, vdev, w)
  else
    match get_vring vdev vring_idx with
    | None => (EINVAL, vdev, w)
    | Some p =>
        let vring := vring_at vdev p in
        match type with
        | VRING_KICKFD =>
            let vring := set_kickfd fd vring in
            if negb (has_feature (negotiated_features vdev) VHOST_USER_F_PROTOCOL_FEATURES)
            then
              let '(res, vring', w') := vring_set_enable vring true w in
              (res, store_vring p vring' vdev, w')
            else (0, store_vring p vring vdev, w)
        | VRING_CALLFD =>
            let vring := set_callfd fd vring in
            let vring :=
              if is_enabled vring then set_vq (virtq_set_notify_fd (vq vring) fd) vring
              else vring in
            (0, store_vring p vring vdev, w)
        | VRING_ERRFD => (0, store_vring p (set_errfd fd vring) vdev, w)
        end
    end.

Definition fds0 (fds : list Z) : Z := default (-1) (fds !! 0%nat).

Definition vhost_set_vring_call (vdev : vhd_vdev) (msg : vhost_user_msg) (fds : list Z)
    (w : World) : Z * vhd_vdev * World :=
  vhost_set_vring_fd_common vdev msg (fds0 fds) VRING_CALLFD w.

Definition vhost_set_vring_kick (vdev : vhd_vdev) (msg : vhost_user_msg) (fds : list Z)
    (w : World) : Z * vhd_vdev * World :=
  vhost_set_vring_fd_common vdev msg (fds0 fds) VRING_KICKFD w.

Definition vhost_set_vring_err (vdev : vhd_vdev) (msg : vhost_user_msg) (fds : list Z)
    (w : World) : Z * vhd_vdev * World :=
  vhost_set_vring_fd_common vdev msg (fds0 fds) VRING_ERRFD w.

Definition vhost_set_vring_num (vdev : vhd_vdev) (msg : vhost_user_msg) : Z * vhd_vdev :=
  let vrstate := vring_state (payload msg) in
  match get_vring_not_enabled vdev (vs_index vrstate) with
  | None => (EINVAL, vdev)
  | Some p =>
      let vring := vring_at vdev p in
      let ci := client_info vring in
      let ci' := mk_client_info (desc_addr ci) (avail_addr ci) (used_addr ci)
                   (to_int32 (vs_num vrstate)) (base ci) (inflight_addr ci) in
      (0, store_vring p (set_client_info ci' vring) vdev)
  end.

Definition vhost_set_vring_base (vdev : vhd_vdev) (msg : vhost_user_msg) : Z * vhd_vdev :=
  let vrstate := vring_state (payload msg) in
  match get_vring_not_enabled vdev (vs_index vrstate) with
  | None => (EINVAL, vdev)
  | Some p =>
      let vring := vring_at vdev p in
      let ci := client_info vring in
      let ci' := mk_client_info (desc_addr ci) (avail_addr ci) (used_addr ci)
                   (num ci) (to_int32 (vs_num vrstate)) (inflight_addr ci) in
      (0, store_vring p (set_client_info ci' vring) vdev)
  end.

Definition vhost_get_vring_base (vdev : vhd_vdev) (msg : vhost_user_msg) (w : World)
  : Z * vhd_vdev * World :=
  let vrstate := vring_state (payload msg) in
  match get_vring vdev (vs_index vrstate) with
  | None => (EINVAL, vdev, w)
  | Some p =>
      let vring := vring_at vdev p in
      let vq_base := wrap16 (last_avail (vq vring)) in
      if negb (has_feature (negotiated_features vdev) VHOST_USER_F_PROTOCOL_FEATURES) then
        let '(error, vring', w1) := vring_set_enable vring false w in
        let vdev1 := store_vring p vring' vdev in
        if negb (error =? 0) then (error, vdev1, w1)
        else
          let '(r, w2) := vhost_send_reply vdev1 msg vq_base w1 in
          (r, vdev1, w2)
      else
        let '(r, w1) := vhost_send_reply vdev msg vq_base w in
        (r, vdev, w1)
  end.

Definition vhost_set_vring_addr (vdev : vhd_vdev) (msg : vhost_user_msg) : Z * vhd_vdev :=
  let vraddr := vring_addr (payload msg) in
  match get_vring_not_enabled vdev (va_index vraddr) with
  | None => (EINVAL, vdev)
  | Some p =>
      let desc := map_uva (guest_memmap vdev) (va_desc_addr vraddr) in
      let used := map_uva (guest_memmap vdev) (va_used_addr vraddr) in
      let avail := map_uva (guest_memmap vdev) (va_avail_addr vraddr) in
      if (desc =? 0) || (used =? 0) || (avail =? 0) then (EINVAL, vdev)
      else
        let vring := vring_at vdev p in
        let ci := client_info vring in
        let ci' := mk_client_info desc avail used (num ci) (base ci) (inflight_addr ci) in
        (0, store_vring p (set_client_info ci' vring) vdev)
  end.

Definition vhost_set_vring_enable (vdev : vhd_vdev) (msg : vhost_user_msg) (w : World)
  : Z * vhd_vdev * World :=
  let vrstate := vring_state (payload msg) in
  match get_vring vdev (vs_index vrstate) with
  | None => (EINVAL, vdev, w)
  | Some p =>
      let '(res, vring', w') := vring_set_enable (vring_at vdev p) (vs_num vrstate =? 1) w in
      (res, store_vring p vring' vdev, w')
  end.

(** *** Inflight region *)

(** Bytes of mapped memory, little-endian host. *)
Definition memset (m : Z -> Z) (addr c n : Z) : Z -> Z :=
  fun a => if (addr <=? a) && (a <? addr + n) then c else m a.

Definition store8 (m : Z -> Z) (addr v : Z) : Z -> Z :=
  fun a => if a =? addr then v mod 256 else m a.

Fixpoint store_le (nbytes : nat) (m : Z -> Z) (addr v : Z) : Z -> Z :=
  match nbytes with
  | O => m
  | S k => store_le k (store8 m addr v) (addr + 1) (Z.shiftr v 8)
  end.

Fixpoint load_le (nbytes : nat) (m : Z -> Z) (addr : Z) : Z :=
  match nbytes with
  | O => 0
  | S k => m addr + 256 * load_le k m (addr + 1)
  end.

(** Modelled from the spec: [struct inflight_split_region] is declared in
    the protocol header; its layout is "features:u64, version:u16,
    desc_num:u16, last_batch_head:u16, used_idx:u16" in this order. *)
Definition off_features : Z := 0.
Definition off_version : Z := 8.
Definition off_desc_num : Z := 10.
Definition off_last_batch_head : Z := 12.
Definition off_used_idx : Z := 14.

Definition inflight_split_region_init (m : Z -> Z) (region : Z) (qsize : Z) : Z -> Z :=
  let m := store_le 8 m (region + off_features) 0 in
  let m := store_le 2 m (region + off_version) 1 in
  let m := store_le 2 m (region + off_desc_num) (wrap16 qsize) in
  let m := store_le 2 m (region + off_last_batch_head) 0 in
  store_le 2 m (region + off_used_idx) 0.

Definition inflight_mmap_region (vdev : vhd_vdev) (fd : Z) (size : Z) (w : World)
  : Z * vhd_vdev * World :=
  match sys_mmap (w_tick w) size fd 0 with
  | inr errno => (Z.pos errno, vdev, tick w)
  | inl buf => (0, set_inflight fd (Z.pos buf) size vdev, tick w)
  end.

Definition vhd_vdev_inflight_cleanup (vdev : vhd_vdev) (w : World) : vhd_vdev * World :=
  if inflightfd vdev =? -1 then (vdev, w)
  else
    (set_inflight (-1) 0 (inflight_size vdev) vdev,
     sys_close (inflightfd vdev)
       (sys_munmap (inflight_mem vdev) (inflight_size vdev) w)).

Definition vring_inflight_buf_size (num : Z) : Z :=
  wrap64 (sizeof_inflight_split_region + wrap64 num * sizeof_inflight_split_desc).

(** The loop [for (i = 0; i < idesc->num_queues; i++)] with [n] queues
    left and [buf] at the next sub-region. *)
Fixpoint inflight_init_queues (n : nat) (m : Z -> Z) (buf size qsize : Z) : Z -> Z :=
  match n with
  | O => m
  | S n' =>
      inflight_init_queues n' (inflight_split_region_init m buf qsize)
        (wrap64 (buf + size)) size qsize
  end.

Definition vhost_get_inflight_fd (vdev : vhd_vdev) (msg : vhost_user_msg) (fds : list Z)
    (w : World) : Z * vhost_user_msg * vhd_vdev * World :=
  let '(vdev, w) := vhd_vdev_inflight_cleanup vdev w in
  let idesc := inflight_desc (payload msg) in
  let size := vring_inflight_buf_size (id_queue_size idesc) in
  let size := wrap64 (size * id_num_queues idesc) in
  match sys_memfd_create (w_tick w) with
  | inr errno => (Z.pos errno, msg, vdev, tick w)
  | inl fd =>
      let w := tick w in
      match sys_ftruncate (w_tick w) fd size with
      | Some errno => (Z.pos errno, msg, vdev, sys_close fd (tick w))
      | None =>
          let w := tick w in
          let '(ret, vdev, w) := inflight_mmap_region vdev fd size w in
          if negb (ret =? 0) then (ret, msg, vdev, sys_close fd w)
          else
            let m := memset (w_mem w) (inflight_mem vdev) 0 (inflight_size vdev) in
            let idesc := mk_inflight_desc size 0 (id_num_queues idesc) (id_queue_size idesc) in
            let buf := inflight_mem vdev in
            let size := vring_inflight_buf_size (id_queue_size idesc) in
            let m := inflight_init_queues (Z.to_nat (id_num_queues idesc)) m buf size
                       (id_queue_size idesc) in
            let w := set_mem m w in
            let msg := set_flags VHOST_USER_MSG_FLAGS_REPLY
                         (set_payload (set_inflight_desc idesc (payload msg)) msg) in
            let '(ret, w) := vhost_send_fds vdev msg [fd] w in
            if negb (ret =? 0) then
              let w := sys_munmap (inflight_mem vdev) (inflight_size vdev) w in
              (ret, msg, set_inflight (-1) 0 (inflight_size vdev) vdev, sys_close fd w)
            else (0, msg, vdev, w)
      end
  end.

Definition vhost_set_inflight_fd (vdev : vhd_vdev) (msg : vhost_user_msg) (fds : list Z)
    (w : World) : Z * vhd_vdev * World :=
  let '(vdev, w) := vhd_vdev_inflight_cleanup vdev w in
  let idesc := inflight_desc (payload msg) in
  let '(ret, vdev, w) := inflight_mmap_region vdev (fds0 fds) (id_mmap_size idesc) w in
  if negb (ret =? 0) then (ret, vdev, sys_close (fds0 fds) w) else (ret, vdev, w).

(** *** Dispatch and the reply policy *)

Definition vhost_ack_request_if_needed (vdev : vhd_vdev) (msg : vhost_user_msg) (ret : Z)
    (w : World) : Z * World :=
  if negb (has_feature (negotiated_protocol_features vdev) VHOST_USER_PROTOCOL_F_REPLY_ACK)
  then (0, w)
  else if Z.land (flags msg) VHOST_USER_MSG_FLAGS_REPLY_ACK =? 0 then (0, w)
  else
    let already_replied :=
      (ret =? 0) &&
      match req msg with
      | VHOST_USER_GET_FEATURES
      | VHOST_USER_GET_PROTOCOL_FEATURES
      | VHOST_USER_GET_CONFIG
      | VHOST_USER_GET_QUEUE_NUM
      | VHOST_USER_GET_VRING_BASE => true
      | _ => false
      end in
    if already_replied then (0, w) else vhost_send_reply vdev msg ret w.

(** The [switch (msg->req)] of [vhost_handle_request]: the handler's
    status, the message as the handler left it, the device and the
    world. *)
Definition vhost_handle_request_switch (vdev : vhd_vdev) (msg : vhost_user_msg)
    (fds : list Z) (w : World) : Z * vhost_user_msg * vhd_vdev * World :=
  match req msg with
  | VHOST_USER_GET_FEATURES =>
      let '(r, d, w') := vhost_get_features vdev msg w in (r, msg, d, w')
  | VHOST_USER_SET_FEATURES =>
      let '(r, d) := vhost_set_features vdev msg in (r, msg, d, w)
  | VHOST_USER_SET_OWNER =>
      let '(r, d) := vhost_set_owner vdev msg in (r, msg, d, w)
  | VHOST_USER_RESET_OWNER => (vhost_reset_owner vdev msg, msg, vdev, w)
  | VHOST_USER_GET_PROTOCOL_FEATURES =>
      let '(r, w') := vhost_get_protocol_features vdev msg w in (r, msg, vdev, w')
  | VHOST_USER_SET_PROTOCOL_FEATURES =>
      let '(r, d) := vhost_set_protocol_features vdev msg in (r, msg, d, w)
  | VHOST_USER_GET_CONFIG =>
      let '(r, msg', w') := vhost_get_config vdev msg w in (r, msg', vdev, w')
  | VHOST_USER_SET_CONFIG => (vhost_set_config vdev msg, msg, vdev, w)
  | VHOST_USER_SET_MEM_TABLE =>
      let '(r, d, w') := vhost_set_mem_table vdev msg fds w in (r, msg, d, w')
  | VHOST_USER_GET_QUEUE_NUM =>
      let '(r, w') := vhost_get_queue_num vdev msg w in (r, msg, vdev, w')
  | VHOST_USER_SET_VRING_CALL =>
      let '(r, d, w') := vhost_set_vring_call vdev msg fds w in (r, msg, d, w')
  | VHOST_USER_SET_VRING_KICK =>
      let '(r, d, w') := vhost_set_vring_kick vdev msg fds w in (r, msg, d, w')
  | VHOST_USER_SET_VRING_ERR =>
      let '(r, d, w') := vhost_set_vring_err vdev msg fds w in (r, msg, d, w')
  | VHOST_USER_SET_VRING_NUM =>
      let '(r, d) := vhost_set_vring_num vdev msg in (r, msg, d, w)
  | VHOST_USER_SET_VRING_BASE =>
      let '(r, d) := vhost_set_vring_base vdev msg in (r, msg, d, w)
  | VHOST_USER_GET_VRING_BASE =>
      let '(r, d, w') := vhost_get_vring_base vdev msg w in (r, msg, d, w')
  | VHOST_USER_SET_VRING_ADDR =>
      let '(r, d) := vhost_set_vring_addr vdev msg in (r, msg, d, w)
  | VHOST_USER_SET_VRING_ENABLE =>
      let '(r, d, w') := vhost_set_vring_enable vdev msg w in (r, msg, d, w')
  | VHOST_USER_SET_LOG_BASE
  | VHOST_USER_SET_LOG_FD
  | VHOST_USER_SEND_RARP
  | VHOST_USER_NET_SET_MTU
  | VHOST_USER_SET_SLAVE_REQ_FD
  | VHOST_USER_IOTLB_MSG
  | VHOST_USER_SET_VRING_ENDIAN
  | VHOST_USER_CREATE_CRYPTO_SESSION
  | VHOST_USER_CLOSE_CRYPTO_SESSION
  | VHOST_USER_POSTCOPY_ADVISE
  | VHOST_USER_POSTCOPY_LISTEN
  | VHOST_USER_POSTCOPY_END => (ENOTSUP, msg, vdev, w)
  | VHOST_USER_GET_INFLIGHT_FD => vhost_get_inflight_fd vdev msg fds w
  | VHOST_USER_SET_INFLIGHT_FD =>
      let '(r, d, w') := vhost_set_inflight_fd vdev msg fds w in (r, msg, d, w')
  | VHOST_USER_NONE
  | VHOST_USER_UNDEFINED _ => (EINVAL, msg, vdev, w)
  end.

Definition vhost_handle_request (vdev : vhd_vdev) (msg : vhost_user_msg) (fds : list Z)
    (w : World) : Z * vhd_vdev * World :=
  let '(ret, msg, vdev, w) := vhost_handle_request_switch vdev msg fds w in
  let '(reply_ret, w) := vhost_ack_request_if_needed vdev msg ret w in
  let ret := if negb (reply_ret =? 0) then reply_ret else ret in
  (ret, vdev, w).

(** *** Connection state machine *)

(** [for (i = 0; i < vdev->max_queues; ++i) vhd_vring_uninit(vdev->vrings + i);]
    with [n] vrings left from vring [i]. *)
Fixpoint uninit_vrings_from (n : nat) (i : nat) (vrings : list vhd_vring) (w : World)
  : list vhd_vring * World :=
  match n with
  | O => (vrings, w)
  | S n' =>
      match vrings !! i with
      | Some vring =>
          let '(vring', w') := vhd_vring_uninit vring w in
          uninit_vrings_from n' (S i) (<[i := vring']> vrings) w'
      | None => uninit_vrings_from n' (S i) vrings w
      end
  end.

Definition change_device_state (vdev : vhd_vdev) (new_state : vhd_vdev_state) (w : World)
  : Z * vhd_vdev * World :=
  (* the listen arm shared by the CONNECTED (fall through) and the
     INITIALIZED case *)
  let listen (vdev : vhd_vdev) (w : World) :=
    let '(ret, w') := vhd_add_vhost_event (listenfd vdev) w in
    if negb (ret =? 0) then (ret, vdev, w')
    else (0, set_state new_state vdev, w') in
  match new_state with
  | VDEV_LISTENING =>
      match state vdev with
      | VDEV_CONNECTED =>
          let w := vhd_del_vhost_event (connfd vdev) w in
          let '(memmap, w) := vhd_guest_memory_unmap_all (guest_memmap vdev) w in
          let vdev := set_guest_memmap memmap vdev in
          let vdev := set_is_owned false vdev in
          let '(vrings', w) :=
            uninit_vrings_from (Z.to_nat (max_queues vdev)) 0 (vrings vdev) w in
          let vdev := set_vrings vrings' vdev in
          let w := sys_close (connfd vdev) w in
          let vdev := set_connfd (-1) vdev in
          listen vdev w
      | VDEV_INITIALIZED => listen vdev w
      | VDEV_LISTENING => (- EINVAL, vdev, w)
      end
  | VDEV_CONNECTED =>
      match state vdev with
      | VDEV_LISTENING =>
          let '(ret, w') := vhd_add_vhost_event (connfd vdev) w in
          if negb (ret =? 0) then (ret, vdev, w')
          else (0, set_state new_state vdev, vhd_del_vhost_event (listenfd vdev) w')
      | _ => (- EINVAL, vdev, w)
      end
  | VDEV_INITIALIZED => (- EINVAL, vdev, w)
  end.

Definition conn_close (vdev : vhd_vdev) (w : World) : Z * vhd_vdev * World :=
  change_device_state vdev VDEV_LISTENING w.

(** [vhd_vdev_uninit] on a non-null device: the listen socket is closed,
    the first [max_queues] vrings are torn down, the in-flight region is
    released, then [LIST_REMOVE(vdev, vdev_list)] unlinks the device from
    [g_vdevs] and [vhd_free(vdev->vrings)] releases the vring array.  The
    program leaves [vrings] dangling; a released array holds no vring, so
    the model leaves the empty list, with [max_queues] and [num_queues]
    as they were. *)
Definition vhd_vdev_uninit (vdev : vhd_vdev) (w : World) : vhd_vdev * World :=
  let w := sys_close (listenfd vdev) w in
  let '(vrings', w) :=
    uninit_vrings_from (Z.to_nat (max_queues vdev)) 0 (vrings vdev) w in
  let vdev := set_vrings vrings' vdev in
  let '(vdev, w) := vhd_vdev_inflight_cleanup vdev w in
  let vdev := set_vdev_list false vdev in
  let vdev := set_vrings [] vdev in
  (vdev, w).

(** *** Notions used to state the properties *)

(** The transitions of the connection state machine. *)
Definition allowed_transition (from to : vhd_vdev_state) : bool :=
  match from, to with
  | VDEV_INITIALIZED, VDEV_LISTENING
  | VDEV_LISTENING, VDEV_CONNECTED
  | VDEV_CONNECTED, VDEV_LISTENING => true
  | _, _ => false
  end.

(** The test of the two search loops on one region. *)
Definition holds_gpa (reg : vhd_guest_memory_region) (gpa : Z) : bool :=
  is_region_mapped reg
  && (reg_gpa reg <=? gpa)
  && (wrap64 (gpa - reg_gpa reg) <? region_size_bytes reg).

(** [gpa] lies in the mapped region [reg]. *)
Definition region_holds (reg : vhd_guest_memory_region) (gpa : Z) : Prop :=
  is_region_mapped reg = true
  /\ reg_gpa reg <= gpa < reg_gpa reg + region_size_bytes reg.

(** The range [gpa, gpa + len) lies in the mapped region [reg]. *)
Definition region_covers (reg : vhd_guest_memory_region) (gpa len : Z) : Prop :=
  is_region_mapped reg = true
  /\ reg_gpa reg <= gpa
  /\ gpa + len <= reg_gpa reg + region_size_bytes reg.

(** Slot [i] is the first slot of the map whose region holds [gpa]. *)
Definition first_holder (map : vhd_guest_memory_map) (gpa : Z) (i : nat)
    (reg : vhd_guest_memory_region) : Prop :=
  (i < Z.to_nat VHOST_USER_MEM_REGIONS_MAX)%nat
  /\ map !! i = Some reg
  /\ region_holds reg gpa
  /\ forall j r, (j < i)%nat -> map !! j = Some r -> ~ region_holds r gpa.

(** The fields of a region are in the range of their C types, and a
    mapped region lies inside the address space. *)
Definition region_wf (reg : vhd_guest_memory_region) : bool :=
  (0 <=? reg_gpa reg) && (reg_gpa reg <? 2 ^ 64)
  && (0 <=? reg_pages reg) && (reg_pages reg <? 2 ^ 32)
  && (0 <=? reg_hva reg)
  && (reg_hva reg + region_size_bytes reg <=? 2 ^ 64).

Definition memmap_wf (map : vhd_guest_memory_map) : bool := forallb region_wf map.

(** The device [vdev'] is [vdev] with [ci] written to the [client_info]
    of the vring [v] in slot [p]: the slot holds a vring with that
    [client_info] and the other fields of [v]; the other slots and every
    other field of the device are as in [vdev]. *)
Definition vring_written (vdev : vhd_vdev) (p : nat) (v : vhd_vring)
    (ci : vring_client_info) (vdev' : vhd_vdev) : Prop :=
  (exists v', vrings vdev' !! p = Some v' /\ client_info v' = ci
              /\ id v' = id v /\ kickfd v' = kickfd v /\ callfd v' = callfd v
              /\ errfd v' = errfd v /\ is_enabled v' = is_enabled v /\ vq v' = vq v)
  /\ (forall j, j <> p -> vrings vdev' !! j = vrings vdev !! j)
  /\ length (vrings vdev') = length (vrings vdev)
  /\ listenfd vdev' = listenfd vdev /\ connfd vdev' = connfd vdev
  /\ state vdev' = state vdev /\ is_owned vdev' = is_owned vdev
  /\ supported_protocol_features vdev' = supported_protocol_features vdev
  /\ negotiated_protocol_features vdev' = negotiated_protocol_features vdev
  /\ supported_features vdev' = supported_features vdev
  /\ negotiated_features vdev' = negotiated_features vdev
  /\ max_queues vdev' = max_queues vdev /\ num_queues vdev' = num_queues vdev
  /\ guest_memmap vdev' = guest_memmap vdev
  /\ inflightfd vdev' = inflightfd vdev /\ inflight_mem vdev' = inflight_mem vdev
  /\ inflight_size vdev' = inflight_size vdev /\ vdev_list vdev' = vdev_list vdev.


(** What teardown does to one vring: [v'] is [v] disabled. *)
Definition torn_down (v v' : vhd_vring) : Prop :=
  is_enabled v' = false
  /\ client_info v' = client_info v
  /\ id v' = id v
  /\ kickfd v' = kickfd v
  /\ callfd v' = callfd v
  /\ errfd v' = errfd v
  /\ (is_enabled v = false -> v' = v)
  /\ (is_enabled v = true -> vq_attached (vq v') = false).


(** The acknowledgement of [msg] carrying the status [ret]: a [u64]
    reply, sent without fds. *)
Definition ack_message (msg : vhost_user_msg) (ret : Z) : vhost_user_msg * list Z :=
  (mk_msg (req msg) VHOST_USER_MSG_FLAGS_REPLY 8 (set_u64 (wrap64 ret) zero_payload), []).





(** The byte at offset [off] of a freshly initialised per-queue
    sub-region: [version = 1] at offset 8, [desc_num = qsize] at offsets
    10 and 11, zero everywhere else. *)
Definition header_byte (qsize off : Z) : Z :=
  if off =? off_version then 1
  else if off =? off_desc_num then qsize mod 256
  else if off =? off_desc_num + 1 then Z.shiftr qsize 8 mod 256
  else 0.

(** *** Notions for client addresses and released regions *)

(** The test of [map_uva] on one region. *)
Definition holds_uva (reg : vhd_guest_memory_region) (uva : Z) : bool :=
  is_region_mapped reg
  && (reg_uva reg <=? uva)
  && (wrap64 (uva - reg_uva reg) <? region_size_bytes reg).

(** The client address [uva] lies in the mapped region [reg]. *)
Definition region_holds_uva (reg : vhd_guest_memory_region) (uva : Z) : Prop :=
  is_region_mapped reg = true
  /\ reg_uva reg <= uva < reg_uva reg + region_size_bytes reg.

(** Slot [i] is the first slot of the map whose region holds [uva]. *)
Definition first_uva_holder (map : vhd_guest_memory_map) (uva : Z) (i : nat)
    (reg : vhd_guest_memory_region) : Prop :=
  (i < Z.to_nat VHOST_USER_MEM_REGIONS_MAX)%nat
  /\ map !! i = Some reg
  /\ region_holds_uva reg uva
  /\ forall j r, (j < i)%nat -> map !! j = Some r -> ~ region_holds_uva r uva.

(** [region_wf], and the client address is in the range of [uint64_t]. *)
Definition region_uva_wf (reg : vhd_guest_memory_region) : bool :=
  region_wf reg && (0 <=? reg_uva reg) && (reg_uva reg <? 2 ^ 64).

Definition memmap_uva_wf (map : vhd_guest_memory_map) : bool := forallb region_uva_wf map.

(** What unmapping leaves of a region. *)
Definition released (reg : vhd_guest_memory_region) : vhd_guest_memory_region :=
  if is_region_mapped reg then zero_region else reg.

(** The mapped regions among the first VHOST_USER_MEM_REGIONS_MAX slots. *)
Definition live_regions (map : vhd_guest_memory_map) : list vhd_guest_memory_region :=
  List.filter is_region_mapped (take (Z.to_nat VHOST_USER_MEM_REGIONS_MAX) map).


(** Slot [j] of the map already holds the guest range that region [j] of
    the memory table [desc] describes: the slot is mapped with the same
    guest address and page count, and the region passes the checks of
    [map_guest_region]. *)
Definition slot_matches (memmap : vhd_guest_memory_map) (desc : vhost_user_mem_desc)
    (j : nat) : Prop :=
  let region := default (mk_mem_region 0 0 0 0) (regions desc !! j) in
  Z.of_nat j < VHOST_USER_MEM_REGIONS_MAX
  /\ VHD_IS_ALIGNED (size region) PAGE_SIZE = true
  /\ VHD_IS_ALIGNED (mmap_offset region) PAGE_SIZE = true
  /\ exists r, memmap !! j = Some r
       /\ reg_hva r <> 0
       /\ reg_gpa r = guest_addr region
       /\ reg_pages r = wrap32 (Z.shiftr (size region) PAGE_SHIFT).


(** *** Notions for the frame of a message *)

(** The fields that identify the device and its connection. *)
Definition same_identity (d d' : vhd_vdev) : Prop :=
  listenfd d' = listenfd d /\ connfd d' = connfd d /\ state d' = state d
  /\ max_queues d' = max_queues d /\ num_queues d' = num_queues d
  /\ supported_protocol_features d' = supported_protocol_features d
  /\ length (vrings d') = length (vrings d)
  /\ length (guest_memmap d') = length (guest_memmap d).

(** The opcodes whose handler works on one vring. *)
Definition is_vring_request (r : vhost_user_request) : bool :=
  match r with
  | VHOST_USER_SET_VRING_CALL
  | VHOST_USER_SET_VRING_KICK
  | VHOST_USER_SET_VRING_ERR
  | VHOST_USER_SET_VRING_NUM
  | VHOST_USER_SET_VRING_BASE
  | VHOST_USER_GET_VRING_BASE
  | VHOST_USER_SET_VRING_ADDR
  | VHOST_USER_SET_VRING_ENABLE => true
  | _ => false
  end.

(** The opcodes whose handler works on the inflight region. *)
Definition is_inflight_request (r : vhost_user_request) : bool :=
  match r with
  | VHOST_USER_GET_INFLIGHT_FD
  | VHOST_USER_SET_INFLIGHT_FD => true
  | _ => false
  end.


(** The opcodes whose handler can attach a kick fd to the request queue
    or detach it. *)
Definition is_enabling_request (r : vhost_user_request) : bool :=
  match r with
  | VHOST_USER_SET_VRING_KICK
  | VHOST_USER_GET_VRING_BASE
  | VHOST_USER_SET_VRING_ENABLE => true
  | _ => false
  end.

(** The opcodes whose handler can close an fd or release a mapping. *)
Definition is_releasing_request (r : vhost_user_request) : bool :=
  match r with
  | VHOST_USER_SET_MEM_TABLE
  | VHOST_USER_GET_INFLIGHT_FD
  | VHOST_USER_SET_INFLIGHT_FD => true
  | _ => false
  end.

(** Between [w] and [w'] only messages were sent: no fd closed, no
    mapping released, no event source added or removed, no byte of
    mapped memory written. *)
Definition only_sent (w w' : World) : Prop :=
  w_closed w' = w_closed w /\ w_unmapped w' = w_unmapped w
  /\ w_vhost_events w' = w_vhost_events w /\ w_rq_events w' = w_rq_events w
  /\ w_mem w' = w_mem w.


(** *** The invariant of a device *)

(** The virtqueue of a vring is attached exactly while the vring is
    enabled, and then it runs on the configuration stored in the vring
    and notifies on the vring's call fd. *)
Definition vring_consistent (v : vhd_vring) : Prop :=
  vq_attached (vq v) = is_enabled v
  /\ (is_enabled v = true ->
      vq_notify_fd (vq v) = callfd v /\ vq_info (vq v) = client_info v).

(** The vring array holds at least [num_queues] vrings, so that a vring
    found by [get_vring] lies inside it; the vring in slot [j] has id
    [j] and is consistent; the memory map has its
    VHOST_USER_MEM_REGIONS_MAX slots. *)
Definition vdev_wf (d : vhd_vdev) : Prop :=
  0 <= num_queues d <= Z.of_nat (length (vrings d))
  /\ length (guest_memmap d) = Z.to_nat VHOST_USER_MEM_REGIONS_MAX
  /\ forall j v, vrings d !! j = Some v -> id v = Z.of_nat j /\ vring_consistent v.

(** One handler step on the vrings: nothing, or one vring replaced by a
    vring with the same id that is consistent if the old one was. *)
Definition vring_step (d d' : vhd_vdev) : Prop :=
  d' = d
  \/ exists p v', d' = store_vring p v' d
       /\ id v' = id (vring_at d p)
       /\ (vring_consistent (vring_at d p) -> vring_consistent v').

End Engine.

(** ** Listen socket, accept and device set-up *)

(** errno and [fcntl] values (Linux), and [sizeof(sockaddr.sun_path)]. *)
Definition ENOENT : Z := 2.
Definition O_NONBLOCK : Z := 2048.
Definition SUN_PATH_SIZE : Z := 108.

(** The protocol feature bits of [g_default_protocol_features] besides
    REPLY_ACK; they are declared in the protocol header. *)
Class ServerConstants := {
  VHOST_USER_PROTOCOL_F_MQ : Z;
  VHOST_USER_PROTOCOL_F_LOG_SHMFD : Z;
  VHOST_USER_PROTOCOL_F_CONFIG : Z
}.

(** Outcomes of the socket and file-system calls of the listen and accept
    paths; the first argument is the tick of the call.  A call that
    succeeds yields a non-negative fd or flag word, hence [N]. *)
Class SocketHost := {
  (** [stat(path, &buf)]: [S_ISSOCK(buf.st_mode)], or errno. *)
  sys_stat : nat -> String.string -> bool + positive;
  (** [unlink(path)]: errno on failure. *)
  sys_unlink : nat -> String.string -> option positive;
  (** [socket(AF_UNIX, SOCK_STREAM, 0)]: the fd, or errno. *)
  sys_socket : nat -> N + positive;
  (** [bind(fd, path)]: errno on failure. *)
  sys_bind : nat -> Z -> String.string -> option positive;
  (** [listen(fd, backlog)]: errno on failure. *)
  sys_listen : nat -> Z -> Z -> option positive;
  (** [fcntl(fd, F_GETFL, 0)]: the flags, or errno. *)
  sys_fcntl_getfl : nat -> Z -> N + positive;
  (** [fcntl(fd, F_SETFL, flags)]: errno on failure. *)
  sys_fcntl_setfl : nat -> Z -> Z -> option positive;
  (** [accept(fd, NULL, NULL)]: the connection fd, or errno. *)
  sys_accept : nat -> Z -> N + positive
}.

(** The [World] together with what the listen and accept paths do to
    sockets and to the file system, newest entry first. *)
Record ServerWorld := mk_server_world {
  sw_os : World;
  sw_unlinked : list String.string;
  sw_sockets : list Z;
  sw_bound : list (Z * String.string);
  sw_listening : list (Z * Z);
  sw_flags_set : list (Z * Z)
}.

Definition with_os (w : World) (sw : ServerWorld) : ServerWorld :=
  mk_server_world w (sw_unlinked sw) (sw_sockets sw) (sw_bound sw) (sw_listening sw)
    (sw_flags_set sw).

Definition sw_tick (sw : ServerWorld) : ServerWorld := with_os (tick (sw_os sw)) sw.

Definition sw_now (sw : ServerWorld) : nat := w_tick (sw_os sw).

Definition sw_close (fd : Z) (sw : ServerWorld) : ServerWorld :=
  with_os (sys_close fd (sw_os sw)) sw.

Definition log_unlink (path : String.string) (sw : ServerWorld) : ServerWorld :=
  mk_server_world (sw_os sw) (path :: sw_unlinked sw) (sw_sockets sw) (sw_bound sw)
    (sw_listening sw) (sw_flags_set sw).

Definition log_socket (fd : Z) (sw : ServerWorld) : ServerWorld :=
  mk_server_world (sw_os sw) (sw_unlinked sw) (fd :: sw_sockets sw) (sw_bound sw)
    (sw_listening sw) (sw_flags_set sw).

Definition log_bind (fd : Z) (path : String.string) (sw : ServerWorld) : ServerWorld :=
  mk_server_world (sw_os sw) (sw_unlinked sw) (sw_sockets sw) ((fd, path) :: sw_bound sw)
    (sw_listening sw) (sw_flags_set sw).

Definition log_listen (fd backlog : Z) (sw : ServerWorld) : ServerWorld :=
  mk_server_world (sw_os sw) (sw_unlinked sw) (sw_sockets sw) (sw_bound sw)
    ((fd, backlog) :: sw_listening sw) (sw_flags_set sw).

Definition log_setfl (fd flags : Z) (sw : ServerWorld) : ServerWorld :=
  mk_server_world (sw_os sw) (sw_unlinked sw) (sw_sockets sw) (sw_bound sw)
    (sw_listening sw) ((fd, flags) :: sw_flags_set sw).

Section Server.
Context {K : Constants} {H : Host} {SK : ServerConstants} {SH : SocketHost}.

Definition g_default_protocol_features : Z :=
  Z.lor (Z.lor (Z.lor (Z.shiftl 1 VHOST_USER_PROTOCOL_F_MQ)
                      (Z.shiftl 1 VHOST_USER_PROTOCOL_F_LOG_SHMFD))
               (Z.shiftl 1 VHOST_USER_PROTOCOL_F_REPLY_ACK))
        (Z.shiftl 1 VHOST_USER_PROTOCOL_F_CONFIG).

Definition prepare_server_sock_path (path : String.string) (sw : ServerWorld)
  : Z * ServerWorld :=
  match sys_stat (sw_now sw) path with
  | inr errno =>
      if Z.pos errno =? ENOENT then (0, sw_tick sw) else (Z.pos errno, sw_tick sw)
  | inl is_sock =>
      let sw := sw_tick sw in
      if negb is_sock then (EINVAL, sw)
      else
        match sys_unlink (sw_now sw) path with
        | Some errno => (Z.pos errno, sw_tick sw)
        | None => (0, sw_tick (log_unlink path sw))
        end
  end.

Definition sock_create_server (path : String.string) (sw : ServerWorld)
  : Z * ServerWorld :=
  if SUN_PATH_SIZE <=? Z.of_nat (String.length path) then (-1, sw)
  else
    let '(ret, sw) := prepare_server_sock_path path sw in
    if negb (ret =? 0) then (-1, sw)
    else
      match sys_socket (sw_now sw) with
      | inr _ => (-1, sw_tick sw)
      | inl fd =>
          let fd := Z.of_N fd in
          let sw := log_socket fd (sw_tick sw) in
          match sys_bind (sw_now sw) fd path with
          | Some _ => (-1, sw_close fd (sw_tick sw))
          | None =>
              let sw := sw_tick (log_bind fd path sw) in
              match sys_listen (sw_now sw) fd 1 with
              | Some _ => (-1, sw_close fd (sw_tick sw))
              | None =>
                  let sw := sw_tick (log_listen fd 1 sw) in
                  match sys_fcntl_getfl (sw_now sw) fd with
                  | inr _ => (-1, sw_close fd (sw_tick sw))
                  | inl flags =>
                      let flags := Z.lor (Z.of_N flags) O_NONBLOCK in
                      let sw := sw_tick sw in
                      match sys_fcntl_setfl (sw_now sw) fd flags with
                      | Some _ => (-1, sw_close fd (sw_tick sw))
                      | None => (fd, sw_tick (log_setfl fd flags sw))
                      end
                  end
              end
          end
      end.

Definition server_read (vdev : vhd_vdev) (sw : ServerWorld) : Z * vhd_vdev * ServerWorld :=
  match sys_accept (sw_now sw) (listenfd vdev) with
  | inr errno => (Z.pos errno, vdev, sw_tick sw)
  | inl connfd =>
      let connfd := Z.of_N connfd in
      let sw := sw_tick sw in
      match sys_fcntl_getfl (sw_now sw) connfd with
      | inr errno => (Z.pos errno, vdev, sw_close connfd (sw_tick sw))
      | inl flags =>
          let flags := Z.lor (Z.of_N flags) O_NONBLOCK in
          let sw := sw_tick sw in
          match sys_fcntl_setfl (sw_now sw) connfd flags with
          | Some errno => (Z.pos errno, vdev, sw_close connfd (sw_tick sw))
          | None =>
              let sw := sw_tick (log_setfl connfd flags sw) in
              let vdev := set_connfd connfd vdev in
              let '(ret, vdev, w) := change_device_state vdev VDEV_CONNECTED (sw_os sw) in
              if negb (ret =? 0) then (ret, vdev, sw_close connfd (with_os w sw))
              else (0, vdev, with_os w sw)
          end
      end
  end.

Definition server_close (vdev : vhd_vdev) : Z := 0.

(** [memset(vdev, 0, sizeof( *vdev))]; the memory map is the array of
    VHOST_USER_MEM_REGIONS_MAX zeroed regions, [vrings] is [NULL]. *)
Definition zero_vdev : vhd_vdev :=
  mk_vdev 0 0 VDEV_INITIALIZED false 0 0 0 0 0 0 []
    (replicate (Z.to_nat VHOST_USER_MEM_REGIONS_MAX) zero_region) 0 0 0 false.

(** [for (i = 0; i < max_queues; ++i) vhd_vring_init(vdev->vrings + i, i, vdev);]
    with [n] vrings left from vring [i]. *)
Fixpoint init_vrings_from (n : nat) (i : nat) (vrings : list vhd_vring) : list vhd_vring :=
  match n with
  | O => vrings
  | S n' =>
      init_vrings_from n' (S i)
        (<[i := vhd_vring_init (default zero_vring (vrings !! i)) (Z.of_nat i)]> vrings)
  end.

(** [vhd_vdev_init_server]; [None] is the abort of [VHD_VERIFY(max_queues > 0)].
    The device type, the request queue and the private pointer are not
    modelled; [LIST_INSERT_HEAD(&g_vdevs, vdev, vdev_list)] sets
    [vdev_list]. *)
Definition vhd_vdev_init_server (socket_path : String.string) (max_queues : Z)
    (sw : ServerWorld) : option (Z * vhd_vdev * ServerWorld) :=
  if max_queues <=? 0 then None
  else
    let vdev := zero_vdev in
    let '(listenfd, sw) := sock_create_server socket_path sw in
    if listenfd <? 0 then Some (-1, vdev, sw)
    else
      let vrings :=
        init_vrings_from (Z.to_nat max_queues) 0
          (replicate (Z.to_nat max_queues) zero_vring) in
      let vdev :=
        mk_vdev listenfd (-1) VDEV_INITIALIZED false
          g_default_protocol_features 0 0 0
          (wrap32 max_queues) (wrap32 max_queues) vrings
          (guest_memmap vdev) (-1) 0 0 true in
      let '(ret, vdev, w) := change_device_state vdev VDEV_LISTENING (sw_os sw) in
      if negb (ret =? 0) then
        let '(vdev, w) := vhd_vdev_uninit vdev w in
        Some (ret, vdev, with_os w sw)
      else Some (ret, vdev, with_os w sw).

End Server.

(** ** A concrete platform

    The constants of Linux on x86-64 and of the vhost-user protocol, and
    hosts whose calls all succeed or all fail. *)

Definition sample_constants : Constants := {|
  PAGE_SHIFT := 12;
  VHOST_USER_F_PROTOCOL_FEATURES := 30;
  VHOST_USER_PROTOCOL_F_REPLY_ACK := 3;
  VHOST_USER_MSG_FLAGS_REPLY := 4;
  VHOST_USER_MSG_FLAGS_REPLY_ACK := 8;
  VHOST_VRING_IDX_MASK := 255;
  VHOST_VRING_INVALID_FD := 256;
  sizeof_inflight_split_region := 16;
  sizeof_inflight_split_desc := 16;
  sizeof_config_header := 12
|}.

(** Every call succeeds; [mmap] hands out addresses 1 MiB apart. *)
Definition host_ok : Host := {|
  sys_mmap := fun t _ _ _ => inl (Pos.of_nat (S t) * 1048576)%positive;
  sys_sendmsg := fun _ _ m _ => inl (VHOST_MSG_HDR_SIZE + msg_size m);
  sys_memfd_create := fun t => inl (100 + Z.of_nat t);
  sys_ftruncate := fun _ _ _ => None;
  virtq_attach_result := fun _ _ => 0;
  attach_event_result := fun _ _ => 0;
  add_vhost_event_result := fun _ _ => 0;
  type_get_features := fun _ => 0;
  type_get_config := fun _ buf n => (n, buf)
|}.

(** Every fallible call fails. *)
Definition host_failing : Host := {|
  sys_mmap := fun _ _ _ _ => inr 12%positive;
  sys_sendmsg := fun _ _ _ _ => inr 32%positive;
  sys_memfd_create := fun _ => inr 24%positive;
  sys_ftruncate := fun _ _ _ => Some 22%positive;
  virtq_attach_result := fun _ _ => EINVAL;
  attach_event_result := fun _ _ => - EINVAL;
  add_vhost_event_result := fun _ _ => - EINVAL;
  type_get_features := fun _ => 0;
  type_get_config := fun _ buf n => (n, buf)
|}.

Definition empty_world : World := mk_world 0 [] [] [] [] [] (fun _ => 0).

Definition fresh_vring (i : Z) : vhd_vring := vhd_vring_init zero_vring i.

(** A device as [vhd_vdev_init_server] leaves it (two queues, listen
    socket 3), then connected on socket 4. *)
Definition sample_vdev : vhd_vdev := {|
  listenfd := 3;
  connfd := 4;
  state := VDEV_CONNECTED;
  is_owned := true;
  supported_protocol_features := 0;
  negotiated_protocol_features := 0;
  supported_features := 0;
  negotiated_features := 0;
  max_queues := 2;
  num_queues := 2;
  vrings := [fresh_vring 0; fresh_vring 1];
  guest_memmap := replicate 8 zero_region;
  inflightfd := -1;
  inflight_mem := 0;
  inflight_size := 0;
  vdev_list := true
|}.

Definition sample_msg (r : vhost_user_request) : vhost_user_msg :=
  mk_msg r 1 0 zero_payload.

(** The memory map of one 64 KiB region at guest address 0, mapped at
    host address 0x100000. *)
Definition one_region_map : vhd_guest_memory_map :=
  mk_region 0 139637976727552 1048576 16 5 :: replicate 7 zero_region.

(** Two mapped regions that both start at guest address 0: one page in
    slot 0, two pages in slot 1. *)
Definition overlapping_map : vhd_guest_memory_map :=
  mk_region 0 139637976727552 1048576 1 5
  :: mk_region 0 139637976727552 2097152 2 6
  :: replicate 6 zero_region.

(** Messages with a vring-state or a vring-address payload. *)
Definition vring_state_msg (r : vhost_user_request) (flags index num : Z)
  : vhost_user_msg :=
  mk_msg r flags 8
    (mk_payload 0 (mk_vring_state index num) (mk_vring_addr 0 0 0 0) (mk_mem_desc 0 [])
       (mk_config_space 0 []) (mk_inflight_desc 0 0 0 0)).

(** Two mapped regions side by side: one page at guest address 0 and
    two pages at guest address 4096. *)
Definition two_region_map : vhd_guest_memory_map :=
  mk_region 0 139637976727552 1048576 1 5
  :: mk_region 4096 139637976731648 2097152 2 6
  :: replicate 6 zero_region.

(** A SET_MEM_TABLE message with the given regions. *)
Definition mem_table_msg (rs : list vhost_user_mem_region) : vhost_user_msg :=
  mk_msg VHOST_USER_SET_MEM_TABLE 1 0
    (mk_payload 0 (mk_vring_state 0 0) (mk_vring_addr 0 0 0 0)
       (mk_mem_desc (Z.of_nat (length rs)) rs)
       (mk_config_space 0 []) (mk_inflight_desc 0 0 0 0)).

(** Scenario S2: one region of 64 KiB at guest address 0. *)
Definition s2_msg : vhost_user_msg :=
  mem_table_msg [mk_mem_region 0 65536 139637976727552 0].

(** Vring 0 after SET_VRING_NUM, _BASE, _ADDR, _CALL and _KICK on a
    device that negotiated VHOST_USER_F_PROTOCOL_FEATURES: configured,
    not enabled. *)
Definition configured_info : vring_client_info :=
  mk_client_info 1048576 1052672 1056768 256 0 0.

Definition configured_vring : vhd_vring :=
  mk_vring configured_info 0 7 8 0 false zero_virtq.

Definition configured_vdev : vhd_vdev :=
  set_negotiated_features 1073741824
    (set_vrings [configured_vring; fresh_vring 1]
       (set_guest_memmap one_region_map sample_vdev)).

(** The same vring once enabled, its kick fd attached to the request
    queue. *)
Definition enabled_vring : vhd_vring :=
  mk_vring configured_info 0 7 8 0 true (mk_virtq true configured_info 8 0).

Definition enabled_vdev : vhd_vdev :=
  set_vrings [enabled_vring; fresh_vring 1] configured_vdev.

Definition enabled_world : World := set_rq_events [7] empty_world.

(** Scenario S3: a device that did not negotiate
    VHOST_USER_F_PROTOCOL_FEATURES, vring 0 configured up to SET_VRING_CALL,
    and the SET_VRING_KICK message for vring 0. *)
Definition prekick_vring : vhd_vring :=
  mk_vring configured_info 0 (-1) 8 0 false zero_virtq.

Definition legacy_vdev : vhd_vdev :=
  set_negotiated_features 0
    (set_vrings [prekick_vring; fresh_vring 1] configured_vdev).

Definition kick_msg : vhost_user_msg := mk_msg VHOST_USER_SET_VRING_KICK 1 8 zero_payload.

(** Scenario S6: REPLY_ACK negotiated (protocol feature bit 3), and a
    SET_VRING_NUM for vring 99 that carries the REPLY_ACK flag. *)
Definition ack_vdev : vhd_vdev := set_negotiated_protocol_features 8 sample_vdev.



(** GET_INFLIGHT_FD for two queues of four descriptors. *)
Definition inflight_msg : vhost_user_msg :=
  mk_msg VHOST_USER_GET_INFLIGHT_FD 1 24
    (mk_payload 0 (mk_vring_state 0 0) (mk_vring_addr 0 0 0 0) (mk_mem_desc 0 [])
       (mk_config_space 0 []) (mk_inflight_desc 0 0 2 4)).

(** A connected device that supports the protocol features MQ,
    LOG_SHMFD, REPLY_ACK and CONFIG (bits 0, 1, 3 and 9), and a
    SET_PROTOCOL_FEATURES message that asks for bits 3 and 12. *)
Definition negotiating_vdev : vhd_vdev :=
  mk_vdev 3 4 VDEV_CONNECTED true 523 0 0 0 2 2 [fresh_vring 0; fresh_vring 1]
          (replicate 8 zero_region) (-1) 0 0 true.

Definition greedy_features_msg : vhost_user_msg :=
  mk_msg VHOST_USER_SET_PROTOCOL_FEATURES 1 8 (set_u64 4104 zero_payload).

(** A SET_FEATURES message that asks for VHOST_USER_F_PROTOCOL_FEATURES
    and for bit 0. *)
Definition set_features_msg : vhost_user_msg :=
  mk_msg VHOST_USER_SET_FEATURES 1 8 (set_u64 1073741825 zero_payload).

(** The device of [enabled_vdev] when VHOST_USER_F_PROTOCOL_FEATURES was
    not negotiated. *)
Definition legacy_enabled_vdev : vhd_vdev := set_negotiated_features 0 enabled_vdev.


(** Every call succeeds but [mmap], which fails with ENOMEM. *)
Definition host_no_mmap : Host := {|
  sys_mmap := fun _ _ _ _ => inr 12%positive;
  sys_sendmsg := fun _ _ m _ => inl (VHOST_MSG_HDR_SIZE + msg_size m);
  sys_memfd_create := fun t => inl (100 + Z.of_nat t);
  sys_ftruncate := fun _ _ _ => None;
  virtq_attach_result := fun _ _ => 0;
  attach_event_result := fun _ _ => 0;
  add_vhost_event_result := fun _ _ => 0;
  type_get_features := fun _ => 0;
  type_get_config := fun _ buf n => (n, buf)
|}.

(** The enabled device with its connection socket registered with the
    vhost event loop. *)
Definition connected_world : World := set_vhost_events [4] enabled_world.

(** The protocol feature bits of the vhost-user protocol. *)
Definition sample_server_constants : ServerConstants := {|
  VHOST_USER_PROTOCOL_F_MQ := 0;
  VHOST_USER_PROTOCOL_F_LOG_SHMFD := 1;
  VHOST_USER_PROTOCOL_F_CONFIG := 9
|}.

(** No file at the socket path and every socket call succeeds; [socket]
    hands out fd 3 and [accept] fd 4. *)
Definition socket_host_ok : SocketHost := {|
  sys_stat := fun _ _ => inr 2%positive;
  sys_unlink := fun _ _ => None;
  sys_socket := fun _ => inl 3%N;
  sys_bind := fun _ _ _ => None;
  sys_listen := fun _ _ _ => None;
  sys_fcntl_getfl := fun _ _ => inl 2%N;
  sys_fcntl_setfl := fun _ _ _ => None;
  sys_accept := fun _ _ => inl 4%N
|}.

Definition empty_server_world : ServerWorld := mk_server_world empty_world [] [] [] [] [].

Definition sample_path : String.string := "/tmp/vhost.sock"%string.

(** A device listening on socket 3. *)
Definition listening_vdev : vhd_vdev :=
  mk_vdev 3 (-1) VDEV_LISTENING false 523 0 0 0 2 2 [fresh_vring 0; fresh_vring 1]
          (replicate 8 zero_region) (-1) 0 0 true.


(** SET_VRING_ADDR for vring 0: the descriptor table at the start of
    the region of [one_region_map], the available ring one page and the
    used ring two pages further. *)
Definition ring_addr_msg : vhost_user_msg :=
  mk_msg VHOST_USER_SET_VRING_ADDR 1 40
    (mk_payload 0 (mk_vring_state 0 0)
       (mk_vring_addr 0 139637976727552 (139637976727552 + 8192) (139637976727552 + 4096))
       (mk_mem_desc 0 []) (mk_config_space 0 []) (mk_inflight_desc 0 0 0 0)).

(** A SET_MEM_TABLE message of two regions: the region of
    [one_region_map] and 8 KiB at guest address 65536. *)
Definition two_region_msg : vhost_user_msg :=
  mem_table_msg [mk_mem_region 0 65536 139637976727552 0;
                 mk_mem_region 65536 8192 139637976793088 0].


(** ** Tactics *)

(** Closed goals over concrete inputs are settled by evaluation. *)
Ltac evaluate :=
  vm_compute;
  repeat match goal with |- _ /\ _ => split end;
  first [ reflexivity | discriminate | (intros ?; discriminate) | lia | tauto ].

(** Case analysis on every integer equality test of the goal. *)
Ltac decide_eqb :=
  repeat match goal with
         | |- context [?x =? ?y] => destruct (Z.eqb_spec x y); try lia
         end.

(** ** Properties *)

Section Properties.
Context {K : Constants} {H : Host}.

(** C1. [change_device_state] returns 0 only for INITIALIZED -> LISTENING,
    LISTENING -> CONNECTED and CONNECTED -> LISTENING, and then the state
    field is the new state; for every other pair it returns [-EINVAL] and
    the device (its state field included) and the world are as before.
    Whenever it returns an error the state field is unchanged. *)
Theorem change_device_state_transitions (vdev : vhd_vdev) (new_state : vhd_vdev_state)
    (w : World) :
  let '(ret, vdev', w') := change_device_state vdev new_state w in
  (ret = 0 -> allowed_transition (state vdev) new_state = true /\ state vdev' = new_state)
  /\ (allowed_transition (state vdev) new_state = false ->
      ret = - EINVAL /\ ret <> 0 /\ vdev' = vdev /\ w' = w)
  /\ (ret <> 0 -> state vdev' = state vdev).
Proof.
  unfold change_device_state.
  destruct new_state, (state vdev) eqn:Hst; simpl;
    repeat case_match; simplify_eq; simpl;
    repeat split; try done; intros; simplify_eq; try lia;
    match goal with
    | Hne : negb (?r =? 0) = true |- _ =>
        apply negb_true_iff, Z.eqb_neq in Hne; try congruence
    | _ => idtac
    end.
Qed.

(** C10. Asking [vring_set_enable] for the state the vring is already in
    returns 0 and changes neither the vring nor the world, and
    SET_VRING_ENABLE on such a vring returns 0 and leaves the device and
    the world unchanged. *)
Theorem vring_set_enable_idempotent (vdev : vhd_vdev) (msg : vhost_user_msg) (p : nat)
    (vring : vhd_vring) (do_enable : bool) (w : World) :
  (do_enable = is_enabled vring ->
     vring_set_enable vring do_enable w = (0, vring, w))
  /\ (get_vring vdev (vs_index (vring_state (payload msg))) = Some p ->
      vrings vdev !! p = Some vring ->
      (vs_num (vring_state (payload msg)) =? 1) = is_enabled vring ->
      vhost_set_vring_enable vdev msg w = (0, vdev, w)).
Proof.
  split.
  - intros ->. unfold vring_set_enable. by rewrite eqb_reflx.
  - intros Hp Hv Hen. unfold vhost_set_vring_enable, vring_at. rewrite Hp, Hv. simpl.
    unfold vring_set_enable. rewrite Hen, eqb_reflx.
    unfold store_vring. rewrite list_insert_id by done. by destruct vdev.
Qed.

Lemma VHD_IS_ALIGNED_mod (x : Z) :
  0 <= PAGE_SHIFT -> VHD_IS_ALIGNED x PAGE_SIZE = true <-> x mod PAGE_SIZE = 0.
Proof.
  intros Hps. unfold VHD_IS_ALIGNED, PAGE_SIZE.
  rewrite Z.eqb_eq, Z.sub_1_r.
  change (Z.pred (Z.shiftl 1 PAGE_SHIFT)) with (Z.ones PAGE_SHIFT).
  rewrite Z.land_ones by done. by rewrite Z.shiftl_1_l.
Qed.

(** C6. [map_guest_region] returns EINVAL, touching nothing, when the
    index is at least VHOST_USER_MEM_REGIONS_MAX or the size or the offset
    is not a multiple of the page size.  On an occupied slot: when the
    incoming (gpa, pages) pair is the stored one it returns 0, the map is
    as before and the only effect is the close of the incoming fd;
    otherwise it returns EBUSY and nothing changes. *)
Theorem map_guest_region_checks (memmap : vhd_guest_memory_map)
    (index guest_addr user_addr size offset fd : Z) (w : World) :
  0 <= PAGE_SHIFT ->
  let pages := wrap32 (Z.shiftr size PAGE_SHIFT) in
  let res := map_guest_region memmap index guest_addr user_addr size offset fd w in
  (VHOST_USER_MEM_REGIONS_MAX <= index \/ size mod PAGE_SIZE <> 0
     \/ offset mod PAGE_SIZE <> 0 -> res = (EINVAL, memmap, w))
  /\ (forall region,
      0 <= index < VHOST_USER_MEM_REGIONS_MAX ->
      size mod PAGE_SIZE = 0 -> offset mod PAGE_SIZE = 0 ->
      memmap !! Z.to_nat index = Some region -> reg_hva region <> 0 ->
      (reg_gpa region = guest_addr /\ reg_pages region = pages ->
         res = (0, memmap, sys_close fd w))
      /\ (~ (reg_gpa region = guest_addr /\ reg_pages region = pages) ->
         res = (EBUSY, memmap, w))).
Proof.
  intros Hps pages res. subst res. unfold map_guest_region. split.
  - intros Hbad.
    destruct (VHOST_USER_MEM_REGIONS_MAX <=? index) eqn:Hi; [done |].
    destruct (VHD_IS_ALIGNED size PAGE_SIZE) eqn:Hs; [| done].
    destruct (VHD_IS_ALIGNED offset PAGE_SIZE) eqn:Ho; [| done].
    apply VHD_IS_ALIGNED_mod in Hs, Ho; try done.
    apply Z.leb_gt in Hi. lia.
  - intros region Hi Hs Ho Hslot Hlive.
    apply VHD_IS_ALIGNED_mod in Hs, Ho; try done.
    replace (VHOST_USER_MEM_REGIONS_MAX <=? index) with false
      by (symmetry; apply Z.leb_gt; lia).
    rewrite Hs, Ho, Hslot. simpl.
    replace (reg_hva region =? 0) with false by (symmetry; by apply Z.eqb_neq).
    simpl. fold pages. split.
    + intros [-> ->]. by rewrite !Z.eqb_refl.
    + intros Hne.
      destruct (reg_gpa region =? guest_addr) eqn:E1; [| done].
      destruct (reg_pages region =? pages) eqn:E2; [| done].
      apply Z.eqb_eq in E1, E2. tauto.
Qed.

(** *** The search of [map_gpa_len] *)

Lemma map_gpa_len_from_none (map : vhd_guest_memory_map) (gpa last_gpa : Z) (n i : nat) :
  (forall j, (i <= j < i + n)%nat -> holds_gpa (default zero_region (map !! j)) gpa = false) ->
  map_gpa_len_from n i map gpa last_gpa = 0.
Proof.
  revert i. induction n as [| n IH]; intros i Hnone; simpl; [done |].
  fold (holds_gpa (default zero_region (map !! i)) gpa).
  rewrite Hnone by lia. apply IH. intros j Hj. apply Hnone. lia.
Qed.

Lemma map_gpa_len_from_first (map : vhd_guest_memory_map) (gpa last_gpa : Z) (n i k : nat) :
  (i <= k < i + n)%nat ->
  (forall j, (i <= j < k)%nat -> holds_gpa (default zero_region (map !! j)) gpa = false) ->
  holds_gpa (default zero_region (map !! k)) gpa = true ->
  let reg := default zero_region (map !! k) in
  map_gpa_len_from n i map gpa last_gpa =
    if region_size_bytes reg <=? wrap64 (last_gpa - reg_gpa reg) then 0
    else wrap64 (reg_hva reg + wrap64 (gpa - reg_gpa reg)).
Proof.
  revert i. induction n as [| n IH]; intros i Hk Hbefore Hhold reg; [lia |].
  simpl. fold (holds_gpa (default zero_region (map !! i)) gpa).
  destruct (decide (i = k)) as [-> | Hne].
  - by rewrite Hhold.
  - rewrite Hbefore by lia. apply IH; [lia | | done].
    intros j Hj. apply Hbefore. lia.
Qed.

Lemma first_holds_gpa (map : vhd_guest_memory_map) (gpa : Z) (n i : nat) :
  (forall j, (i <= j < i + n)%nat -> holds_gpa (default zero_region (map !! j)) gpa = false)
  \/ exists k, (i <= k < i + n)%nat
       /\ (forall j, (i <= j < k)%nat ->
             holds_gpa (default zero_region (map !! j)) gpa = false)
       /\ holds_gpa (default zero_region (map !! k)) gpa = true.
Proof.
  revert i. induction n as [| n IH]; intros i.
  - left. intros j Hj. lia.
  - destruct (holds_gpa (default zero_region (map !! i)) gpa) eqn:Hi.
    + right. exists i. repeat split; [lia | lia | | done]. intros j Hj. lia.
    + destruct (IH (S i)) as [Hnone | (k & Hk & Hbefore & Hhold)].
      * left. intros j Hj. destruct (decide (j = i)) as [-> | Hne]; [done |].
        apply Hnone. lia.
      * right. exists k. repeat split; [lia | lia | | done].
        intros j Hj. destruct (decide (j = i)) as [-> | Hne]; [done |].
        apply Hbefore. lia.
Qed.

Lemma region_size_bytes_bound (reg : vhd_guest_memory_region) :
  0 <= PAGE_SHIFT <= 31 -> 0 <= reg_pages reg < 2 ^ 32 ->
  0 <= region_size_bytes reg < 2 ^ 63.
Proof.
  intros Hps Hpages. unfold region_size_bytes, wrap64.
  rewrite Z.shiftl_mul_pow2 by lia.
  assert (0 < 2 ^ PAGE_SHIFT <= 2 ^ 31) as Hpow.
  { split; [apply Z.pow_pos_nonneg; lia | apply Z.pow_le_mono_r; lia]. }
  assert (0 <= reg_pages reg * 2 ^ PAGE_SHIFT < 2 ^ 63) as Hb.
  { split; [apply Z.mul_nonneg_nonneg; lia |].
    apply Z.le_lt_trans with (m := (2 ^ 32 - 1) * 2 ^ 31); [| done].
    apply Z.mul_le_mono_nonneg; lia. }
  rewrite Z.mod_small; [lia |]. split; [lia |].
  apply Z.lt_trans with (m := 2 ^ 63); [lia | done].
Qed.

Lemma region_wf_spec (reg : vhd_guest_memory_region) :
  region_wf reg = true ->
  0 <= reg_gpa reg < 2 ^ 64 /\ 0 <= reg_pages reg < 2 ^ 32
  /\ 0 <= reg_hva reg /\ reg_hva reg + region_size_bytes reg <= 2 ^ 64.
Proof.
  unfold region_wf. rewrite !andb_true_iff, !Z.leb_le, !Z.ltb_lt. lia.
Qed.

Lemma memmap_wf_lookup (map : vhd_guest_memory_map) (i : nat) (reg : vhd_guest_memory_region) :
  memmap_wf map = true -> map !! i = Some reg -> region_wf reg = true.
Proof.
  unfold memmap_wf. rewrite forallb_forall. intros Hall Hi.
  apply Hall. apply list_elem_of_In. by eapply list_elem_of_lookup_2.
Qed.

Lemma holds_gpa_spec (reg : vhd_guest_memory_region) (gpa : Z) :
  region_wf reg = true -> 0 <= gpa < 2 ^ 64 ->
  holds_gpa reg gpa = true <-> region_holds reg gpa.
Proof.
  intros Hwf Hgpa. apply region_wf_spec in Hwf.
  unfold holds_gpa, region_holds, wrap64.
  rewrite !andb_true_iff, Z.leb_le, Z.ltb_lt.
  split.
  - intros [[Hm Hle] Hlt]. rewrite Z.mod_small in Hlt by lia. split; [done | lia].
  - intros [Hm Hin]. rewrite Z.mod_small by lia. repeat split; [done | lia | lia].
Qed.

Lemma holds_gpa_default (map : vhd_guest_memory_map) (gpa : Z) (j : nat) :
  holds_gpa (default zero_region (map !! j)) gpa = true ->
  exists r, map !! j = Some r /\ holds_gpa r gpa = true.
Proof.
  destruct (map !! j) as [r |]; simpl; [eauto | done].
Qed.

Lemma first_holder_unique (map : vhd_guest_memory_map) (gpa : Z) (i j : nat)
    (r1 r2 : vhd_guest_memory_region) :
  first_holder map gpa i r1 -> first_holder map gpa j r2 -> i = j /\ r1 = r2.
Proof.
  intros (Hi & Hl1 & Hh1 & Hb1) (Hj & Hl2 & Hh2 & Hb2).
  destruct (Nat.lt_trichotomy i j) as [Hlt | [-> | Hlt]].
  - exfalso. by eapply Hb2.
  - split; [done | congruence].
  - exfalso. by eapply Hb1.
Qed.

(** What [map_gpa_len] computes, through the first slot that holds [gpa]. *)
Lemma map_gpa_len_cases (map : vhd_guest_memory_map) (gpa len : Z) :
  0 <= PAGE_SHIFT <= 31 -> memmap_wf map = true ->
  0 <= gpa < 2 ^ 64 -> 0 < len < 2 ^ 32 ->
  (map_gpa_len map gpa len = 0 /\ forall i r, ~ first_holder map gpa i r)
  \/ exists i reg, first_holder map gpa i reg
       /\ ((region_covers reg gpa len
            /\ map_gpa_len map gpa len = reg_hva reg + (gpa - reg_gpa reg)
            /\ map_gpa_len map gpa len <> 0)
           \/ (~ region_covers reg gpa len /\ map_gpa_len map gpa len = 0)).
Proof.
  intros Hps Hwf Hgpa Hlen. unfold map_gpa_len.
  replace (len =? 0) with false by (symmetry; apply Z.eqb_neq; lia).
  set (n := Z.to_nat VHOST_USER_MEM_REGIONS_MAX).
  destruct (first_holds_gpa map gpa n 0) as [Hnone | (k & Hk & Hbefore & Hhold)].
  - left. split; [by apply map_gpa_len_from_none |].
    intros i r (Hi & Hl & Hh & _).
    specialize (Hnone i ltac:(lia)). rewrite Hl in Hnone. simpl in Hnone.
    apply holds_gpa_spec in Hh; [congruence | by eapply memmap_wf_lookup | done].
  - right. rewrite (map_gpa_len_from_first map gpa _ n 0 k) by (done || lia).
    destruct (holds_gpa_default _ _ _ Hhold) as (reg & Hl & Hh).
    rewrite Hl. simpl.
    pose proof (memmap_wf_lookup _ _ _ Hwf Hl) as Hwfr.
    pose proof (region_wf_spec _ Hwfr) as (Hg & Hp & Hv & Hend).
    pose proof (region_size_bytes_bound reg Hps Hp) as Hsz.
    apply holds_gpa_spec in Hh; [| done | done].
    destruct Hh as [Hm Hin].
    exists k, reg. split.
    { repeat split; try done; try lia.
      intros j r Hj Hlj Hhj.
      specialize (Hbefore j ltac:(lia)). rewrite Hlj in Hbefore. simpl in Hbefore.
      apply holds_gpa_spec in Hhj; [congruence | by eapply memmap_wf_lookup | done]. }
    assert (wrap64 (wrap64 (gpa + len - 1) - reg_gpa reg) = gpa + len - 1 - reg_gpa reg)
      as ->.
    { unfold wrap64. rewrite Zminus_mod_idemp_l. apply Z.mod_small. lia. }
    assert (wrap64 (gpa - reg_gpa reg) = gpa - reg_gpa reg) as ->.
    { unfold wrap64. apply Z.mod_small. lia. }
    destruct (region_size_bytes reg <=? gpa + len - 1 - reg_gpa reg) eqn:Hfit.
    + right. apply Z.leb_le in Hfit. split; [| done].
      intros (_ & _ & Hc). lia.
    + left. apply Z.leb_gt in Hfit.
      assert (reg_hva reg <> 0) as Hnz.
      { unfold is_region_mapped in Hm. apply negb_true_iff, Z.eqb_neq in Hm. done. }
      assert (wrap64 (reg_hva reg + (gpa - reg_gpa reg)) = reg_hva reg + (gpa - reg_gpa reg))
        as ->.
      { unfold wrap64. apply Z.mod_small. lia. }
      repeat split; try done; lia.
Qed.

(** C4 (as amended). For a well-formed memory map, a 64-bit [gpa] and a
    32-bit [len], [map_gpa_len] returns non-null exactly when [len > 0]
    and the first slot (in index order) whose mapped region holds [gpa]
    has a region that contains the whole range [gpa, gpa + len); the
    pointer is then that region's hva plus [gpa - region.gpa].  It is
    null for [len = 0] and whenever the range leaves the region that
    holds [gpa].  When no two mapped regions hold the same address, this
    is: non-null exactly when [len > 0] and some mapped region contains
    the range. *)
Theorem map_gpa_len_first_region (map : vhd_guest_memory_map) (gpa len : Z) :
  0 <= PAGE_SHIFT <= 31 -> memmap_wf map = true ->
  0 <= gpa < 2 ^ 64 -> 0 <= len < 2 ^ 32 ->
  (map_gpa_len map gpa len <> 0 <->
     0 < len /\ exists i reg, first_holder map gpa i reg /\ region_covers reg gpa len)
  /\ (forall i reg, 0 < len -> first_holder map gpa i reg -> region_covers reg gpa len ->
      map_gpa_len map gpa len = reg_hva reg + (gpa - reg_gpa reg))
  /\ (len = 0 -> map_gpa_len map gpa len = 0)
  /\ (forall i reg, first_holder map gpa i reg -> ~ region_covers reg gpa len ->
      map_gpa_len map gpa len = 0)
  /\ ((forall i j r1 r2, map !! i = Some r1 -> map !! j = Some r2 ->
         region_holds r1 gpa -> region_holds r2 gpa -> i = j) ->
      (map_gpa_len map gpa len <> 0 <->
         0 < len /\ exists i reg, (i < Z.to_nat VHOST_USER_MEM_REGIONS_MAX)%nat
                     /\ map !! i = Some reg /\ region_covers reg gpa len)).
Proof.
  intros Hps Hwf Hgpa Hlen.
  assert (len = 0 -> map_gpa_len map gpa len = 0) as Hzero.
  { by intros ->. }
  assert (0 < len ->
          (map_gpa_len map gpa len = 0 /\ forall i r, ~ first_holder map gpa i r)
          \/ exists i reg, first_holder map gpa i reg
               /\ ((region_covers reg gpa len
                    /\ map_gpa_len map gpa len = reg_hva reg + (gpa - reg_gpa reg)
                    /\ map_gpa_len map gpa len <> 0)
                   \/ (~ region_covers reg gpa len /\ map_gpa_len map gpa len = 0)))
    as Hcases.
  { intros Hpos. apply map_gpa_len_cases; (done || lia). }
  assert (map_gpa_len map gpa len <> 0 <->
          0 < len /\ exists i reg, first_holder map gpa i reg /\ region_covers reg gpa len)
    as Hmain.
  { split.
    - intros Hnz. assert (0 < len) as Hpos.
      { destruct (decide (len = 0)) as [Hl0 | Hl0]; [by apply Hzero in Hl0 | lia]. }
      split; [done |].
      destruct (Hcases Hpos)
        as [[Hres _] | (k & reg & Hfirst & [(Hcov & _) | (_ & Hres)])]; try done.
      by exists k, reg.
    - intros (Hpos & i & r & Hf & Hcov).
      destruct (Hcases Hpos)
        as [[_ Hnone] | (k & reg & Hfirst & [(_ & _ & Hnz) | (Hncov & _)])].
      + exfalso. by eapply Hnone.
      + done.
      + destruct (first_holder_unique _ _ _ _ _ _ Hf Hfirst) as [_ ->]. done. }
  split; [exact Hmain |]. split; [| split; [exact Hzero | split]].
  - intros i r Hpos Hf Hcov.
    destruct (Hcases Hpos)
      as [[_ Hnone] | (k & reg & Hfirst & [(_ & Hres & _) | (Hncov & _)])].
    + exfalso. by eapply Hnone.
    + destruct (first_holder_unique _ _ _ _ _ _ Hf Hfirst) as [_ ->]. done.
    + destruct (first_holder_unique _ _ _ _ _ _ Hf Hfirst) as [_ ->]. done.
  - intros i r Hf Hncov.
    destruct (decide (len = 0)) as [Hl0 | Hl0]; [by apply Hzero |].
    destruct (Hcases ltac:(lia))
      as [[Hres _] | (k & reg & Hfirst & [(Hcov & _) | (_ & Hres)])]; try done.
    destruct (first_holder_unique _ _ _ _ _ _ Hf Hfirst) as [_ ->]. done.
  - intros Hdisj. rewrite Hmain. split.
    + intros (Hpos & i & r & (Hi & Hl & _) & Hcov). split; [done |]. by exists i, r.
    + intros (Hpos & i & r & Hi & Hl & Hcov). split; [done |]. exists i, r.
      assert (region_holds r gpa) as Hh.
      { destruct Hcov as (Hm & Hle & Hc). split; [done | lia]. }
      split; [| done]. repeat split; try done; try apply Hh.
      intros j r' Hj Hlj Hhj. specialize (Hdisj _ _ _ _ Hl Hlj Hh Hhj). lia.
Qed.

Lemma wrap32_small (x : Z) : 0 <= x < 2 ^ 32 -> wrap32 x = x.
Proof. intros Hx. unfold wrap32. by apply Z.mod_small. Qed.

Lemma get_vring_not_enabled_None (vdev : vhd_vdev) (index : Z) :
  0 <= index < 2 ^ 32 ->
  num_queues vdev <= index \/ is_enabled (vring_at vdev (Z.to_nat index)) = true ->
  get_vring_not_enabled vdev index = None.
Proof.
  intros Hidx Hbad. unfold get_vring_not_enabled, get_vring.
  rewrite wrap32_small by done.
  destruct (num_queues vdev <=? index) eqn:Hq; [done |].
  apply Z.leb_gt in Hq. destruct Hbad as [Hbad | ->]; [lia | done].
Qed.

Lemma get_vring_not_enabled_Some (vdev : vhd_vdev) (index : Z) :
  0 <= index < 2 ^ 32 ->
  index < num_queues vdev -> is_enabled (vring_at vdev (Z.to_nat index)) = false ->
  get_vring_not_enabled vdev index = Some (Z.to_nat index).
Proof.
  intros Hidx Hlt Hdis. unfold get_vring_not_enabled, get_vring.
  rewrite wrap32_small by done.
  replace (num_queues vdev <=? index) with false by (symmetry; apply Z.leb_gt; lia).
  by rewrite Hdis.
Qed.

Lemma store_client_info_spec (vdev : vhd_vdev) (p : nat) (v : vhd_vring)
    (ci : vring_client_info) :
  vrings vdev !! p = Some v ->
  vring_written vdev p v ci
    (store_vring p (set_client_info ci (vring_at vdev p)) vdev).
Proof.
  intros Hv. unfold vring_written, store_vring, vring_at. rewrite Hv. simpl.
  split.
  - exists (set_client_info ci v).
    split; [apply list_lookup_insert_eq; by eapply lookup_lt_Some |].
    repeat split; done.
  - split; [intros j Hj; by apply list_lookup_insert_ne |].
    split; [by rewrite length_insert |].
    repeat split; done.
Qed.

(** C8. SET_VRING_NUM, SET_VRING_BASE and SET_VRING_ADDR return EINVAL and
    leave the device (so every [client_info]) unchanged when the index is
    not below [num_queues] or the indexed vring is enabled.  Otherwise,
    for a vring [v] of the array, SET_VRING_NUM returns 0 and the
    [client_info] of that vring afterwards has the value of the message in
    [num], SET_VRING_BASE likewise in [base]; SET_VRING_ADDR returns
    EINVAL, again without a change, when [map_uva] yields null for the
    descriptor, used or available address, and else returns 0 and the
    [client_info] of that vring afterwards has the three translated
    addresses in [desc_addr], [avail_addr] and [used_addr].  In each
    success the other fields of [client_info], the other fields of the
    vring, the other vrings and the rest of the device are as before. *)
Theorem set_vring_num_base_addr (vdev : vhd_vdev) (msg : vhost_user_msg) :
  let st := vring_state (payload msg) in
  let ad := vring_addr (payload msg) in
  let bad (index : Z) :=
    num_queues vdev <= index \/ is_enabled (vring_at vdev (Z.to_nat index)) = true in
  let desc := map_uva (guest_memmap vdev) (va_desc_addr ad) in
  let used := map_uva (guest_memmap vdev) (va_used_addr ad) in
  let avail := map_uva (guest_memmap vdev) (va_avail_addr ad) in
  0 <= vs_index st < 2 ^ 32 -> 0 <= va_index ad < 2 ^ 32 ->
  (bad (vs_index st) ->
     vhost_set_vring_num vdev msg = (EINVAL, vdev)
     /\ vhost_set_vring_base vdev msg = (EINVAL, vdev))
  /\ (bad (va_index ad) -> vhost_set_vring_addr vdev msg = (EINVAL, vdev))
  /\ (~ bad (vs_index st) ->
      forall v, vrings vdev !! Z.to_nat (vs_index st) = Some v ->
      let p := Z.to_nat (vs_index st) in
      let ci := client_info v in
      let res_num := vhost_set_vring_num vdev msg in
      let res_base := vhost_set_vring_base vdev msg in
      (res_num.1 = 0
       /\ exists v', vrings res_num.2 !! p = Some v'
            /\ num (client_info v') = to_int32 (vs_num st)
            /\ desc_addr (client_info v') = desc_addr ci
            /\ avail_addr (client_info v') = avail_addr ci
            /\ used_addr (client_info v') = used_addr ci
            /\ base (client_info v') = base ci
            /\ inflight_addr (client_info v') = inflight_addr ci
            /\ vring_written vdev p v (client_info v') res_num.2)
      /\ (res_base.1 = 0
          /\ exists v', vrings res_base.2 !! p = Some v'
               /\ base (client_info v') = to_int32 (vs_num st)
               /\ desc_addr (client_info v') = desc_addr ci
               /\ avail_addr (client_info v') = avail_addr ci
               /\ used_addr (client_info v') = used_addr ci
               /\ num (client_info v') = num ci
               /\ inflight_addr (client_info v') = inflight_addr ci
               /\ vring_written vdev p v (client_info v') res_base.2))
  /\ (~ bad (va_index ad) ->
      (desc = 0 \/ used = 0 \/ avail = 0 ->
         vhost_set_vring_addr vdev msg = (EINVAL, vdev))
      /\ (desc <> 0 -> used <> 0 -> avail <> 0 ->
          forall v, vrings vdev !! Z.to_nat (va_index ad) = Some v ->
          let p := Z.to_nat (va_index ad) in
          let ci := client_info v in
          let res := vhost_set_vring_addr vdev msg in
          res.1 = 0
          /\ exists v', vrings res.2 !! p = Some v'
               /\ desc_addr (client_info v') = desc
               /\ avail_addr (client_info v') = avail
               /\ used_addr (client_info v') = used
               /\ num (client_info v') = num ci
               /\ base (client_info v') = base ci
               /\ inflight_addr (client_info v') = inflight_addr ci
               /\ vring_written vdev p v (client_info v') res.2)).
Proof.
  intros st ad bad desc used avail Hst Had.
  assert (forall index, ~ bad index ->
            index < num_queues vdev
            /\ is_enabled (vring_at vdev (Z.to_nat index)) = false) as Hgood.
  { intros index Hnb. unfold bad in Hnb. split; [lia |].
    destruct (is_enabled (vring_at vdev (Z.to_nat index))); [tauto | done]. }
  assert (forall p v ci,
            vrings vdev !! p = Some v ->
            let d := store_vring p (set_client_info ci (vring_at vdev p)) vdev in
            exists v', vrings d !! p = Some v' /\ client_info v' = ci
                       /\ vring_written vdev p v (client_info v') d) as Hstore.
  { intros p v ci Hv d.
    pose proof (store_client_info_spec vdev p v ci Hv) as Hw. fold d in Hw.
    destruct Hw as [(v' & Hl & Hci & Hrest) Hframe].
    exists v'. split; [done |]. split; [done |]. rewrite Hci.
    split; [| done]. exists v'. done. }
  split; [intros Hbad; split | split; [intros Hbad | split; intros Hnb]].
  - unfold vhost_set_vring_num. fold st. by rewrite get_vring_not_enabled_None.
  - unfold vhost_set_vring_base. fold st. by rewrite get_vring_not_enabled_None.
  - unfold vhost_set_vring_addr. fold ad. by rewrite get_vring_not_enabled_None.
  - intros v Hv p ci res_num res_base. destruct (Hgood _ Hnb) as [Hlt Hdis].
    unfold res_num, res_base, vhost_set_vring_num, vhost_set_vring_base. fold st.
    rewrite get_vring_not_enabled_Some by done. fold p. cbn [fst snd].
    assert (vring_at vdev p = v) as Hat by (unfold vring_at, p; by rewrite Hv).
    rewrite Hat. fold ci.
    split; (split; [done |]).
    + destruct (Hstore p v (mk_client_info (desc_addr ci) (avail_addr ci) (used_addr ci)
                             (to_int32 (vs_num st)) (base ci) (inflight_addr ci)) Hv)
        as (v' & Hl & Hci & Hw).
      rewrite Hat in Hl, Hw. exists v'. split; [done |]. rewrite Hci. simpl.
      rewrite Hci in Hw. repeat split; try done; apply Hw.
    + destruct (Hstore p v (mk_client_info (desc_addr ci) (avail_addr ci) (used_addr ci)
                             (num ci) (to_int32 (vs_num st)) (inflight_addr ci)) Hv)
        as (v' & Hl & Hci & Hw).
      rewrite Hat in Hl, Hw. exists v'. split; [done |]. rewrite Hci. simpl.
      rewrite Hci in Hw. repeat split; try done; apply Hw.
  - split.
    + intros Hnull. destruct (Hgood _ Hnb) as [Hlt Hdis].
      unfold vhost_set_vring_addr. fold ad. rewrite get_vring_not_enabled_Some by done.
      fold desc used avail.
      destruct Hnull as [-> | [-> | ->]]; simpl; by rewrite ?orb_true_r.
    + intros Hd Hu Ha v Hv p ci res. destruct (Hgood _ Hnb) as [Hlt Hdis].
      unfold res, vhost_set_vring_addr. fold ad.
      rewrite get_vring_not_enabled_Some by done.
      fold desc used avail p.
      apply Z.eqb_neq in Hd, Hu, Ha. rewrite Hd, Hu, Ha. cbn [orb fst snd].
      assert (vring_at vdev p = v) as Hat by (unfold vring_at, p; by rewrite Hv).
      rewrite Hat. fold ci. split; [done |].
      destruct (Hstore p v (mk_client_info desc avail used (num ci) (base ci)
                             (inflight_addr ci)) Hv) as (v' & Hl & Hci & Hw).
      rewrite Hat in Hl, Hw. exists v'. split; [done |]. rewrite Hci. simpl.
      rewrite Hci in Hw. repeat split; try done; apply Hw.
Qed.

(** *** SET_MEM_TABLE *)

Lemma unmap_guest_region_unmapped (reg : vhd_guest_memory_region) (w : World) :
  is_region_mapped (unmap_guest_region reg w).1 = false.
Proof.
  unfold unmap_guest_region. destruct (is_region_mapped reg) eqn:Hm; simpl; done.
Qed.

Lemma unmap_guest_region_closed (reg : vhd_guest_memory_region) (w : World) (x : Z) :
  In x (w_closed w) -> In x (w_closed (unmap_guest_region reg w).2).
Proof.
  unfold unmap_guest_region. destruct (is_region_mapped reg); simpl; auto.
Qed.

Lemma unmap_from_spec (n : nat) :
  forall (i : nat) (map : vhd_guest_memory_map) (w : World),
    let res := unmap_from n i map w in
    length res.1 = length map
    /\ (forall j r, (i <= j < i + n)%nat -> res.1 !! j = Some r -> is_region_mapped r = false)
    /\ (forall j, ~ (i <= j < i + n)%nat -> res.1 !! j = map !! j)
    /\ (forall x, In x (w_closed w) -> In x (w_closed res.2)).
Proof.
  induction n as [| n IH]; intros i map w; simpl.
  - repeat split; try done. intros j r Hj. lia.
  - destruct (map !! i) as [reg |] eqn:Hi.
    + pose proof (unmap_guest_region_unmapped reg w) as Hun.
      pose proof (unmap_guest_region_closed reg w) as Hcl.
      destruct (unmap_guest_region reg w) as [reg' w1]. simpl in Hun, Hcl.
      destruct (IH (S i) (<[i := reg']> map) w1) as (Hlen & Hin & Hout & Hclosed).
      rewrite length_insert in Hlen.
      split; [done |]. split; [| split].
      * intros j r Hj Hl. destruct (decide (j = i)) as [-> | Hne].
        -- rewrite Hout in Hl by lia.
           rewrite list_lookup_insert_eq in Hl by (by eapply lookup_lt_Some).
           congruence.
        -- eapply Hin; [| done]. lia.
      * intros j Hj. rewrite Hout by lia. apply list_lookup_insert_ne. lia.
      * intros x Hx. apply Hclosed, Hcl, Hx.
    + destruct (IH (S i) map w) as (Hlen & Hin & Hout & Hclosed).
      split; [done |]. split; [| split; [| done]].
      * intros j r Hj Hl. destruct (decide (j = i)) as [-> | Hne].
        -- rewrite Hout in Hl by lia. congruence.
        -- eapply Hin; [| done]. lia.
      * intros j Hj. apply Hout. lia.
Qed.

Lemma unmap_all_spec (map : vhd_guest_memory_map) (w : World) :
  length map = Z.to_nat VHOST_USER_MEM_REGIONS_MAX ->
  let res := vhd_guest_memory_unmap_all map w in
  length res.1 = length map
  /\ (forall j r, res.1 !! j = Some r -> is_region_mapped r = false)
  /\ (forall x, In x (w_closed w) -> In x (w_closed res.2)).
Proof.
  intros Hlen res. subst res. unfold vhd_guest_memory_unmap_all.
  destruct (unmap_from_spec (Z.to_nat VHOST_USER_MEM_REGIONS_MAX) 0 map w)
    as (Hl & Hin & _ & Hcl).
  split; [done |]. split; [| done].
  intros j r Hj. eapply Hin; [| done].
  apply lookup_lt_Some in Hj. rewrite Hl, Hlen in Hj. lia.
Qed.

Lemma close_fds_from_closed (fds : list Z) (n : nat) :
  forall (i : nat) (w : World),
    (forall x, In x (w_closed w) -> In x (w_closed (close_fds_from n i fds w)))
    /\ (forall j, (i <= j < i + n)%nat ->
          In (default (-1) (fds !! j)) (w_closed (close_fds_from n i fds w))).
Proof.
  induction n as [| n IH]; intros i w; simpl.
  - split; [done |]. intros j Hj. lia.
  - destruct (IH (S i) (sys_close (default (-1) (fds !! i)) w)) as [Hmono Hin].
    split.
    + intros x Hx. apply Hmono. simpl. by right.
    + intros j Hj. destruct (decide (j = i)) as [-> | Hne].
      * apply Hmono. simpl. by left.
      * apply Hin. lia.
Qed.

Lemma map_guest_region_ok (memmap : vhd_guest_memory_map)
    (index gpa uva size offset fd : Z) (w : World) (memmap' : vhd_guest_memory_map)
    (w' : World) :
  0 <= index -> (Z.to_nat index < length memmap)%nat ->
  map_guest_region memmap index gpa uva size offset fd w = (0, memmap', w') ->
  length memmap' = length memmap
  /\ (exists r, memmap' !! Z.to_nat index = Some r /\ is_region_mapped r = true)
  /\ (forall j, j <> Z.to_nat index -> memmap' !! j = memmap !! j).
Proof.
  intros Hidx Hlen. unfold map_guest_region.
  destruct (VHOST_USER_MEM_REGIONS_MAX <=? index); [done |].
  destruct (VHD_IS_ALIGNED size PAGE_SIZE); [| done].
  destruct (VHD_IS_ALIGNED offset PAGE_SIZE); [| done]. simpl.
  destruct (memmap !! Z.to_nat index) as [region |] eqn:Hslot;
    [| apply lookup_ge_None in Hslot; lia].
  simpl. destruct (reg_hva region =? 0) eqn:Hhva; simpl.
  - destruct (sys_mmap (w_tick w) size fd offset) as [vaddr | errno]; [| done].
    intros [= <- <-]. rewrite length_insert. split; [done |]. split.
    + eexists. split; [by apply list_lookup_insert_eq |]. done.
    + intros j Hj. by apply list_lookup_insert_ne.
  - destruct ((reg_gpa region =? gpa) && (reg_pages region =? _)); [| done].
    intros [= <- <-]. split; [done |]. split; [| done].
    exists region. split; [done |]. unfold is_region_mapped. by rewrite Hhva.
Qed.

Lemma set_mem_table_from_ok (desc : vhost_user_mem_desc) (fds : list Z) (n : nat) :
  forall (i : nat) (memmap : vhd_guest_memory_map) (w : World)
         (memmap' : vhd_guest_memory_map) (w' : World),
    (i + n <= length memmap)%nat ->
    set_mem_table_from n i desc fds memmap w = (0, memmap', w') ->
    length memmap' = length memmap
    /\ (forall j, (i <= j < i + n)%nat ->
          exists r, memmap' !! j = Some r /\ is_region_mapped r = true)
    /\ (forall j, ~ (i <= j < i + n)%nat -> memmap' !! j = memmap !! j).
Proof.
  induction n as [| n IH]; intros i memmap w memmap' w' Hlen; simpl.
  - intros [= <- <-]. repeat split; try done. intros j Hj. lia.
  - destruct (map_guest_region memmap (Z.of_nat i) _ _ _ _ _ w)
      as [[error memmap1] w1] eqn:Hstep.
    destruct (error =? 0) eqn:Herr; simpl.
    + apply Z.eqb_eq in Herr. subst error.
      apply map_guest_region_ok in Hstep; [| lia | rewrite Nat2Z.id; lia].
      rewrite Nat2Z.id in Hstep. destruct Hstep as (Hl1 & Hmapped & Hother).
      intros Hrest. apply IH in Hrest; [| lia].
      destruct Hrest as (Hl2 & Hin & Hout).
      split; [congruence |]. split.
      * intros j Hj. destruct (decide (j = i)) as [-> | Hne].
        -- rewrite Hout by lia. done.
        -- apply Hin. lia.
      * intros j Hj. rewrite Hout by lia. apply Hother. lia.
    + destruct (vhd_guest_memory_unmap_all memmap1 _) as [memmap3 w3].
      intros [= -> _ _]. done.
Qed.

Lemma set_mem_table_from_fail (desc : vhost_user_mem_desc) (fds : list Z) (n : nat) :
  forall (i : nat) (memmap : vhd_guest_memory_map) (w : World) (ret : Z)
         (memmap' : vhd_guest_memory_map) (w' : World),
    set_mem_table_from n i desc fds memmap w = (ret, memmap', w') -> ret <> 0 ->
    exists (m : nat) memmap_k w_k memmap_f w_f,
      (m < n)%nat
      /\ set_mem_table_from m i desc fds memmap w = (0, memmap_k, w_k)
      /\ (let region := default (mk_mem_region 0 0 0 0) (regions desc !! (i + m)%nat) in
          map_guest_region memmap_k (Z.of_nat (i + m))
            (guest_addr region) (user_addr region) (size region) (mmap_offset region)
            (default (-1) (fds !! (i + m)%nat)) w_k = (ret, memmap_f, w_f))
      /\ (memmap', w') =
           vhd_guest_memory_unmap_all memmap_f
             (close_fds_from (n - m) (i + m) fds w_f).
Proof.
  induction n as [| n IH]; intros i memmap w ret memmap' w'; simpl.
  - intros [= <- _ _] Hret. done.
  - destruct (map_guest_region memmap (Z.of_nat i) _ _ _ _ _ w)
      as [[error memmap1] w1] eqn:Hstep.
    destruct (error =? 0) eqn:Herr; simpl.
    + intros Hrest Hret. apply Z.eqb_eq in Herr. subst error.
      destruct (IH _ _ _ _ _ _ Hrest Hret)
        as (m & memmap_k & w_k & memmap_f & w_f & Hm & Hpre & Hfail & Hend).
      exists (S m), memmap_k, w_k, memmap_f, w_f.
      split; [lia |]. split.
      { simpl. rewrite Hstep. simpl. done. }
      replace (i + S m)%nat with (S i + m)%nat by lia.
      split; [done |]. by replace (S n - S m)%nat with (n - m)%nat by lia.
    + destruct (vhd_guest_memory_unmap_all memmap1 _) as [memmap3 w3] eqn:Hun.
      intros [= <- <- <-] Hret.
      exists 0%nat, memmap, w, memmap1, w1.
      split; [lia |]. split; [done |].
      rewrite Nat.add_0_r. split; [done |]. simpl. by rewrite <- Hun.
Qed.

Lemma map_guest_region_length (memmap : vhd_guest_memory_map)
    (index gpa uva size offset fd : Z) (w : World) :
  length (map_guest_region memmap index gpa uva size offset fd w).1.2 = length memmap.
Proof.
  unfold map_guest_region. repeat case_match; simpl; try done. apply length_insert.
Qed.

Lemma set_mem_table_from_length (desc : vhost_user_mem_desc) (fds : list Z) (n : nat) :
  forall (i : nat) (memmap : vhd_guest_memory_map) (w : World),
    length (set_mem_table_from n i desc fds memmap w).1.2 = length memmap.
Proof.
  induction n as [| n IH]; intros i memmap w; simpl; [done |].
  pose proof (map_guest_region_length memmap (Z.of_nat i)
      (guest_addr (default (mk_mem_region 0 0 0 0) (regions desc !! i)))
      (user_addr (default (mk_mem_region 0 0 0 0) (regions desc !! i)))
      (size (default (mk_mem_region 0 0 0 0) (regions desc !! i)))
      (mmap_offset (default (mk_mem_region 0 0 0 0) (regions desc !! i)))
      (default (-1) (fds !! i)) w) as Hl.
  destruct (map_guest_region memmap (Z.of_nat i) _ _ _ _ _ w)
    as [[error memmap1] w1]. simpl in Hl.
  destruct (error =? 0); simpl.
  - rewrite IH. done.
  - unfold vhd_guest_memory_unmap_all.
    pose proof (unmap_from_spec (Z.to_nat VHOST_USER_MEM_REGIONS_MAX) 0 memmap1
                  (close_fds_from n (S i) fds (sys_close (default (-1) (fds !! i)) w1)))
      as (Hlen & _).
    destruct (unmap_from _ 0 memmap1 _) as [memmap3 w3]. simpl in *. congruence.
Qed.

Lemma unmap_guest_region_released (reg : vhd_guest_memory_region) (w : World) :
  (unmap_guest_region reg w).1 = released reg.
Proof.
  unfold unmap_guest_region, released. by destruct (is_region_mapped reg).
Qed.

Lemma unmap_from_map (n : nat) :
  forall (i : nat) (map : vhd_guest_memory_map) (w : World),
    (unmap_from n i map w).1
    = take i map ++ (released <$> take n (drop i map)) ++ drop (i + n) map.
Proof.
  induction n as [| n IH]; intros i map w; simpl.
  - rewrite Nat.add_0_r. simpl. by rewrite take_drop.
  - destruct (map !! i) as [reg |] eqn:Hi.
    + pose proof (unmap_guest_region_released reg w) as Hrel.
      destruct (unmap_guest_region reg w) as [reg' w1]. simpl in Hrel. subst reg'.
      rewrite IH.
      rewrite (take_S_r _ _ (released reg))
        by (apply list_lookup_insert_eq; by eapply lookup_lt_Some).
      rewrite take_insert_ge by lia.
      rewrite !drop_insert_lt by lia.
      rewrite (drop_S _ _ _ Hi). simpl.
      rewrite <- app_assoc. simpl.
      by replace (i + S n)%nat with (S (i + n)) by lia.
    + rewrite IH. apply lookup_ge_None in Hi.
      rewrite !drop_ge by lia. rewrite !take_nil, !take_ge by lia. done.
Qed.

Lemma unmap_from_world (n : nat) :
  forall (i : nat) (map : vhd_guest_memory_map) (w : World),
    let live := List.filter is_region_mapped (take n (drop i map)) in
    let w' := (unmap_from n i map w).2 in
    w_closed w' = rev (reg_fd <$> live) ++ w_closed w
    /\ w_unmapped w'
       = rev ((fun r => (reg_hva r, reg_pages r * PAGE_SIZE)) <$> live) ++ w_unmapped w
    /\ w_tick w' = w_tick w /\ w_sent w' = w_sent w
    /\ w_vhost_events w' = w_vhost_events w /\ w_rq_events w' = w_rq_events w
    /\ w_mem w' = w_mem w.
Proof.
  induction n as [| n IH]; intros i map w; simpl.
  - done.
  - destruct (map !! i) as [reg |] eqn:Hi.
    + rewrite (drop_S _ _ _ Hi). simpl.
      pose proof (unmap_guest_region_released reg w) as Hrel.
      unfold unmap_guest_region in *.
      specialize (IH (S i) (<[i := released reg]> map)).
      rewrite drop_insert_lt in IH by lia.
      destruct (is_region_mapped reg) eqn:Hm; simpl in *; subst.
      * destruct (IH (sys_close (reg_fd reg)
                       (sys_munmap (reg_hva reg) (reg_pages reg * PAGE_SIZE) w)))
          as (H1 & H2 & H3 & H4 & H5 & H6 & H7).
        unfold released in *. rewrite Hm in *.
        rewrite H1, H2, H3, H4, H5, H6, H7. simpl.
        rewrite <- !app_assoc. done.
      * unfold released in *. rewrite Hm in *. apply IH.
    + apply lookup_ge_None in Hi. specialize (IH (S i) map w).
      rewrite !drop_ge in * by lia. rewrite take_nil in *. simpl in *. done.
Qed.

Lemma close_fds_from_frame (fds : list Z) (n : nat) :
  forall (i : nat) (w : World),
    let w' := close_fds_from n i fds w in
    w_tick w' = w_tick w /\ w_unmapped w' = w_unmapped w /\ w_sent w' = w_sent w
    /\ w_vhost_events w' = w_vhost_events w /\ w_rq_events w' = w_rq_events w
    /\ w_mem w' = w_mem w.
Proof.
  induction n as [| n IH]; intros i w; simpl; [done |].
  destruct (IH (S i) (sys_close (default (-1) (fds !! i)) w))
    as (H1 & H2 & H3 & H4 & H5 & H6).
  rewrite H1, H2, H3, H4, H5, H6. done.
Qed.

Lemma close_fds_from_world (fds : list Z) (n : nat) :
  forall (i : nat) (w : World),
    w_closed (close_fds_from n i fds w)
    = rev ((fun j => default (-1) (fds !! j)) <$> seq i n) ++ w_closed w.
Proof.
  induction n as [| n IH]; intros i w; simpl; [done |].
  rewrite IH. simpl. by rewrite <- app_assoc.
Qed.

Lemma map_guest_region_fail (memmap : vhd_guest_memory_map)
    (index guest_addr user_addr size offset fd : Z) (w : World) :
  let res := map_guest_region memmap index guest_addr user_addr size offset fd w in
  res.1.1 <> 0 ->
  res.1.2 = memmap /\ w_closed res.2 = w_closed w /\ w_unmapped res.2 = w_unmapped w.
Proof.
  unfold map_guest_region. repeat case_match; simpl; done.
Qed.

(** C5 (as amended). SET_MEM_TABLE with more than
    VHOST_USER_MEM_REGIONS_MAX regions returns EINVAL and changes nothing.
    Otherwise, when it fails, the regions before some index [k] were
    mapped and the map step of region [k] failed with the returned error
    and left the map as it was; then the fds [k .. n-1] were closed, in
    that order, and every region mapped at that point, those of this
    request and those that the device held before, was released: its
    mapping went through [munmap] with its host address and byte size
    and its fd through [close], once each and in slot order, and its slot
    is zeroed, so that no slot of the device is mapped any more.  When it
    succeeds, each of the first [n] slots holds a mapped region and every
    slot from [n] on is as it was before. *)
Theorem set_mem_table_outcomes (vdev : vhd_vdev) (msg : vhost_user_msg) (fds : list Z)
    (w : World) :
  let desc := mem_desc (payload msg) in
  let n := Z.to_nat (nregions desc) in
  length (guest_memmap vdev) = Z.to_nat VHOST_USER_MEM_REGIONS_MAX ->
  (VHOST_USER_MEM_REGIONS_MAX < nregions desc ->
     vhost_set_mem_table vdev msg fds w = (EINVAL, vdev, w))
  /\ (nregions desc <= VHOST_USER_MEM_REGIONS_MAX ->
      let '(ret, vdev', w') := vhost_set_mem_table vdev msg fds w in
      (ret <> 0 ->
         (forall i r, guest_memmap vdev' !! i = Some r -> is_region_mapped r = false)
         /\ exists (k : nat) memmap_k w_k w_f,
              (k < n)%nat
              /\ set_mem_table_from k 0 desc fds (guest_memmap vdev) w = (0, memmap_k, w_k)
              /\ (let region := default (mk_mem_region 0 0 0 0) (regions desc !! k) in
                  map_guest_region memmap_k (Z.of_nat k)
                    (guest_addr region) (user_addr region) (size region)
                    (mmap_offset region) (default (-1) (fds !! k)) w_k
                  = (ret, memmap_k, w_f))
              /\ w_closed w_f = w_closed w_k /\ w_unmapped w_f = w_unmapped w_k
              /\ guest_memmap vdev' = released <$> memmap_k
              /\ w_unmapped w'
                 = rev ((fun r => (reg_hva r, reg_pages r * PAGE_SIZE))
                          <$> live_regions memmap_k)
                   ++ w_unmapped w_f
              /\ w_closed w'
                 = rev (reg_fd <$> live_regions memmap_k)
                   ++ rev ((fun j => default (-1) (fds !! j)) <$> seq k (n - k))
                   ++ w_closed w_f)
      /\ (ret = 0 ->
          (forall i, (i < n)%nat ->
             exists r, guest_memmap vdev' !! i = Some r /\ is_region_mapped r = true)
          /\ (forall i, (n <= i)%nat -> guest_memmap vdev' !! i = guest_memmap vdev !! i))).
Proof.
  intros desc n Hlen. unfold vhost_set_mem_table. fold desc. split.
  - intros Hmany. apply Z.ltb_lt in Hmany. by rewrite Hmany.
  - intros Hfew.
    replace (VHOST_USER_MEM_REGIONS_MAX <? nregions desc) with false
      by (symmetry; apply Z.ltb_ge; lia).
    fold n.
    destruct (set_mem_table_from n 0 desc fds (guest_memmap vdev) w)
      as [[ret memmap'] w'] eqn:Hrun.
    simpl. split.
    + intros Hret.
      destruct (set_mem_table_from_fail _ _ _ _ _ _ _ _ _ Hrun Hret)
        as (k & memmap_k & w_k & memmap_f & w_f & Hk & Hpre & Hfail & Hend).
      simpl in Hfail.
      pose proof (map_guest_region_fail memmap_k (Z.of_nat k)
        (guest_addr (default (mk_mem_region 0 0 0 0) (regions desc !! k)))
        (user_addr (default (mk_mem_region 0 0 0 0) (regions desc !! k)))
        (size (default (mk_mem_region 0 0 0 0) (regions desc !! k)))
        (mmap_offset (default (mk_mem_region 0 0 0 0) (regions desc !! k)))
        (default (-1) (fds !! k)) w_k) as Hsame.
      rewrite Hfail in Hsame. simpl in Hsame.
      destruct (Hsame Hret) as (-> & Hcf & Huf).
      assert (length memmap_k = Z.to_nat VHOST_USER_MEM_REGIONS_MAX) as Hlf.
      { pose proof (set_mem_table_from_length desc fds k 0 (guest_memmap vdev) w) as H1.
        rewrite Hpre in H1. simpl in H1. congruence. }
      destruct (unmap_all_spec memmap_k (close_fds_from (n - k) (0 + k) fds w_f) Hlf)
        as (_ & Hun & _).
      pose proof (unmap_from_map (Z.to_nat VHOST_USER_MEM_REGIONS_MAX) 0 memmap_k
                    (close_fds_from (n - k) (0 + k) fds w_f)) as Hmap.
      pose proof (unmap_from_world (Z.to_nat VHOST_USER_MEM_REGIONS_MAX) 0 memmap_k
                    (close_fds_from (n - k) (0 + k) fds w_f)) as (Hc & Hu & _).
      unfold vhd_guest_memory_unmap_all in Hend, Hun.
      rewrite <- Hend in Hun, Hmap, Hc, Hu. cbn [fst snd] in Hun, Hmap, Hc, Hu.
      rewrite drop_0 in Hc, Hu. fold (live_regions memmap_k) in Hc, Hu.
      split; [exact Hun |].
      exists k, memmap_k, w_k, w_f.
      split; [done |]. split; [done |]. split; [done |].
      split; [done |]. split; [done |]. split; [| split].
      * rewrite Hmap. rewrite take_0, drop_0. cbn [app Nat.add].
        rewrite take_ge by lia. rewrite drop_ge by lia. by rewrite app_nil_r.
      * rewrite Hu.
        by destruct (close_fds_from_frame fds (n - k) (0 + k) w_f) as (_ & -> & _).
      * rewrite Hc. by rewrite close_fds_from_world.
    + intros ->.
      apply set_mem_table_from_ok in Hrun; [| unfold n; rewrite Hlen; lia].
      destruct Hrun as (_ & Hin & Hout). split.
      * intros i Hi. apply Hin. lia.
      * intros i Hi. apply Hout. lia.
Qed.

(** *** Teardown of the vrings *)

Lemma remove_fd_not_In (fd : Z) (l : list Z) : ~ In fd (remove_fd fd l).
Proof.
  unfold remove_fd. rewrite filter_In. intros [_ Hne].
  rewrite Z.eqb_refl in Hne. done.
Qed.

Lemma remove_fd_In (fd x : Z) (l : list Z) : In x (remove_fd fd l) -> In x l.
Proof. unfold remove_fd. rewrite filter_In. tauto. Qed.

Lemma vhd_vring_uninit_spec (v : vhd_vring) (w : World) :
  torn_down v (vhd_vring_uninit v w).1
  /\ (is_enabled v = true -> ~ In (kickfd v) (w_rq_events (vhd_vring_uninit v w).2))
  /\ (forall x, ~ In x (w_rq_events w) -> ~ In x (w_rq_events (vhd_vring_uninit v w).2)).
Proof.
  unfold vhd_vring_uninit, vring_set_enable, torn_down.
  destruct (is_enabled v) eqn:Hen; simpl.
  - split; [repeat split; done |]. split.
    + intros _. apply remove_fd_not_In.
    + intros x Hx Hin. apply Hx. by eapply remove_fd_In.
  - repeat split; done.
Qed.

Lemma uninit_vrings_from_spec (n : nat) :
  forall (i : nat) (vs : list vhd_vring) (w : World),
    let res := uninit_vrings_from n i vs w in
    length res.1 = length vs
    /\ (forall j v, (i <= j < i + n)%nat -> vs !! j = Some v ->
          exists v', res.1 !! j = Some v' /\ torn_down v v'
                     /\ (is_enabled v = true -> ~ In (kickfd v) (w_rq_events res.2)))
    /\ (forall j, ~ (i <= j < i + n)%nat -> res.1 !! j = vs !! j)
    /\ (forall x, ~ In x (w_rq_events w) -> ~ In x (w_rq_events res.2)).
Proof.
  induction n as [| n IH]; intros i vs w; simpl.
  - repeat split; try done. intros j v Hj. lia.
  - destruct (vs !! i) as [vring |] eqn:Hi.
    + destruct (vhd_vring_uninit_spec vring w) as (Htd & Hev & Hkeep).
      destruct (vhd_vring_uninit vring w) as [vring' w1]. simpl in Htd, Hev, Hkeep.
      destruct (IH (S i) (<[i := vring']> vs) w1) as (Hlen & Hin & Hout & Hmono).
      rewrite length_insert in Hlen.
      split; [done |]. split; [| split].
      * intros j v Hj Hl. destruct (decide (j = i)) as [-> | Hne].
        -- assert (v = vring) as -> by congruence.
           exists vring'. rewrite Hout by lia.
           rewrite list_lookup_insert_eq by (by eapply lookup_lt_Some).
           split; [done |]. split; [done |]. intros Hen. by apply Hmono, Hev.
        -- apply Hin; [lia |]. by rewrite list_lookup_insert_ne by lia.
      * intros j Hj. rewrite Hout by lia. apply list_lookup_insert_ne. lia.
      * intros x Hx. by apply Hmono, Hkeep.
    + destruct (IH (S i) vs w) as (Hlen & Hin & Hout & Hmono).
      split; [done |]. split; [| split; [| done]].
      * intros j v Hj Hl. destruct (decide (j = i)) as [-> | Hne]; [congruence |].
        apply Hin; [lia | done].
      * intros j Hj. apply Hout. lia.
Qed.







(** *** Enabling a vring *)

Lemma vring_set_enable_ok (v : vhd_vring) (w : World) :
  is_enabled v = false ->
  virtq_attach_result (w_tick w) (client_info v) = 0 ->
  attach_event_result (S (w_tick w)) (kickfd v) = 0 ->
  exists v' w',
    vring_set_enable v true w = (0, v', w')
    /\ is_enabled v' = true
    /\ kickfd v' = kickfd v
    /\ vq_attached (vq v') = true
    /\ vq_info (vq v') = client_info v
    /\ vq_notify_fd (vq v') = callfd v
    /\ In (kickfd v) (w_rq_events w').
Proof.
  intros Hdis Hattach Hevent.
  unfold vring_set_enable, virtio_virtq_attach, vhd_attach_event.
  rewrite Hdis, Hattach. simpl. rewrite Hevent. simpl.
  eexists _, _. split; [reflexivity |]. simpl. repeat split; try done. by left.
Qed.

Lemma vring_set_enable_true_enabled (v : vhd_vring) (w : World) :
  (vring_set_enable v true w).1.1 = 0 ->
  is_enabled (vring_set_enable v true w).1.2 = true.
Proof.
  unfold vring_set_enable, virtio_virtq_attach, vhd_attach_event.
  destruct (is_enabled v) eqn:Hen; simpl; [done |].
  destruct (virtq_attach_result (w_tick w) (client_info v) =? 0) eqn:Ha; simpl.
  - destruct (attach_event_result (S (w_tick w)) (kickfd v) =? 0) eqn:He; simpl; [done |].
    rewrite He. simpl. intros Hz. rewrite Hz in He. done.
  - rewrite Ha. simpl. intros Hz. rewrite Hz in Ha. done.
Qed.

Lemma vring_set_enable_kickfd (v : vhd_vring) (b : bool) (w : World) :
  kickfd (vring_set_enable v b w).1.2 = kickfd v.
Proof.
  unfold vring_set_enable, virtio_virtq_attach, vhd_attach_event.
  repeat case_match; simplify_eq; done.
Qed.

Lemma store_vring_lookup (vdev : vhd_vdev) (p : nat) (v v' : vhd_vring) :
  vrings vdev !! p = Some v -> vrings (store_vring p v' vdev) !! p = Some v'.
Proof.
  intros Hv. unfold store_vring. simpl.
  apply list_lookup_insert_eq. by eapply lookup_lt_Some.
Qed.

(** C7. SET_VRING_KICK (with a valid fd and vring index) stores the
    received fd as the vring's kickfd.  When VHOST_USER_F_PROTOCOL_FEATURES
    is not negotiated it enables the vring at once: a return of 0 means
    the vring is enabled, and for a disabled vring whose virtqueue attach
    and kick-event registration succeed the return is 0.  When the feature
    is negotiated the handler returns 0 and changes nothing but kickfd, so
    a disabled vring stays disabled, and a later SET_VRING_ENABLE(1)
    (whose attach and registration succeed) enables it. *)
Theorem set_vring_kick_enable (vdev : vhd_vdev) (msg : vhost_user_msg) (fds : list Z)
    (w : World) (p : nat) (vring : vhd_vring) :
  Z.land (u64 (payload msg)) VHOST_VRING_INVALID_FD = 0 ->
  get_vring vdev (wrap8 (Z.land (u64 (payload msg)) VHOST_VRING_IDX_MASK)) = Some p ->
  vrings vdev !! p = Some vring ->
  let '(ret, vdev', w') := vhost_set_vring_kick vdev msg fds w in
  exists vring',
    vrings vdev' !! p = Some vring'
    /\ kickfd vring' = fds0 fds
    /\ (has_feature (negotiated_features vdev) VHOST_USER_F_PROTOCOL_FEATURES = false ->
        (ret = 0 -> is_enabled vring' = true)
        /\ (is_enabled vring = false ->
            virtq_attach_result (w_tick w) (client_info vring) = 0 ->
            attach_event_result (S (w_tick w)) (fds0 fds) = 0 ->
            ret = 0 /\ is_enabled vring' = true
            /\ vq_attached (vq vring') = true
            /\ vq_notify_fd (vq vring') = callfd vring
            /\ In (fds0 fds) (w_rq_events w')))
    /\ (has_feature (negotiated_features vdev) VHOST_USER_F_PROTOCOL_FEATURES = true ->
        ret = 0 /\ w' = w
        /\ vring' = set_kickfd (fds0 fds) vring
        /\ is_enabled vring' = is_enabled vring
        /\ forall msg2 : vhost_user_msg,
             get_vring vdev' (vs_index (vring_state (payload msg2))) = Some p ->
             vs_num (vring_state (payload msg2)) = 1 ->
             is_enabled vring = false ->
             virtq_attach_result (w_tick w) (client_info vring) = 0 ->
             attach_event_result (S (w_tick w)) (fds0 fds) = 0 ->
             let '(ret2, vdev2, w2) := vhost_set_vring_enable vdev' msg2 w' in
             ret2 = 0
             /\ exists vring2,
                  vrings vdev2 !! p = Some vring2
                  /\ is_enabled vring2 = true
                  /\ kickfd vring2 = fds0 fds
                  /\ In (fds0 fds) (w_rq_events w2)).
Proof.
  intros Hfd Hp Hv.
  unfold vhost_set_vring_kick, vhost_set_vring_fd_common.
  rewrite Hfd, Hp. simpl. unfold vring_at. rewrite Hv. simpl.
  destruct (has_feature (negotiated_features vdev) VHOST_USER_F_PROTOCOL_FEATURES)
    eqn:Hfeat; simpl.
  - exists (set_kickfd (fds0 fds) vring).
    split; [by eapply store_vring_lookup |]. split; [done |].
    split; [done |]. intros _.
    split; [done |]. split; [done |]. split; [done |]. split; [done |].
    intros msg2 Hp2 Hnum Hdis Hattach Hevent.
    unfold vhost_set_vring_enable. rewrite Hp2, Hnum. simpl.
    unfold vring_at. erewrite store_vring_lookup by done. simpl.
    destruct (vring_set_enable_ok (set_kickfd (fds0 fds) vring) w Hdis Hattach Hevent)
      as (v2 & w2 & Hrun & Hen & Hkick & _ & _ & _ & Hin).
    rewrite Hrun. split; [done |]. exists v2.
    split; [| done].
    apply store_vring_lookup with (v := set_kickfd (fds0 fds) vring).
    by eapply store_vring_lookup.
  - pose proof (vring_set_enable_true_enabled (set_kickfd (fds0 fds) vring) w) as Hen.
    pose proof (vring_set_enable_kickfd (set_kickfd (fds0 fds) vring) true w) as Hkick.
    pose proof (vring_set_enable_ok (set_kickfd (fds0 fds) vring) w) as Hok.
    destruct (vring_set_enable (set_kickfd (fds0 fds) vring) true w)
      as [[res vring'] w'].
    simpl in Hen, Hkick.
    exists vring'. split; [by eapply store_vring_lookup |]. split; [done |].
    split; [| done]. intros _. split; [done |].
    intros Hdis Hattach Hevent.
    destruct (Hok Hdis Hattach Hevent)
      as (v2 & w2 & [= -> -> ->] & Hen2 & _ & Hatt & _ & Hnot & Hin).
    done.
Qed.

(** *** What the handlers send *)

Lemma vhost_send_fds_sent (vdev : vhd_vdev) (m : vhost_user_msg) (fds : list Z) (w : World) :
  w_sent (vhost_send_fds vdev m fds w).2 = (m, fds) :: w_sent w.
Proof.
  unfold vhost_send_fds, net_send_msg_fds. repeat case_match; simplify_eq; done.
Qed.

Lemma vhost_send_reply_sent (vdev : vhd_vdev) (m : vhost_user_msg) (x : Z) (w : World) :
  w_sent (vhost_send_reply vdev m x w).2 = ack_message m x :: w_sent w.
Proof. unfold vhost_send_reply, vhost_send. by rewrite vhost_send_fds_sent. Qed.













(** *** The inflight region *)

Lemma inflight_split_region_init_bytes (m : Z -> Z) (region qsize a : Z) :
  inflight_split_region_init m region qsize a =
    if (region <=? a) && (a <? region + 16)
    then header_byte (wrap16 qsize) (a - region)
    else m a.
Proof.
  unfold inflight_split_region_init, header_byte, off_features, off_version,
    off_desc_num, off_last_batch_head, off_used_idx.
  simpl. unfold store8.
  destruct (Z.leb_spec region a); simpl;
    [destruct (Z.ltb_spec a (region + 16)) |]; simpl.
  - assert (exists k, a = region + k /\ 0 <= k < 16) as (k & -> & Hk).
    { exists (a - region). lia. }
    replace (region + k - region) with k by lia.
    assert (k = 0 \/ k = 1 \/ k = 2 \/ k = 3 \/ k = 4 \/ k = 5 \/ k = 6 \/ k = 7
            \/ k = 8 \/ k = 9 \/ k = 10 \/ k = 11 \/ k = 12 \/ k = 13 \/ k = 14
            \/ k = 15) as Hcases by lia.
    repeat (destruct Hcases as [-> | Hcases]); try subst k;
      decide_eqb; reflexivity.
  - decide_eqb; reflexivity.
  - decide_eqb; reflexivity.
Qed.

Lemma inflight_init_queues_bytes (n : nat) :
  forall (m : Z -> Z) (b per qs a : Z),
    16 <= per -> 0 <= b -> b + Z.of_nat n * per <= 2 ^ 64 ->
    inflight_init_queues n m b per qs a =
      if (b <=? a) && (a <? b + Z.of_nat n * per) && ((a - b) mod per <? 16)
      then header_byte (wrap16 qs) ((a - b) mod per)
      else m a.
Proof.
  induction n as [| n IH]; intros m b per qs a Hper Hb Hend.
  - simpl. rewrite Z.add_0_r.
    destruct (Z.leb_spec b a), (Z.ltb_spec a b); simpl; (done || lia).
  - cbn [inflight_init_queues].
    rewrite Nat2Z.inj_succ, Z.mul_succ_l in *.
    set (np := Z.of_nat n * per) in *.
    assert (0 <= np) as Hnp by (subst np; apply Z.mul_nonneg_nonneg; lia).
    assert (inflight_init_queues n (inflight_split_region_init m b qs)
              (wrap64 (b + per)) per qs a
            = if (b + per <=? a) && (a <? b + per + np) && ((a - (b + per)) mod per <? 16)
              then header_byte (wrap16 qs) ((a - (b + per)) mod per)
              else inflight_split_region_init m b qs a) as ->.
    { destruct n as [| n'].
      - simpl. subst np. simpl. rewrite Z.add_0_r.
        destruct (Z.leb_spec (b + per) a), (Z.ltb_spec a (b + per)); simpl;
          (done || lia).
      - assert (0 < np) as Hpos.
        { subst np. apply Z.mul_pos_pos; lia. }
        assert (wrap64 (b + per) = b + per) as ->.
        { unfold wrap64. apply Z.mod_small. lia. }
        apply IH; lia. }
    rewrite inflight_split_region_init_bytes.
    assert ((a - (b + per)) mod per = (a - b) mod per) as ->.
    { replace (a - (b + per)) with (a - b + (-1) * per) by lia.
      apply Z.mod_add. lia. }
    assert (0 <= (a - b) mod per < per) as Hmod by (apply Z.mod_pos_bound; lia).
    destruct (Z.leb_spec (b + per) a), (Z.ltb_spec a (b + per + np)),
      (Z.leb_spec b a), (Z.ltb_spec a (b + (np + per))),
      (Z.ltb_spec a (b + 16)); simpl; try lia; try done.
    + assert ((a - b) mod per = a - b) as Hsmall by (apply Z.mod_small; lia).
      rewrite Hsmall. destruct (Z.ltb_spec (a - b) 16); (done || lia).
    + assert ((a - b) mod per = a - b) as Hsmall by (apply Z.mod_small; lia).
      rewrite Hsmall. destruct (Z.ltb_spec (a - b) 16); (done || lia).
Qed.

Lemma two_bytes (q : Z) : 0 <= q < 2 ^ 16 -> q mod 256 + 256 * (Z.shiftr q 8 mod 256) = q.
Proof.
  intros Hq. rewrite Z.shiftr_div_pow2 by lia. change (2 ^ 8) with 256.
  assert (0 <= q / 256 < 256) as Hhi.
  { split; [apply Z.div_pos; lia | apply Z.div_lt_upper_bound; lia]. }
  rewrite (Z.mod_small (q / 256)) by lia.
  pose proof (Z.div_mod q 256 ltac:(lia)). lia.
Qed.

Lemma vhost_send_fds_frame (vdev : vhd_vdev) (m : vhost_user_msg) (fds : list Z) (w : World) :
  let w' := (vhost_send_fds vdev m fds w).2 in
  w_mem w' = w_mem w /\ w_closed w' = w_closed w /\ w_unmapped w' = w_unmapped w.
Proof.
  unfold vhost_send_fds, net_send_msg_fds. repeat case_match; simplify_eq; done.
Qed.

Lemma inflight_cleanup_spec (vdev : vhd_vdev) (w : World) :
  let res := vhd_vdev_inflight_cleanup vdev w in
  w_tick res.2 = w_tick w /\ w_sent res.2 = w_sent w /\ w_mem res.2 = w_mem w
  /\ (inflightfd vdev <> -1 ->
      w_closed res.2 = inflightfd vdev :: w_closed w
      /\ w_unmapped res.2 = (inflight_mem vdev, inflight_size vdev) :: w_unmapped w)
  /\ (inflightfd vdev = -1 -> res = (vdev, w)).
Proof.
  unfold vhd_vdev_inflight_cleanup.
  destruct (Z.eqb_spec (inflightfd vdev) (-1)); simpl; repeat split; done.
Qed.

(** C9. GET_INFLIGHT_FD, when the memfd, its truncation and the mapping
    succeed: the prior inflight region, if any, is unmapped and its fd
    closed before anything else; the new region has the size
    [(sizeof(inflight_split_region) + queue_size * sizeof(inflight_split_desc))
    * num_queues], is zeroed, and each of the [num_queues] sub-regions
    starts with the header [features = 0, version = 1, desc_num =
    queue_size, last_batch_head = 0, used_idx = 0]; the reply echoes the
    request with [mmap_size] the total size and [mmap_offset = 0], carries
    the REPLY flag and passes the new fd. *)
Theorem get_inflight_fd_layout (vdev : vhd_vdev) (msg : vhost_user_msg) (fds : list Z)
    (w : World) (fd : Z) (buf : positive) :
  let idesc := inflight_desc (payload msg) in
  let qs := id_queue_size idesc in
  let nq := id_num_queues idesc in
  let per := sizeof_inflight_split_region + qs * sizeof_inflight_split_desc in
  let total := per * nq in
  0 <= qs < 2 ^ 16 -> 0 <= nq < 2 ^ 16 ->
  16 <= sizeof_inflight_split_region -> 0 <= sizeof_inflight_split_desc ->
  per < 2 ^ 64 -> total < 2 ^ 64 ->
  sys_memfd_create (w_tick w) = inl fd ->
  sys_ftruncate (S (w_tick w)) fd total = None ->
  sys_mmap (S (S (w_tick w))) total fd 0 = inl buf ->
  Z.pos buf + total <= 2 ^ 64 ->
  let '(ret, msg', vdev', w') := vhost_get_inflight_fd vdev msg fds w in
  (inflightfd vdev <> -1 ->
     exists closed_after unmapped_after,
       w_closed w' = closed_after ++ inflightfd vdev :: w_closed w
       /\ w_unmapped w' =
            unmapped_after ++ (inflight_mem vdev, inflight_size vdev) :: w_unmapped w)
  /\ msg' = set_flags VHOST_USER_MSG_FLAGS_REPLY
              (set_payload
                 (set_inflight_desc (mk_inflight_desc total 0 nq qs) (payload msg)) msg)
  /\ w_sent w' = (msg', [fd]) :: w_sent w
  /\ (forall q, 0 <= q < nq ->
        let region := Z.pos buf + q * per in
        load_le 8 (w_mem w') (region + off_features) = 0
        /\ load_le 2 (w_mem w') (region + off_version) = 1
        /\ load_le 2 (w_mem w') (region + off_desc_num) = qs
        /\ load_le 2 (w_mem w') (region + off_last_batch_head) = 0
        /\ load_le 2 (w_mem w') (region + off_used_idx) = 0)
  /\ (forall a, Z.pos buf <= a < Z.pos buf + total ->
        w_mem w' a = header_byte qs ((a - Z.pos buf) mod per))
  /\ (forall a, ~ (Z.pos buf <= a < Z.pos buf + total) -> w_mem w' a = w_mem w a)
  /\ (ret = 0 ->
      inflightfd vdev' = fd /\ inflight_mem vdev' = Z.pos buf
      /\ inflight_size vdev' = total)
  /\ (ret <> 0 ->
      inflightfd vdev' = -1 /\ inflight_mem vdev' = 0 /\ In fd (w_closed w')
      /\ In (Z.pos buf, total) (w_unmapped w')).
Proof.
  intros idesc qs nq per total Hqs Hnq Hhdr Hdesc Hper Htotal Hmemfd Htrunc Hmmap Hspace.
  assert (0 <= per) as Hper0.
  { subst per. apply Z.add_nonneg_nonneg; [lia | apply Z.mul_nonneg_nonneg; lia]. }
  assert (16 <= per) as Hper16.
  { subst per. assert (0 <= qs * sizeof_inflight_split_desc)
      by (apply Z.mul_nonneg_nonneg; lia). lia. }
  assert (0 <= total) as Htotal0 by (subst total; apply Z.mul_nonneg_nonneg; lia).
  assert (vring_inflight_buf_size qs = per) as Hsize.
  { unfold vring_inflight_buf_size, wrap64.
    rewrite (Z.mod_small qs) by lia. apply Z.mod_small. subst per. lia. }
  assert (wrap64 (per * nq) = total) as Hwrap.
  { unfold wrap64. apply Z.mod_small. subst total. lia. }
  unfold vhost_get_inflight_fd.
  destruct (inflight_cleanup_spec vdev w) as (Htick & Hsent & Hmem & Hprior & _).
  destruct (vhd_vdev_inflight_cleanup vdev w) as [vdev0 w0].
  simpl in Htick, Hsent, Hmem, Hprior.
  fold idesc qs nq. rewrite Hsize, Hwrap, Htick, Hmemfd. simpl.
  rewrite Htick, Htrunc. simpl.
  unfold inflight_mmap_region. simpl. rewrite Htick, Hmmap. simpl.
  rewrite Hsize.
  set (mem := inflight_init_queues (Z.to_nat nq)
                (memset (w_mem w0) (Z.pos buf) 0 total) (Z.pos buf) per qs).
  set (reply := set_flags VHOST_USER_MSG_FLAGS_REPLY
                  (set_payload
                     (set_inflight_desc (mk_inflight_desc total 0 nq qs) (payload msg))
                     msg)).
  assert (forall a, mem a =
            if (Z.pos buf <=? a) && (a <? Z.pos buf + total)
            then header_byte qs ((a - Z.pos buf) mod per)
            else w_mem w a) as Hbytes.
  { intros a. subst mem.
    rewrite inflight_init_queues_bytes
      by (rewrite ?Z2Nat.id by lia; subst total; lia).
    rewrite Z2Nat.id by lia. fold total.
    assert (wrap16 qs = qs) as -> by (unfold wrap16; apply Z.mod_small; lia).
    unfold memset. rewrite Hmem.
    assert (0 <= (a - Z.pos buf) mod per < per) as Hmod
      by (apply Z.mod_pos_bound; lia).
    replace (nq * per) with total by (subst total; lia).
    destruct (Z.leb_spec (Z.pos buf) a), (Z.ltb_spec a (Z.pos buf + total));
      simpl; try done.
    destruct (Z.ltb_spec ((a - Z.pos buf) mod per) 16); [done |].
    unfold header_byte, off_version, off_desc_num. decide_eqb; done. }
  match goal with
  | |- context [vhost_send_fds ?d ?m0 ?f ?w1] =>
      pose proof (vhost_send_fds_sent d m0 f w1) as Hs;
      pose proof (vhost_send_fds_frame d m0 f w1) as (Hfm & Hfc & Hfu);
      destruct (vhost_send_fds d m0 f w1) as [ret w3]
  end.
  simpl in Hs, Hfm, Hfc, Hfu. fold reply in Hs.
  assert (forall w', w_mem w' = mem ->
            forall q, 0 <= q < nq ->
              let region := Z.pos buf + q * per in
              load_le 8 (w_mem w') (region + off_features) = 0
              /\ load_le 2 (w_mem w') (region + off_version) = 1
              /\ load_le 2 (w_mem w') (region + off_desc_num) = qs
              /\ load_le 2 (w_mem w') (region + off_last_batch_head) = 0
              /\ load_le 2 (w_mem w') (region + off_used_idx) = 0) as Hfields.
  { intros w' -> q Hq region.
    assert (forall k, 0 <= k < 16 -> mem (region + k) = header_byte qs k) as Hk.
    { intros k Hk. rewrite Hbytes.
      assert (q * per + per <= total) as Hle.
      { subst total. replace (per * nq) with (nq * per) by lia.
        replace (q * per + per) with ((q + 1) * per) by lia.
        apply Z.mul_le_mono_nonneg_r; lia. }
      assert (0 <= q * per) by (apply Z.mul_nonneg_nonneg; lia).
      replace ((Z.pos buf <=? region + k) && (region + k <? Z.pos buf + total))
        with true.
      2: { symmetry. apply andb_true_iff. rewrite Z.leb_le, Z.ltb_lt.
           subst region. lia. }
      f_equal. subst region.
      replace (Z.pos buf + q * per + k - Z.pos buf) with (k + q * per) by lia.
      rewrite Z.mod_add by lia. apply Z.mod_small. lia. }
    unfold off_features, off_version, off_desc_num, off_last_batch_head, off_used_idx.
    cbn [load_le].
    rewrite !Z.add_0_r.
    replace region with (region + 0) at 1 by lia.
    rewrite <- !Z.add_assoc. simpl Z.add.
    rewrite !Hk by lia.
    repeat split; try reflexivity.
    unfold header_byte, off_version, off_desc_num. simpl.
    pose proof (two_bytes qs Hqs). lia. }
  destruct (ret =? 0) eqn:Hret; simpl.
  - apply Z.eqb_eq in Hret. subst ret.
    split; [| split; [done | split; [by rewrite Hs, Hsent | split; [| split; [| split]]]]].
    + intros Hne. destruct (Hprior Hne) as [Hc Hu].
      exists [], []. simpl. by rewrite Hfc, Hfu.
    + apply Hfields. by rewrite Hfm.
    + intros a Ha. rewrite Hfm. simpl. rewrite Hbytes.
      destruct (Z.leb_spec (Z.pos buf) a), (Z.ltb_spec a (Z.pos buf + total));
        simpl; (done || lia).
    + intros a Ha. rewrite Hfm. simpl. rewrite Hbytes.
      destruct (Z.leb_spec (Z.pos buf) a), (Z.ltb_spec a (Z.pos buf + total));
        simpl; (done || lia).
    + split; [done |]. intros Hne. done.
  - apply Z.eqb_neq in Hret.
    split; [| split; [done | split; [by rewrite Hs, Hsent | split; [| split; [| split]]]]].
    + intros Hne. destruct (Hprior Hne) as [Hc Hu].
      exists [fd], [(Z.pos buf, total)]. simpl. by rewrite Hfc, Hfu, Hc, Hu.
    + apply Hfields. simpl. by rewrite Hfm.
    + intros a Ha. simpl. rewrite Hfm. simpl. rewrite Hbytes.
      destruct (Z.leb_spec (Z.pos buf) a), (Z.ltb_spec a (Z.pos buf + total));
        simpl; (done || lia).
    + intros a Ha. simpl. rewrite Hfm. simpl. rewrite Hbytes.
      destruct (Z.leb_spec (Z.pos buf) a), (Z.ltb_spec a (Z.pos buf + total));
        simpl; (done || lia).
    + split; [done |]. intros _. simpl. repeat split; try done; by left.
Qed.

(** *** Client addresses and the release of the memory map *)

Lemma map_uva_from_none (map : vhd_guest_memory_map) (uva : Z) (n i : nat) :
  (forall j, (i <= j < i + n)%nat -> holds_uva (default zero_region (map !! j)) uva = false) ->
  map_uva_from n i map uva = 0.
Proof.
  revert i. induction n as [| n IH]; intros i Hnone; simpl; [done |].
  fold (holds_uva (default zero_region (map !! i)) uva).
  rewrite Hnone by lia. apply IH. intros j Hj. apply Hnone. lia.
Qed.

Lemma map_uva_from_first (map : vhd_guest_memory_map) (uva : Z) (n i k : nat) :
  (i <= k < i + n)%nat ->
  (forall j, (i <= j < k)%nat -> holds_uva (default zero_region (map !! j)) uva = false) ->
  holds_uva (default zero_region (map !! k)) uva = true ->
  let reg := default zero_region (map !! k) in
  map_uva_from n i map uva = wrap64 (reg_hva reg + wrap64 (uva - reg_uva reg)).
Proof.
  revert i. induction n as [| n IH]; intros i Hk Hbefore Hhold reg; [lia |].
  simpl. fold (holds_uva (default zero_region (map !! i)) uva).
  destruct (decide (i = k)) as [-> | Hne].
  - by rewrite Hhold.
  - rewrite Hbefore by lia. apply IH; [lia | | done].
    intros j Hj. apply Hbefore. lia.
Qed.

Lemma first_true (P : nat -> bool) (n i : nat) :
  (forall j, (i <= j < i + n)%nat -> P j = false)
  \/ exists k, (i <= k < i + n)%nat
       /\ (forall j, (i <= j < k)%nat -> P j = false)
       /\ P k = true.
Proof.
  revert i. induction n as [| n IH]; intros i.
  - left. intros j Hj. lia.
  - destruct (P i) eqn:Hi.
    + right. exists i. repeat split; [lia | lia | | done]. intros j Hj. lia.
    + destruct (IH (S i)) as [Hnone | (k & Hk & Hbefore & Hhold)].
      * left. intros j Hj. destruct (decide (j = i)) as [-> | Hne]; [done |].
        apply Hnone. lia.
      * right. exists k. repeat split; [lia | lia | | done].
        intros j Hj. destruct (decide (j = i)) as [-> | Hne]; [done |].
        apply Hbefore. lia.
Qed.

Lemma region_uva_wf_spec (reg : vhd_guest_memory_region) :
  region_uva_wf reg = true -> region_wf reg = true /\ 0 <= reg_uva reg < 2 ^ 64.
Proof.
  unfold region_uva_wf. rewrite !andb_true_iff, !Z.leb_le, !Z.ltb_lt. tauto.
Qed.

Lemma memmap_uva_wf_lookup (map : vhd_guest_memory_map) (i : nat)
    (reg : vhd_guest_memory_region) :
  memmap_uva_wf map = true -> map !! i = Some reg -> region_uva_wf reg = true.
Proof.
  unfold memmap_uva_wf. rewrite forallb_forall. intros Hall Hi.
  apply Hall. apply list_elem_of_In. by eapply list_elem_of_lookup_2.
Qed.

Lemma holds_uva_spec (reg : vhd_guest_memory_region) (uva : Z) :
  region_uva_wf reg = true -> 0 <= uva < 2 ^ 64 ->
  holds_uva reg uva = true <-> region_holds_uva reg uva.
Proof.
  intros Hwf Huva. apply region_uva_wf_spec in Hwf as [Hwf Hu].
  apply region_wf_spec in Hwf.
  unfold holds_uva, region_holds_uva, wrap64.
  rewrite !andb_true_iff, Z.leb_le, Z.ltb_lt.
  split.
  - intros [[Hm Hle] Hlt]. rewrite Z.mod_small in Hlt by lia. split; [done | lia].
  - intros [Hm Hin]. rewrite Z.mod_small by lia. repeat split; [done | lia | lia].
Qed.

(** X1. For a well-formed memory map and a 64-bit client address,
    [map_uva] returns non-null exactly when some slot holds a mapped
    region that contains the address; the pointer then comes from the
    first such slot, is that region's hva plus the offset of the address
    in the region, and lies inside the host mapping of that region. *)
Theorem map_uva_first_region (map : vhd_guest_memory_map) (uva : Z) :
  0 <= PAGE_SHIFT <= 31 -> memmap_uva_wf map = true -> 0 <= uva < 2 ^ 64 ->
  (map_uva map uva <> 0 <-> exists i reg, first_uva_holder map uva i reg)
  /\ (forall i reg, first_uva_holder map uva i reg ->
        map_uva map uva = reg_hva reg + (uva - reg_uva reg)
        /\ reg_hva reg <= map_uva map uva < reg_hva reg + region_size_bytes reg
        /\ map_uva map uva < 2 ^ 64).
Proof.
  intros Hps Hwf Huva. unfold map_uva.
  set (n := Z.to_nat VHOST_USER_MEM_REGIONS_MAX).
  assert (forall j r, map !! j = Some r ->
            (holds_uva r uva = true <-> region_holds_uva r uva)) as Hspec.
  { intros j r Hl. apply holds_uva_spec; [by eapply memmap_uva_wf_lookup | done]. }
  destruct (first_true (fun j => holds_uva (default zero_region (map !! j)) uva) n 0)
    as [Hnone | (k & Hk & Hbefore & Hhold)].
  - assert (forall i r, ~ first_uva_holder map uva i r) as Hno.
    { intros i r (Hi & Hl & Hh & _).
      specialize (Hnone i ltac:(lia)). simpl in Hnone. rewrite Hl in Hnone.
      simpl in Hnone. apply (Hspec _ _ Hl) in Hh. congruence. }
    rewrite map_uva_from_none by done. split.
    + split; [done |]. intros (i & r & Hf). exfalso. by eapply Hno.
    + intros i r Hf. exfalso. by eapply Hno.
  - simpl in Hhold, Hbefore.
    rewrite (map_uva_from_first map uva n 0 k) by (done || lia).
    destruct (map !! k) as [reg |] eqn:Hl; [| done]. simpl in Hhold. simpl.
    pose proof (memmap_uva_wf_lookup _ _ _ Hwf Hl) as Hwfr.
    apply region_uva_wf_spec in Hwfr as [Hwfr Hu].
    pose proof (region_wf_spec _ Hwfr) as (Hg & Hp & Hv & Hend).
    pose proof (region_size_bytes_bound reg Hps Hp) as Hsz.
    apply (Hspec _ _ Hl) in Hhold. destruct Hhold as [Hm Hin].
    assert (first_uva_holder map uva k reg) as Hfirst.
    { repeat split; try done; try lia.
      intros j r Hj Hlj Hhj.
      specialize (Hbefore j ltac:(lia)). rewrite Hlj in Hbefore. simpl in Hbefore.
      apply (Hspec _ _ Hlj) in Hhj. congruence. }
    assert (reg_hva reg <> 0) as Hnz.
    { unfold is_region_mapped in Hm. apply negb_true_iff, Z.eqb_neq in Hm. done. }
    assert (wrap64 (uva - reg_uva reg) = uva - reg_uva reg) as ->.
    { unfold wrap64. apply Z.mod_small. lia. }
    assert (wrap64 (reg_hva reg + (uva - reg_uva reg)) = reg_hva reg + (uva - reg_uva reg))
      as ->.
    { unfold wrap64. apply Z.mod_small. lia. }
    split.
    + split; [| lia]. intros _. by exists k, reg.
    + intros i r Hf.
      assert (i = k /\ r = reg) as [-> ->].
      { destruct Hf as (Hi & Hl1 & Hh1 & Hb1). destruct Hfirst as (_ & _ & Hh2 & Hb2).
        destruct (Nat.lt_trichotomy i k) as [Hlt | [-> | Hlt]].
        - exfalso. by eapply Hb2.
        - split; [done | congruence].
        - exfalso. by eapply Hb1. }
      lia.
Qed.

Lemma unmap_from_unmapped (n : nat) :
  forall (i : nat) (map : vhd_guest_memory_map) (w : World),
    (forall j r, (i <= j < i + n)%nat -> map !! j = Some r -> is_region_mapped r = false) ->
    unmap_from n i map w = (map, w).
Proof.
  induction n as [| n IH]; intros i map w Hun; simpl; [done |].
  destruct (map !! i) as [reg |] eqn:Hi.
  - unfold unmap_guest_region. rewrite (Hun i reg) by (done || lia). simpl.
    rewrite list_insert_id by done. apply IH. intros j r Hj. apply Hun. lia.
  - apply IH. intros j r Hj. apply Hun. lia.
Qed.

Lemma holds_unmapped (map : vhd_guest_memory_map) (j : nat) (a : Z) :
  (forall r, map !! j = Some r -> is_region_mapped r = false) ->
  holds_gpa (default zero_region (map !! j)) a = false
  /\ holds_uva (default zero_region (map !! j)) a = false.
Proof.
  intros Hun. unfold holds_gpa, holds_uva.
  destruct (map !! j) as [r |]; simpl.
  - by rewrite (Hun r).
  - done.
Qed.

(** X2. [vhd_guest_memory_unmap_all] releases exactly the regions that
    are mapped: each of the first VHOST_USER_MEM_REGIONS_MAX slots that is
    mapped becomes the zero region and every other slot is kept; the
    mappings that go through [munmap] and the fds that go through [close]
    are those of the mapped slots, once each and in slot order, and
    nothing else of the world changes. *)
Theorem unmap_all_accounting (map : vhd_guest_memory_map) (w : World) :
  let n := Z.to_nat VHOST_USER_MEM_REGIONS_MAX in
  let res := vhd_guest_memory_unmap_all map w in
  res.1 = (released <$> take n map) ++ drop n map
  /\ w_closed res.2 = rev (reg_fd <$> live_regions map) ++ w_closed w
  /\ w_unmapped res.2
     = rev ((fun r => (reg_hva r, reg_pages r * PAGE_SIZE)) <$> live_regions map)
       ++ w_unmapped w
  /\ w_tick res.2 = w_tick w /\ w_sent res.2 = w_sent w
  /\ w_vhost_events res.2 = w_vhost_events w /\ w_rq_events res.2 = w_rq_events w
  /\ w_mem res.2 = w_mem w.
Proof.
  intros n res. subst res. unfold vhd_guest_memory_unmap_all. fold n. split.
  - rewrite unmap_from_map. by rewrite take_0, drop_0.
  - pose proof (unmap_from_world n 0 map w) as Hw. rewrite drop_0 in Hw. exact Hw.
Qed.

(** X3. After [vhd_guest_memory_unmap_all] no address translates any
    more: [map_uva] and [map_gpa_len] return null for every address and
    length.  Unmapping a second time does nothing: the map and the world
    stay as they are, so no fd is closed and no mapping released twice. *)
Theorem unmap_all_then_nothing (map : vhd_guest_memory_map) (w : World) :
  let res := vhd_guest_memory_unmap_all map w in
  (forall a, map_uva res.1 a = 0)
  /\ (forall a len, map_gpa_len res.1 a len = 0)
  /\ vhd_guest_memory_unmap_all res.1 res.2 = res.
Proof.
  intros res. subst res. unfold vhd_guest_memory_unmap_all, map_uva, map_gpa_len.
  generalize (Z.to_nat VHOST_USER_MEM_REGIONS_MAX). intros n.
  destruct (unmap_from_spec n 0 map w) as (_ & Hin & _ & _).
  destruct (unmap_from n 0 map w) as [map' w'] eqn:Hrun. simpl in Hin. simpl.
  split; [| split].
  - intros a. apply map_uva_from_none. intros j Hj.
    apply holds_unmapped. intros r. by apply Hin.
  - intros a len. destruct (len =? 0); [done |].
    apply map_gpa_len_from_none. intros j Hj.
    apply holds_unmapped. intros r. by apply Hin.
  - apply unmap_from_unmapped. intros j r Hj. by apply Hin.
Qed.

(** *** Mapping a region, then translating through it *)

Lemma aligned_region_size (g u h size fd : Z) :
  0 <= PAGE_SHIFT <= 31 -> 0 <= size < 2 ^ 32 * PAGE_SIZE -> size mod PAGE_SIZE = 0 ->
  wrap32 (Z.shiftr size PAGE_SHIFT) = Z.shiftr size PAGE_SHIFT
  /\ 0 <= Z.shiftr size PAGE_SHIFT < 2 ^ 32
  /\ region_size_bytes (mk_region g u h (Z.shiftr size PAGE_SHIFT) fd) = size.
Proof.
  unfold PAGE_SIZE, region_size_bytes, wrap32, wrap64. simpl.
  intros Hps. rewrite Z.shiftl_1_l, Z.shiftr_div_pow2, Z.shiftl_mul_pow2 by lia.
  intros Hsize Hal.
  assert (0 < 2 ^ PAGE_SHIFT <= 2 ^ 31) as Hpow.
  { split; [apply Z.pow_pos_nonneg; lia | apply Z.pow_le_mono_r; lia]. }
  assert (0 <= size / 2 ^ PAGE_SHIFT < 2 ^ 32) as Hpages.
  { split; [apply Z.div_pos; lia | apply Z.div_lt_upper_bound; lia]. }
  assert (size / 2 ^ PAGE_SHIFT * 2 ^ PAGE_SHIFT = size) as Hback.
  { symmetry. rewrite Z.mul_comm. apply Z.div_exact; lia. }
  split; [apply Z.mod_small; lia |]. split; [lia |].
  rewrite Hback. apply Z.mod_small. split; [lia |].
  apply Z.lt_le_trans with (m := 2 ^ 32 * 2 ^ PAGE_SHIFT); [lia |].
  apply Z.le_trans with (m := 2 ^ 32 * 2 ^ 31); [| done].
  apply Z.mul_le_mono_nonneg_l; lia.
Qed.

Lemma map_guest_region_fresh (memmap : vhd_guest_memory_map)
    (index gpa uva size offset fd : Z) (w : World) (memmap' : vhd_guest_memory_map)
    (w' : World) :
  is_region_mapped (default zero_region (memmap !! Z.to_nat index)) = false ->
  map_guest_region memmap index gpa uva size offset fd w = (0, memmap', w') ->
  index < VHOST_USER_MEM_REGIONS_MAX
  /\ VHD_IS_ALIGNED size PAGE_SIZE = true
  /\ VHD_IS_ALIGNED offset PAGE_SIZE = true
  /\ exists vaddr,
       sys_mmap (w_tick w) size fd offset = inl vaddr
       /\ memmap' = <[Z.to_nat index :=
                        mk_region gpa uva (Z.pos vaddr)
                                  (wrap32 (Z.shiftr size PAGE_SHIFT)) fd]> memmap
       /\ w' = tick w.
Proof.
  unfold map_guest_region, is_region_mapped. intros Hfree.
  apply negb_false_iff in Hfree.
  destruct (VHOST_USER_MEM_REGIONS_MAX <=? index) eqn:Hi; [done |].
  destruct (VHD_IS_ALIGNED size PAGE_SIZE); [| done].
  destruct (VHD_IS_ALIGNED offset PAGE_SIZE); [| done]. simpl.
  rewrite Hfree. simpl.
  destruct (sys_mmap (w_tick w) size fd offset) as [vaddr | errno]; [| done].
  intros [= <- <-]. apply Z.leb_gt in Hi.
  split; [done |]. split; [done |]. split; [done |]. by exists vaddr.
Qed.

(** X4. Mapping into a free slot, then translating.  When
    [map_guest_region] succeeds on a slot that holds no mapping, it has
    called [mmap] once and stored the region with the address [mmap]
    returned.  Afterwards every client address [uva + off] with
    [off < size] that no earlier slot holds translates, through
    [map_uva], to that address plus [off]; every guest range
    [gpa + off, gpa + off + len) whose start no earlier slot holds
    translates, through [map_gpa_len], to that address plus [off] when it
    ends inside the region and to null when it runs past its end. *)
Theorem map_then_translate (memmap : vhd_guest_memory_map)
    (index gpa uva size offset fd : Z) (w : World) (memmap' : vhd_guest_memory_map)
    (w' : World) :
  0 <= PAGE_SHIFT <= 31 ->
  memmap_uva_wf memmap = true ->
  0 <= index -> (Z.to_nat index < length memmap)%nat ->
  is_region_mapped (default zero_region (memmap !! Z.to_nat index)) = false ->
  0 <= gpa -> gpa + size <= 2 ^ 64 -> 0 <= uva -> uva + size <= 2 ^ 64 ->
  0 <= size < 2 ^ 32 * PAGE_SIZE ->
  map_guest_region memmap index gpa uva size offset fd w = (0, memmap', w') ->
  exists vaddr,
    sys_mmap (w_tick w) size fd offset = inl vaddr
    /\ memmap' = <[Z.to_nat index :=
                     mk_region gpa uva (Z.pos vaddr) (Z.shiftr size PAGE_SHIFT) fd]> memmap
    /\ w' = tick w
    /\ (Z.pos vaddr + size <= 2 ^ 64 ->
        forall off, 0 <= off < size ->
          ((forall j r, (j < Z.to_nat index)%nat -> memmap !! j = Some r ->
                        ~ region_holds_uva r (uva + off)) ->
           map_uva memmap' (uva + off) = Z.pos vaddr + off)
          /\ ((forall j r, (j < Z.to_nat index)%nat -> memmap !! j = Some r ->
                           ~ region_holds r (gpa + off)) ->
              forall len, 0 < len < 2 ^ 32 ->
                (off + len <= size ->
                   map_gpa_len memmap' (gpa + off) len = Z.pos vaddr + off)
                /\ (size < off + len -> map_gpa_len memmap' (gpa + off) len = 0))).
Proof.
  intros Hps Hwf Hidx Hlen Hfree Hgpa Hgend Huva Huend Hsize Hrun.
  destruct (map_guest_region_fresh _ _ _ _ _ _ _ _ _ _ Hfree Hrun)
    as (Hmax & Hal & _ & vaddr & Hmmap & -> & ->).
  apply VHD_IS_ALIGNED_mod in Hal; [| lia].
  destruct (aligned_region_size gpa uva (Z.pos vaddr) size fd Hps Hsize Hal)
    as (Hw32 & Hpages & Hbytes).
  rewrite Hw32. exists vaddr.
  split; [done |]. split; [done |]. split; [done |].
  intros Hvend off Hoff.
  set (reg := mk_region gpa uva (Z.pos vaddr) (Z.shiftr size PAGE_SHIFT) fd) in *.
  set (k := Z.to_nat index) in *.
  assert (k < Z.to_nat VHOST_USER_MEM_REGIONS_MAX)%nat as Hk.
  { unfold VHOST_USER_MEM_REGIONS_MAX in *. lia. }
  assert (<[k := reg]> memmap !! k = Some reg) as Hat.
  { by apply list_lookup_insert_eq. }
  assert (forall j, (j < k)%nat -> <[k := reg]> memmap !! j = memmap !! j) as Hbelow.
  { intros j Hj. apply list_lookup_insert_ne. lia. }
  assert (is_region_mapped reg = true) as Hm by done.
  split.
  - intros Hnone. unfold map_uva.
    rewrite (map_uva_from_first _ _ _ 0 k).
    + rewrite Hat. simpl. unfold wrap64.
      replace (uva + off - uva) with off by lia.
      rewrite (Z.mod_small off) by lia. apply Z.mod_small. lia.
    + lia.
    + intros j Hj. rewrite Hbelow by lia.
      destruct (memmap !! j) as [r |] eqn:Hl; simpl; [| done].
      destruct (holds_uva r (uva + off)) eqn:Hh; [| done].
      apply holds_uva_spec in Hh; [| by eapply memmap_uva_wf_lookup | lia].
      exfalso. eapply Hnone; [| done | done]. lia.
    + rewrite Hat. simpl. unfold holds_uva. rewrite Hm, Hbytes. simpl.
      unfold wrap64. replace (uva + off - uva) with off by lia.
      rewrite (Z.mod_small off) by lia.
      apply andb_true_iff. split; [apply Z.leb_le | apply Z.ltb_lt]; lia.
  - intros Hnone len Hl. unfold map_gpa_len.
    replace (len =? 0) with false by (symmetry; apply Z.eqb_neq; lia).
    rewrite (map_gpa_len_from_first _ _ _ _ 0 k).
    + rewrite Hat. simpl. rewrite Hbytes. unfold wrap64.
      replace (gpa + off - gpa) with off by lia.
      rewrite Zminus_mod_idemp_l.
      replace (gpa + off + len - 1 - gpa) with (off + len - 1) by lia.
      rewrite (Z.mod_small off) by lia.
      rewrite (Z.mod_small (off + len - 1)).
      * split; intros Hfit.
        -- replace (size <=? off + len - 1) with false
             by (symmetry; apply Z.leb_gt; lia).
           apply Z.mod_small. lia.
        -- replace (size <=? off + len - 1) with true
             by (symmetry; apply Z.leb_le; lia).
           done.
      * assert (size < 2 ^ 63); [| lia].
        rewrite <- Hbytes. apply region_size_bytes_bound; done.
    + lia.
    + intros j Hj. rewrite Hbelow by lia.
      destruct (memmap !! j) as [r |] eqn:Hlj; simpl; [| done].
      destruct (holds_gpa r (gpa + off)) eqn:Hh; [| done].
      apply holds_gpa_spec in Hh.
      * exfalso. eapply Hnone; [| done | done]. lia.
      * pose proof (memmap_uva_wf_lookup _ _ _ Hwf Hlj) as Hr.
        by apply region_uva_wf_spec in Hr as [Hr _].
      * lia.
    + rewrite Hat. simpl. unfold holds_gpa. rewrite Hm, Hbytes. simpl.
      unfold wrap64. replace (gpa + off - gpa) with off by lia.
      rewrite (Z.mod_small off) by lia.
      apply andb_true_iff. split; [apply Z.leb_le | apply Z.ltb_lt]; lia.
Qed.

(** *** SET_MEM_TABLE sent again *)

Lemma map_guest_region_matches (memmap : vhd_guest_memory_map)
    (index gpa uva size offset fd : Z) (w : World) (memmap' : vhd_guest_memory_map)
    (w' : World) :
  0 <= index -> (Z.to_nat index < length memmap)%nat ->
  map_guest_region memmap index gpa uva size offset fd w = (0, memmap', w') ->
  index < VHOST_USER_MEM_REGIONS_MAX
  /\ VHD_IS_ALIGNED size PAGE_SIZE = true
  /\ VHD_IS_ALIGNED offset PAGE_SIZE = true
  /\ exists r, memmap' !! Z.to_nat index = Some r
       /\ reg_hva r <> 0 /\ reg_gpa r = gpa
       /\ reg_pages r = wrap32 (Z.shiftr size PAGE_SHIFT).
Proof.
  intros Hidx Hlen. unfold map_guest_region.
  destruct (VHOST_USER_MEM_REGIONS_MAX <=? index) eqn:Hi; [done |].
  apply Z.leb_gt in Hi.
  destruct (VHD_IS_ALIGNED size PAGE_SIZE); [| done].
  destruct (VHD_IS_ALIGNED offset PAGE_SIZE); [| done]. simpl.
  destruct (memmap !! Z.to_nat index) as [region |] eqn:Hslot;
    [| apply lookup_ge_None in Hslot; lia].
  simpl. destruct (reg_hva region =? 0) eqn:Hhva; simpl.
  - destruct (sys_mmap (w_tick w) size fd offset) as [vaddr | errno]; [| done].
    intros [= <- <-]. repeat split; try done.
    eexists. split; [by apply list_lookup_insert_eq |]. done.
  - destruct (reg_gpa region =? gpa) eqn:E1; [| done].
    destruct (reg_pages region =? _) eqn:E2; [| done]. simpl.
    intros [= <- <-]. repeat split; try done.
    exists region. apply Z.eqb_neq in Hhva. apply Z.eqb_eq in E1, E2. done.
Qed.

Lemma map_guest_region_again (memmap : vhd_guest_memory_map)
    (index gpa uva size offset fd : Z) (w : World) (r : vhd_guest_memory_region) :
  index < VHOST_USER_MEM_REGIONS_MAX ->
  VHD_IS_ALIGNED size PAGE_SIZE = true -> VHD_IS_ALIGNED offset PAGE_SIZE = true ->
  memmap !! Z.to_nat index = Some r -> reg_hva r <> 0 -> reg_gpa r = gpa ->
  reg_pages r = wrap32 (Z.shiftr size PAGE_SHIFT) ->
  map_guest_region memmap index gpa uva size offset fd w = (0, memmap, sys_close fd w).
Proof.
  intros Hi Hs Ho Hslot Hhva Hg Hp. unfold map_guest_region.
  replace (VHOST_USER_MEM_REGIONS_MAX <=? index) with false
    by (symmetry; apply Z.leb_gt; lia).
  rewrite Hs, Ho, Hslot. simpl.
  replace (reg_hva r =? 0) with false by (symmetry; by apply Z.eqb_neq).
  simpl. by rewrite Hg, Hp, !Z.eqb_refl.
Qed.

Lemma set_mem_table_from_matches (desc : vhost_user_mem_desc) (fds : list Z) (n : nat) :
  forall (i : nat) (memmap : vhd_guest_memory_map) (w : World)
         (memmap' : vhd_guest_memory_map) (w' : World),
    (i + n <= length memmap)%nat ->
    set_mem_table_from n i desc fds memmap w = (0, memmap', w') ->
    forall j, (i <= j < i + n)%nat -> slot_matches memmap' desc j.
Proof.
  induction n as [| n IH]; intros i memmap w memmap' w' Hlen; simpl.
  - intros _ j Hj. lia.
  - destruct (map_guest_region memmap (Z.of_nat i) _ _ _ _ _ w)
      as [[error memmap1] w1] eqn:Hstep.
    destruct (error =? 0) eqn:Herr; simpl.
    + apply Z.eqb_eq in Herr. subst error.
      pose proof (map_guest_region_length memmap (Z.of_nat i)
        (guest_addr (default (mk_mem_region 0 0 0 0) (regions desc !! i)))
        (user_addr (default (mk_mem_region 0 0 0 0) (regions desc !! i)))
        (size (default (mk_mem_region 0 0 0 0) (regions desc !! i)))
        (mmap_offset (default (mk_mem_region 0 0 0 0) (regions desc !! i)))
        (default (-1) (fds !! i)) w) as Hl1.
      rewrite Hstep in Hl1. simpl in Hl1.
      apply map_guest_region_matches in Hstep; [| lia | rewrite Nat2Z.id; lia].
      rewrite Nat2Z.id in Hstep.
      destruct Hstep as (Hi & Hs & Ho & r & Hslot & Hr).
      intros Hrest j Hj.
      destruct (decide (j = i)) as [-> | Hne].
      * apply set_mem_table_from_ok in Hrest; [| lia].
        destruct Hrest as (_ & _ & Hout).
        split; [done |]. split; [done |]. split; [done |].
        exists r. rewrite Hout by lia. done.
      * eapply IH; [| exact Hrest | lia]. lia.
    + destruct (vhd_guest_memory_unmap_all memmap1 _) as [memmap3 w3].
      intros [= -> _ _]. done.
Qed.

Lemma set_mem_table_from_again (desc : vhost_user_mem_desc) (fds : list Z) (n : nat) :
  forall (i : nat) (memmap : vhd_guest_memory_map) (w : World),
    (forall j, (i <= j < i + n)%nat -> slot_matches memmap desc j) ->
    set_mem_table_from n i desc fds memmap w = (0, memmap, close_fds_from n i fds w).
Proof.
  induction n as [| n IH]; intros i memmap w Hall; simpl; [done |].
  destruct (Hall i ltac:(lia)) as (Hi & Hs & Ho & r & Hslot & Hhva & Hg & Hp).
  rewrite (map_guest_region_again memmap (Z.of_nat i) _ _ _ _ _ w r);
    try done; [| by rewrite Nat2Z.id].
  simpl. apply IH. intros j Hj. apply Hall. lia.
Qed.

(** X5. SET_MEM_TABLE sent again.  After a SET_MEM_TABLE that succeeded,
    a second one whose regions name the same guest addresses and sizes,
    with page-aligned offsets, succeeds too and leaves the device as it
    is: no region is mapped or unmapped again, and the only effect is the
    close of the fds that came with the second message.  The client
    addresses of the second message play no part: the stored ones
    stay. *)
Theorem set_mem_table_again (vdev vdev1 : vhd_vdev) (msg msg2 : vhost_user_msg)
    (fds fds2 : list Z) (w w1 : World) :
  let desc := mem_desc (payload msg) in
  let desc2 := mem_desc (payload msg2) in
  let n := Z.to_nat (nregions desc) in
  let region d j := default (mk_mem_region 0 0 0 0) (regions d !! j) in
  length (guest_memmap vdev) = Z.to_nat VHOST_USER_MEM_REGIONS_MAX ->
  vhost_set_mem_table vdev msg fds w = (0, vdev1, w1) ->
  nregions desc2 = nregions desc ->
  (forall j, (j < n)%nat ->
     guest_addr (region desc2 j) = guest_addr (region desc j)
     /\ size (region desc2 j) = size (region desc j)
     /\ VHD_IS_ALIGNED (mmap_offset (region desc2 j)) PAGE_SIZE = true) ->
  let w2 := close_fds_from n 0 fds2 w1 in
  vhost_set_mem_table vdev1 msg2 fds2 w1 = (0, vdev1, w2)
  /\ w_tick w2 = w_tick w1 /\ w_unmapped w2 = w_unmapped w1
  /\ forall j, (j < n)%nat -> In (default (-1) (fds2 !! j)) (w_closed w2).
Proof.
  intros desc desc2 n region Hlen Hrun Hn Hsame w2.
  unfold vhost_set_mem_table in Hrun. fold desc n in Hrun.
  destruct (VHOST_USER_MEM_REGIONS_MAX <? nregions desc) eqn:Hmany; [done |].
  apply Z.ltb_ge in Hmany.
  destruct (set_mem_table_from n 0 desc fds (guest_memmap vdev) w)
    as [[ret memmap1] w1'] eqn:Hfirst.
  injection Hrun as -> <- ->.
  assert (n <= length (guest_memmap vdev))%nat as Hfit.
  { rewrite Hlen. unfold n. lia. }
  pose proof (set_mem_table_from_matches desc fds n 0 (guest_memmap vdev) w memmap1 w1
                Hfit Hfirst) as Hmatch.
  split; [| split; [| split]].
  - unfold vhost_set_mem_table. fold desc2. rewrite Hn.
    replace (VHOST_USER_MEM_REGIONS_MAX <? nregions desc) with false
      by (symmetry; apply Z.ltb_ge; lia).
    fold n. simpl guest_memmap.
    rewrite set_mem_table_from_again; [done |].
    intros j Hj. destruct (Hmatch j Hj) as (Hi & Hs & Ho & r & Hslot & Hhva & Hg & Hp).
    destruct (Hsame j ltac:(lia)) as (Hg2 & Hs2 & Ho2).
    unfold region in *. unfold slot_matches. rewrite Hg2, Hs2.
    split; [done |]. split; [done |]. split; [done |]. by exists r.
  - apply (close_fds_from_frame fds2 n 0 w1).
  - apply (close_fds_from_frame fds2 n 0 w1).
  - intros j Hj. apply (close_fds_from_closed fds2 n 0 w1). lia.
Qed.

(** *** What a message can change *)

Lemma set_guest_memmap_id (d : vhd_vdev) : set_guest_memmap (guest_memmap d) d = d.
Proof. by destruct d. Qed.

Lemma set_inflight_id (d : vhd_vdev) :
  set_inflight (inflightfd d) (inflight_mem d) (inflight_size d) d = d.
Proof. by destruct d. Qed.

Lemma vhost_set_mem_table_shape (vdev : vhd_vdev) (msg : vhost_user_msg) (fds : list Z)
    (w : World) :
  exists m, (vhost_set_mem_table vdev msg fds w).1.2 = set_guest_memmap m vdev
            /\ length m = length (guest_memmap vdev).
Proof.
  unfold vhost_set_mem_table.
  destruct (VHOST_USER_MEM_REGIONS_MAX <? _).
  - exists (guest_memmap vdev). by rewrite set_guest_memmap_id.
  - pose proof (set_mem_table_from_length (mem_desc (payload msg)) fds
                  (Z.to_nat (nregions (mem_desc (payload msg)))) 0 (guest_memmap vdev) w)
      as Hl.
    destruct (set_mem_table_from _ 0 _ fds (guest_memmap vdev) w) as [[e m] w'].
    by exists m.
Qed.

Lemma vhost_set_vring_fd_common_shape (vdev : vhd_vdev) (msg : vhost_user_msg) (fd : Z)
    (type : vring_desc_type) (w : World) :
  let d' := (vhost_set_vring_fd_common vdev msg fd type w).1.2 in
  d' = vdev \/ exists p v, d' = store_vring p v vdev.
Proof.
  unfold vhost_set_vring_fd_common.
  destruct (negb _); [by left |].
  destruct (get_vring vdev _) as [p |]; [| by left].
  destruct type; simpl.
  - destruct (negb _); simpl; [| right; eauto].
    destruct (vring_set_enable _ true w) as [[res v'] w']. right. eauto.
  - right. eauto.
  - right. eauto.
Qed.

Lemma vhost_set_vring_num_shape (vdev : vhd_vdev) (msg : vhost_user_msg) :
  let d' := (vhost_set_vring_num vdev msg).2 in
  d' = vdev \/ exists p v, d' = store_vring p v vdev.
Proof.
  unfold vhost_set_vring_num.
  destruct (get_vring_not_enabled vdev _) as [p |]; [right; eauto | by left].
Qed.

Lemma vhost_set_vring_base_shape (vdev : vhd_vdev) (msg : vhost_user_msg) :
  let d' := (vhost_set_vring_base vdev msg).2 in
  d' = vdev \/ exists p v, d' = store_vring p v vdev.
Proof.
  unfold vhost_set_vring_base.
  destruct (get_vring_not_enabled vdev _) as [p |]; [right; eauto | by left].
Qed.

Lemma vhost_set_vring_addr_shape (vdev : vhd_vdev) (msg : vhost_user_msg) :
  let d' := (vhost_set_vring_addr vdev msg).2 in
  d' = vdev \/ exists p v, d' = store_vring p v vdev.
Proof.
  unfold vhost_set_vring_addr.
  destruct (get_vring_not_enabled vdev _) as [p |]; [| by left].
  destruct (_ || _); [by left | right; eauto].
Qed.

Lemma vhost_get_vring_base_shape (vdev : vhd_vdev) (msg : vhost_user_msg) (w : World) :
  let d' := (vhost_get_vring_base vdev msg w).1.2 in
  d' = vdev \/ exists p v, d' = store_vring p v vdev.
Proof.
  unfold vhost_get_vring_base.
  destruct (get_vring vdev _) as [p |]; [| by left].
  destruct (negb (has_feature _ _)).
  - destruct (vring_set_enable _ false w) as [[e v'] w1].
    destruct (negb (e =? 0)); [right; eauto |].
    destruct (vhost_send_reply _ msg _ w1) as [r w2]. right. eauto.
  - destruct (vhost_send_reply vdev msg _ w) as [r w1]. by left.
Qed.

Lemma vhost_set_vring_enable_shape (vdev : vhd_vdev) (msg : vhost_user_msg) (w : World) :
  let d' := (vhost_set_vring_enable vdev msg w).1.2 in
  d' = vdev \/ exists p v, d' = store_vring p v vdev.
Proof.
  unfold vhost_set_vring_enable.
  destruct (get_vring vdev _) as [p |]; [| by left].
  destruct (vring_set_enable _ _ w) as [[res v'] w']. right. eauto.
Qed.

Lemma inflight_cleanup_shape (vdev : vhd_vdev) (w : World) :
  exists fd mem sz, (vhd_vdev_inflight_cleanup vdev w).1 = set_inflight fd mem sz vdev.
Proof.
  unfold vhd_vdev_inflight_cleanup. destruct (inflightfd vdev =? -1); simpl.
  - exists (inflightfd vdev), (inflight_mem vdev), (inflight_size vdev).
    by rewrite set_inflight_id.
  - eauto.
Qed.

Lemma vhost_get_inflight_fd_shape (vdev : vhd_vdev) (msg : vhost_user_msg) (fds : list Z)
    (w : World) :
  exists fd mem sz, (vhost_get_inflight_fd vdev msg fds w).1.2 = set_inflight fd mem sz vdev.
Proof.
  unfold vhost_get_inflight_fd.
  destruct (inflight_cleanup_shape vdev w) as (fd0 & mem0 & sz0 & Hc).
  destruct (vhd_vdev_inflight_cleanup vdev w) as [vdev0 w0]. simpl in Hc. subst vdev0.
  destruct (sys_memfd_create (w_tick w0)) as [fd | errno]; [| simpl; eauto].
  destruct (sys_ftruncate _ fd _) as [errno |]; [simpl; eauto |].
  unfold inflight_mmap_region.
  destruct (sys_mmap _ _ fd 0) as [buf | errno]; simpl; [| eauto].
  destruct (vhost_send_fds _ _ [fd] _) as [ret w3].
  destruct (negb (ret =? 0)); simpl; eauto.
Qed.

Lemma vhost_set_inflight_fd_shape (vdev : vhd_vdev) (msg : vhost_user_msg) (fds : list Z)
    (w : World) :
  exists fd mem sz, (vhost_set_inflight_fd vdev msg fds w).1.2 = set_inflight fd mem sz vdev.
Proof.
  unfold vhost_set_inflight_fd.
  destruct (inflight_cleanup_shape vdev w) as (fd0 & mem0 & sz0 & Hc).
  destruct (vhd_vdev_inflight_cleanup vdev w) as [vdev0 w0]. simpl in Hc. subst vdev0.
  unfold inflight_mmap_region.
  destruct (sys_mmap _ _ _ 0) as [buf | errno]; simpl; eauto.
Qed.

(** The device after the [switch]: which update of which field each
    opcode can make. *)
Lemma vhost_handle_request_switch_shape (vdev : vhd_vdev) (msg : vhost_user_msg)
    (fds : list Z) (w : World) :
  let d' := (vhost_handle_request_switch vdev msg fds w).1.2 in
  match req msg with
  | VHOST_USER_GET_FEATURES => exists x, d' = set_supported_features x vdev
  | VHOST_USER_SET_FEATURES =>
      d' = set_negotiated_features
             (Z.land (u64 (payload msg)) (supported_features vdev)) vdev
  | VHOST_USER_SET_OWNER => d' = set_is_owned true vdev
  | VHOST_USER_SET_PROTOCOL_FEATURES =>
      d' = (vhost_set_protocol_features vdev msg).2
  | VHOST_USER_SET_MEM_TABLE =>
      exists m, d' = set_guest_memmap m vdev /\ length m = length (guest_memmap vdev)
  | VHOST_USER_GET_INFLIGHT_FD
  | VHOST_USER_SET_INFLIGHT_FD => exists fd mem sz, d' = set_inflight fd mem sz vdev
  | r => if is_vring_request r
         then d' = vdev \/ exists p v, d' = store_vring p v vdev
         else d' = vdev
  end.
Proof.
  unfold vhost_handle_request_switch.
  destruct (req msg) eqn:Hreq; simpl; try done;
    first
      [ apply vhost_get_inflight_fd_shape
      | unfold vhost_get_features;
        destruct (vhost_send_reply _ msg _ (tick w)) as [r w']; simpl; by eauto
      | unfold vhost_get_protocol_features, vhost_get_queue_num;
        by destruct (vhost_send_reply vdev msg _ w) as [r w']
      | unfold vhost_get_config;
        destruct (type_get_config _ _ _) as [n buf];
        by destruct (vhost_send vdev _ (tick w)) as [r w']
      | pose proof (vhost_set_mem_table_shape vdev msg fds w) as Hs;
        by destruct (vhost_set_mem_table vdev msg fds w) as [[r d] w']
      | unfold vhost_set_vring_call, vhost_set_vring_kick, vhost_set_vring_err;
        match goal with
        | |- context [vhost_set_vring_fd_common vdev msg ?fd ?ty w] =>
            pose proof (vhost_set_vring_fd_common_shape vdev msg fd ty w) as Hs;
            by destruct (vhost_set_vring_fd_common vdev msg fd ty w) as [[r d] w']
        end
      | pose proof (vhost_set_vring_num_shape vdev msg) as Hs;
        by destruct (vhost_set_vring_num vdev msg) as [r d]
      | pose proof (vhost_set_vring_base_shape vdev msg) as Hs;
        by destruct (vhost_set_vring_base vdev msg) as [r d]
      | pose proof (vhost_get_vring_base_shape vdev msg w) as Hs;
        by destruct (vhost_get_vring_base vdev msg w) as [[r d] w']
      | pose proof (vhost_set_vring_addr_shape vdev msg) as Hs;
        by destruct (vhost_set_vring_addr vdev msg) as [r d]
      | pose proof (vhost_set_vring_enable_shape vdev msg w) as Hs;
        by destruct (vhost_set_vring_enable vdev msg w) as [[r d] w']
      | pose proof (vhost_set_inflight_fd_shape vdev msg fds w) as Hs;
        by destruct (vhost_set_inflight_fd vdev msg fds w) as [[r d] w'] ].
Qed.

Lemma vhost_handle_request_vdev (vdev : vhd_vdev) (msg : vhost_user_msg) (fds : list Z)
    (w : World) :
  (vhost_handle_request vdev msg fds w).1.2
  = (vhost_handle_request_switch vdev msg fds w).1.2.
Proof.
  unfold vhost_handle_request.
  destruct (vhost_handle_request_switch vdev msg fds w) as [[[ret msg1] vdev1] w1].
  by destruct (vhost_ack_request_if_needed vdev1 msg1 ret w1) as [reply_ret w2].
Qed.

(** X6. What a vhost-user message can change.  Whatever the message,
    [vhost_handle_request] keeps the listen and connection sockets, the
    state, both queue counts, the supported protocol features and the
    sizes of the vring array and of the memory map; it never takes the
    ownership flag away; all vrings but at most one stay as they are; and
    each remaining field changes under its own opcodes only: the
    negotiated protocol features under SET_PROTOCOL_FEATURES, the
    supported features under GET_FEATURES, the negotiated features under
    SET_FEATURES, the memory map under SET_MEM_TABLE, the vrings under
    the vring opcodes and the inflight fields under the two inflight
    opcodes. *)
Theorem handle_request_frame (vdev : vhd_vdev) (msg : vhost_user_msg) (fds : list Z)
    (w : World) :
  let d' := (vhost_handle_request vdev msg fds w).1.2 in
  same_identity vdev d'
  /\ (is_owned vdev = true -> is_owned d' = true)
  /\ (exists p, forall j, j <> p -> vrings d' !! j = vrings vdev !! j)
  /\ (req msg <> VHOST_USER_SET_OWNER -> is_owned d' = is_owned vdev)
  /\ (req msg <> VHOST_USER_SET_PROTOCOL_FEATURES ->
      negotiated_protocol_features d' = negotiated_protocol_features vdev)
  /\ (req msg <> VHOST_USER_GET_FEATURES -> supported_features d' = supported_features vdev)
  /\ (req msg <> VHOST_USER_SET_FEATURES ->
      negotiated_features d' = negotiated_features vdev)
  /\ (req msg <> VHOST_USER_SET_MEM_TABLE -> guest_memmap d' = guest_memmap vdev)
  /\ (is_vring_request (req msg) = false -> vrings d' = vrings vdev)
  /\ (is_inflight_request (req msg) = false ->
      inflightfd d' = inflightfd vdev /\ inflight_mem d' = inflight_mem vdev
      /\ inflight_size d' = inflight_size vdev).
Proof.
  intros d'. subst d'. rewrite vhost_handle_request_vdev.
  pose proof (vhost_handle_request_switch_shape vdev msg fds w) as Hshape.
  simpl in Hshape.
  set (d' := (vhost_handle_request_switch vdev msg fds w).1.2) in *. clearbody d'.
  assert (d' = vdev -> exists p : nat, forall j, j <> p -> vrings d' !! j = vrings vdev !! j)
    as Hsame.
  { intros ->. by exists 0%nat. }
  destruct (req msg) eqn:Hreq; simpl in Hshape;
    repeat match goal with
           | Hx : exists _, _ |- _ => destruct Hx
           | Hx : _ /\ _ |- _ => destruct Hx
           | Hx : _ \/ _ |- _ => destruct Hx
           end;
    subst d'; unfold same_identity, store_vring, vhost_set_protocol_features;
    simpl; rewrite ?length_insert;
    (split; [done |]); (split; [done |]);
    (split;
     [ first [ by apply Hsame
             | by exists 0%nat
             | eexists; intros j Hj; by apply list_lookup_insert_ne ]
     | ]);
    repeat split; try done.
Qed.

(** *** Feature negotiation *)

Lemma has_feature_testbit (f bit : Z) : 0 <= bit -> has_feature f bit = Z.testbit f bit.
Proof.
  intros Hbit. unfold has_feature. rewrite Z.shiftl_1_l.
  destruct (Z.testbit f bit) eqn:Hf.
  - apply negb_true_iff, Z.eqb_neq. intros Hz.
    assert (Z.testbit (Z.land f (2 ^ bit)) bit = true) as Hb.
    { rewrite Z.land_spec, Hf, Z.pow2_bits_true by done. done. }
    rewrite Hz, Z.bits_0 in Hb. done.
  - apply negb_false_iff, Z.eqb_eq. apply Z.bits_inj'. intros m Hm.
    rewrite Z.land_spec, Z.bits_0, Z.pow2_bits_eqb by done.
    destruct (Z.eqb_spec bit m) as [<- | Hne]; [by rewrite Hf | apply andb_false_r].
Qed.

Lemma masked_protocol_features (feats supp : Z) :
  0 <= feats < 2 ^ 64 ->
  (if negb (Z.land feats (wrap64 (Z.lnot supp)) =? 0) then Z.land feats supp else feats)
  = Z.land feats supp.
Proof.
  intros Hf. destruct (Z.land feats (wrap64 (Z.lnot supp)) =? 0) eqn:Hz; simpl; [| done].
  apply Z.eqb_eq in Hz. apply Z.bits_inj'. intros n Hn. rewrite Z.land_spec.
  destruct (Z.lt_ge_cases n 64) as [Hlow | Hhigh].
  - assert (Z.testbit (Z.land feats (wrap64 (Z.lnot supp))) n = false) as Hb.
    { by rewrite Hz, Z.bits_0. }
    unfold wrap64 in Hb.
    rewrite Z.land_spec, Z.mod_pow2_bits_low, Z.lnot_spec in Hb by lia.
    by destruct (Z.testbit feats n), (Z.testbit supp n).
  - assert (Z.testbit feats n = false) as ->; [| done].
    rewrite <- (Z.mod_small feats (2 ^ 64)) by lia.
    apply Z.mod_pow2_bits_high. lia.
Qed.

(** X7. Protocol features.  SET_PROTOCOL_FEATURES stores the requested
    bits masked by the supported ones, whichever branch it takes, and no
    other message touches the negotiated set; so the negotiated protocol
    features stay a subset of the supported ones under every message, and
    a protocol feature the device does not support is never negotiated. *)
Theorem negotiated_protocol_features_supported (vdev : vhd_vdev) (msg : vhost_user_msg)
    (fds : list Z) (w : World) :
  0 <= u64 (payload msg) < 2 ^ 64 ->
  let supp := supported_protocol_features vdev in
  let d' := (vhost_handle_request vdev msg fds w).1.2 in
  supported_protocol_features d' = supp
  /\ (req msg = VHOST_USER_SET_PROTOCOL_FEATURES ->
      negotiated_protocol_features d' = Z.land (u64 (payload msg)) supp)
  /\ (Z.land (negotiated_protocol_features vdev) supp = negotiated_protocol_features vdev ->
      Z.land (negotiated_protocol_features d') supp = negotiated_protocol_features d'
      /\ forall bit, 0 <= bit ->
           has_feature supp bit = false ->
           has_feature (negotiated_protocol_features d') bit = false).
Proof.
  intros Hu supp d'. subst d'. rewrite vhost_handle_request_vdev.
  pose proof (vhost_handle_request_switch_shape vdev msg fds w) as Hshape.
  simpl in Hshape.
  set (d' := (vhost_handle_request_switch vdev msg fds w).1.2) in *. clearbody d'.
  assert (supported_protocol_features d' = supp
          /\ (req msg = VHOST_USER_SET_PROTOCOL_FEATURES ->
              negotiated_protocol_features d' = Z.land (u64 (payload msg)) supp)
          /\ (req msg <> VHOST_USER_SET_PROTOCOL_FEATURES ->
              negotiated_protocol_features d' = negotiated_protocol_features vdev))
    as (Hsupp & Hset & Hother).
  { destruct (req msg) eqn:Hreq; simpl in Hshape;
      repeat match goal with
             | Hx : exists _, _ |- _ => destruct Hx
             | Hx : _ /\ _ |- _ => destruct Hx
             | Hx : _ \/ _ |- _ => destruct Hx
             end;
      subst d'; unfold store_vring, vhost_set_protocol_features; simpl;
      (split; [done |]); (split; [| done]); try done.
    intros _. by apply masked_protocol_features. }
  split; [done |]. split; [done |].
  intros Hsub.
  assert (Z.land (negotiated_protocol_features d') supp = negotiated_protocol_features d')
    as Hsub'.
  { assert (req msg = VHOST_USER_SET_PROTOCOL_FEATURES
            \/ req msg <> VHOST_USER_SET_PROTOCOL_FEATURES) as [Heq | Hne].
    { destruct (req msg); (by left) || (by right). }
    - rewrite (Hset Heq). rewrite <- Z.land_assoc. by rewrite Z.land_diag.
    - by rewrite (Hother Hne). }
  split; [done |]. intros bit Hbit. rewrite !has_feature_testbit by done.
  intros Hno. rewrite <- Hsub', Z.land_spec, Hno. apply andb_false_r.
Qed.

(** X8. Device features.  GET_FEATURES records as supported the bits of
    the device type together with VHOST_USER_F_PROTOCOL_FEATURES, which
    is therefore always on offer, and sends exactly that set as its
    reply.  A SET_FEATURES that follows negotiates the requested bits
    masked by that set and returns 0, so VHOST_USER_F_PROTOCOL_FEATURES
    is negotiated exactly when the master asked for it. *)
Theorem features_handshake (vdev : vhd_vdev) (msg msg2 : vhost_user_msg) (w : World) :
  0 <= VHOST_USER_F_PROTOCOL_FEATURES ->
  let '(r, vdev1, w1) := vhost_get_features vdev msg w in
  let '(r2, vdev2) := vhost_set_features vdev1 msg2 in
  supported_features vdev1 = Z.lor g_default_features (type_get_features (w_tick w))
  /\ has_feature (supported_features vdev1) VHOST_USER_F_PROTOCOL_FEATURES = true
  /\ w_sent w1
     = (mk_msg (req msg) VHOST_USER_MSG_FLAGS_REPLY 8
          (set_u64 (wrap64 (supported_features vdev1)) zero_payload), []) :: w_sent w
  /\ r2 = 0
  /\ negotiated_features vdev2 = Z.land (u64 (payload msg2)) (supported_features vdev1)
  /\ has_feature (negotiated_features vdev2) VHOST_USER_F_PROTOCOL_FEATURES
     = has_feature (u64 (payload msg2)) VHOST_USER_F_PROTOCOL_FEATURES.
Proof.
  intros Hbit. unfold vhost_get_features.
  set (vdev1 := set_supported_features _ vdev).
  pose proof (vhost_send_reply_sent vdev1 msg (supported_features vdev1) (tick w)) as Hsent.
  destruct (vhost_send_reply vdev1 msg _ (tick w)) as [r w1].
  unfold vhost_set_features. simpl in *.
  assert (Z.testbit (Z.lor g_default_features (type_get_features (w_tick w)))
            VHOST_USER_F_PROTOCOL_FEATURES = true) as Hoffer.
  { unfold g_default_features.
    rewrite Z.lor_spec, Z.shiftl_1_l, Z.pow2_bits_true by done. done. }
  split; [done |]. split; [by rewrite has_feature_testbit |].
  split; [done |]. split; [done |]. split; [done |].
  rewrite !has_feature_testbit by done.
  rewrite Z.land_spec, Hoffer. apply andb_true_r.
Qed.

(** *** What a message can do to the world *)

Lemma vhost_send_fds_only_sent (vdev : vhd_vdev) (m : vhost_user_msg) (fds : list Z)
    (w : World) :
  only_sent w (vhost_send_fds vdev m fds w).2.
Proof.
  unfold only_sent, vhost_send_fds, net_send_msg_fds. repeat case_match; simplify_eq; done.
Qed.

Lemma vhost_send_reply_only_sent (vdev : vhd_vdev) (m : vhost_user_msg) (x : Z) (w : World) :
  only_sent w (vhost_send_reply vdev m x w).2.
Proof. apply vhost_send_fds_only_sent. Qed.

Lemma only_sent_refl (w : World) : only_sent w w.
Proof. by unfold only_sent. Qed.

Lemma vhost_ack_only_sent (vdev : vhd_vdev) (msg : vhost_user_msg) (ret : Z) (w : World) :
  only_sent w (vhost_ack_request_if_needed vdev msg ret w).2.
Proof.
  unfold vhost_ack_request_if_needed.
  repeat case_match; simpl; first [apply only_sent_refl | apply vhost_send_reply_only_sent].
Qed.

Lemma map_guest_region_frame (memmap : vhd_guest_memory_map)
    (index gpa uva size offset fd : Z) (w : World) :
  let w' := (map_guest_region memmap index gpa uva size offset fd w).2 in
  w_unmapped w' = w_unmapped w
  /\ w_vhost_events w' = w_vhost_events w /\ w_rq_events w' = w_rq_events w
  /\ w_mem w' = w_mem w.
Proof. unfold map_guest_region. repeat case_match; done. Qed.

Lemma set_mem_table_from_frame (desc : vhost_user_mem_desc) (fds : list Z) (n : nat) :
  forall (i : nat) (memmap : vhd_guest_memory_map) (w : World),
    let w' := (set_mem_table_from n i desc fds memmap w).2 in
    w_vhost_events w' = w_vhost_events w /\ w_rq_events w' = w_rq_events w
    /\ w_mem w' = w_mem w.
Proof.
  induction n as [| n IH]; intros i memmap w; simpl; [done |].
  pose proof (map_guest_region_frame memmap (Z.of_nat i)
      (guest_addr (default (mk_mem_region 0 0 0 0) (regions desc !! i)))
      (user_addr (default (mk_mem_region 0 0 0 0) (regions desc !! i)))
      (size (default (mk_mem_region 0 0 0 0) (regions desc !! i)))
      (mmap_offset (default (mk_mem_region 0 0 0 0) (regions desc !! i)))
      (default (-1) (fds !! i)) w) as (_ & Hv & Hr & Hm).
  destruct (map_guest_region memmap (Z.of_nat i) _ _ _ _ _ w)
    as [[error memmap1] w1]. simpl in Hv, Hr, Hm.
  destruct (error =? 0); simpl.
  - destruct (IH (S i) memmap1 w1) as (Hv' & Hr' & Hm'). repeat split; congruence.
  - unfold vhd_guest_memory_unmap_all.
    pose proof (unmap_from_world (Z.to_nat VHOST_USER_MEM_REGIONS_MAX) 0 memmap1
                  (close_fds_from n (S i) fds (sys_close (default (-1) (fds !! i)) w1)))
      as (_ & _ & _ & _ & Hv' & Hr' & Hm').
    destruct (close_fds_from_frame fds n (S i)
                (sys_close (default (-1) (fds !! i)) w1))
      as (_ & _ & _ & Hv'' & Hr'' & Hm'').
    destruct (unmap_from _ 0 memmap1 _) as [memmap3 w3]. simpl in *.
    repeat split; congruence.
Qed.

(** The world after the [switch]. *)
Lemma vhost_handle_request_switch_world (vdev : vhd_vdev) (msg : vhost_user_msg)
    (fds : list Z) (w : World) :
  let w' := (vhost_handle_request_switch vdev msg fds w).2 in
  w_vhost_events w' = w_vhost_events w
  /\ (is_enabling_request (req msg) = false -> w_rq_events w' = w_rq_events w)
  /\ (is_releasing_request (req msg) = false ->
      w_closed w' = w_closed w /\ w_unmapped w' = w_unmapped w)
  /\ (req msg <> VHOST_USER_GET_INFLIGHT_FD -> w_mem w' = w_mem w).
Proof.
  unfold vhost_handle_request_switch.
  destruct (req msg) eqn:Hreq; simpl; try done.
  all: first
    [ (* SET_MEM_TABLE *)
      unfold vhost_set_mem_table;
      destruct (VHOST_USER_MEM_REGIONS_MAX <? _); [done |];
      pose proof (set_mem_table_from_frame (mem_desc (payload msg)) fds
                    (Z.to_nat (nregions (mem_desc (payload msg)))) 0
                    (guest_memmap vdev) w) as (Hv & Hr & Hm);
      destruct (set_mem_table_from _ 0 _ fds (guest_memmap vdev) w) as [[e m] w'];
      by simpl in *
    | (* everything else: straight-line code *)
      unfold vhost_get_features, vhost_get_protocol_features, vhost_get_queue_num,
        vhost_get_config, vhost_set_features, vhost_set_owner,
        vhost_set_protocol_features, vhost_set_vring_call, vhost_set_vring_kick,
        vhost_set_vring_err, vhost_set_vring_fd_common, vhost_set_vring_num,
        vhost_set_vring_base, vhost_get_vring_base, vhost_set_vring_addr,
        vhost_set_vring_enable, vhost_get_inflight_fd, vhost_set_inflight_fd,
        vhd_vdev_inflight_cleanup, inflight_mmap_region,
        vring_set_enable, virtio_virtq_attach, vhd_attach_event, vhd_detach_event,
        vhost_send_reply, vhost_send, vhost_send_fds, net_send_msg_fds;
      repeat case_match; simplify_eq; simpl; by repeat split ].
Qed.

(** X9. What a vhost-user message can do to the world.  No message
    changes the sources registered with the vhost event loop.  The
    request queue's event sources change only under SET_VRING_KICK,
    GET_VRING_BASE and SET_VRING_ENABLE.  An fd is closed or a mapping
    released only under SET_MEM_TABLE and the two inflight opcodes; in
    particular the vring opcodes close nothing, so the kick, call or err
    fd that a SET_VRING_KICK, _CALL or _ERR replaces stays open.  Mapped
    memory is written only under GET_INFLIGHT_FD. *)
Theorem handle_request_world_frame (vdev : vhd_vdev) (msg : vhost_user_msg) (fds : list Z)
    (w : World) :
  let w' := (vhost_handle_request vdev msg fds w).2 in
  w_vhost_events w' = w_vhost_events w
  /\ (is_enabling_request (req msg) = false -> w_rq_events w' = w_rq_events w)
  /\ (is_releasing_request (req msg) = false ->
      w_closed w' = w_closed w /\ w_unmapped w' = w_unmapped w)
  /\ (req msg <> VHOST_USER_GET_INFLIGHT_FD -> w_mem w' = w_mem w).
Proof.
  pose proof (vhost_handle_request_switch_world vdev msg fds w) as Hsw.
  unfold vhost_handle_request.
  destruct (vhost_handle_request_switch vdev msg fds w) as [[[ret msg1] vdev1] w1].
  pose proof (vhost_ack_only_sent vdev1 msg1 ret w1) as (Hc & Hu & Hv & Hr & Hm).
  destruct (vhost_ack_request_if_needed vdev1 msg1 ret w1) as [reply_ret w2].
  simpl in *. destruct Hsw as (Hv1 & Hr1 & Hc1 & Hm1).
  split; [congruence |]. split; [| split].
  - intros Hn. rewrite Hr. by apply Hr1.
  - intros Hn. rewrite Hc, Hu. by apply Hc1.
  - intros Hn. rewrite Hm. by apply Hm1.
Qed.

(** *** Kick fds and the request queue *)

Lemma remove_fd_absent (fd : Z) (l : list Z) : ~ In fd l -> remove_fd fd l = l.
Proof.
  unfold remove_fd. induction l as [| x l IH]; simpl; [done |].
  intros Hno. destruct (Z.eqb_spec x fd) as [-> | Hne]; simpl.
  - exfalso. apply Hno. by left.
  - rewrite IH; [done |]. intros Hin. apply Hno. by right.
Qed.

Lemma remove_fd_other (fd x : Z) (l : list Z) : x <> fd -> In x l -> In x (remove_fd fd l).
Proof.
  intros Hne Hin. unfold remove_fd. apply filter_In. split; [done |].
  apply negb_true_iff, Z.eqb_neq. done.
Qed.

(** X10. Enabling a vring is all or nothing, and disabling undoes it.
    [vring_set_enable] on a disabled vring never changes its client
    info, id or fds.  When it fails the vring stays disabled and the
    request queue keeps its event sources.  When it succeeds the vring is
    enabled and its kick fd is the one source added; disabling the vring
    again returns 0 and, provided the kick fd was not a source before,
    leaves the request queue with the sources it had at the start. *)
Theorem vring_enable_all_or_nothing (v : vhd_vring) (w : World) :
  is_enabled v = false ->
  let '(r, v1, w1) := vring_set_enable v true w in
  (client_info v1 = client_info v /\ id v1 = id v /\ kickfd v1 = kickfd v
   /\ callfd v1 = callfd v /\ errfd v1 = errfd v)
  /\ (r <> 0 -> is_enabled v1 = false /\ w_rq_events w1 = w_rq_events w)
  /\ (r = 0 ->
      is_enabled v1 = true
      /\ w_rq_events w1 = kickfd v :: w_rq_events w
      /\ let '(r2, v2, w2) := vring_set_enable v1 false w1 in
         r2 = 0 /\ is_enabled v2 = false
         /\ client_info v2 = client_info v /\ kickfd v2 = kickfd v
         /\ callfd v2 = callfd v /\ errfd v2 = errfd v
         /\ (~ In (kickfd v) (w_rq_events w) -> w_rq_events w2 = w_rq_events w)).
Proof.
  intros Hdis.
  unfold vring_set_enable at 1. unfold virtio_virtq_attach, vhd_attach_event.
  rewrite Hdis. simpl.
  destruct (virtq_attach_result (w_tick w) (client_info v) =? 0) eqn:Ha; simpl;
    rewrite ?Ha; simpl.
  - destruct (attach_event_result (S (w_tick w)) (kickfd v) =? 0) eqn:He; simpl;
      rewrite ?He; simpl.
    + split; [done |]. split; [done |]. intros _.
      split; [done |]. split; [done |].
      unfold vring_set_enable, vhd_detach_event. simpl.
      repeat split; try done.
      intros Hno. rewrite Z.eqb_refl. simpl. by apply remove_fd_absent.
    + apply Z.eqb_neq in He. split; [done |]. split; [done |]. intros Hz. done.
  - apply Z.eqb_neq in Ha. split; [done |]. split; [done |]. intros Hz. done.
Qed.

(** X11. SET_VRING_KICK for a vring that is enabled.  The handler
    returns 0 and stores the new kick fd, in either mode, and does
    nothing else: the request queue still listens on the old kick fd and
    not on the new one.  Disabling the vring afterwards detaches the new
    fd, so the old one stays attached. *)
Theorem set_vring_kick_while_enabled (vdev : vhd_vdev) (msg : vhost_user_msg)
    (fds : list Z) (w : World) (p : nat) (v : vhd_vring) :
  Z.land (u64 (payload msg)) VHOST_VRING_INVALID_FD = 0 ->
  get_vring vdev (wrap8 (Z.land (u64 (payload msg)) VHOST_VRING_IDX_MASK)) = Some p ->
  vrings vdev !! p = Some v ->
  is_enabled v = true ->
  let v1 := set_kickfd (fds0 fds) v in
  vhost_set_vring_kick vdev msg fds w = (0, store_vring p v1 vdev, w)
  /\ let '(r, v2, w2) := vring_set_enable v1 false w in
     r = 0 /\ is_enabled v2 = false
     /\ w_rq_events w2 = remove_fd (fds0 fds) (w_rq_events w)
     /\ (In (kickfd v) (w_rq_events w) -> fds0 fds <> kickfd v ->
         In (kickfd v) (w_rq_events w2)).
Proof.
  intros Hfd Hget Hslot Hen v1. split.
  - unfold vhost_set_vring_kick, vhost_set_vring_fd_common.
    rewrite Hfd, Hget. simpl. unfold vring_at. rewrite Hslot. simpl.
    destruct (has_feature _ _); simpl; [done |].
    unfold vring_set_enable. simpl. by rewrite Hen.
  - unfold vring_set_enable, vhd_detach_event. subst v1. simpl. rewrite Hen. simpl.
    repeat split; try done.
    intros Hin Hne. apply remove_fd_other; done.
Qed.

(** X12. GET_VRING_BASE for a vring of the device.  The reply carries
    the last-avail index of the virtqueue, as a 16-bit value.  With
    VHOST_USER_F_PROTOCOL_FEATURES negotiated the device is left as it
    is; without it the vring is disabled first, its kick fd no longer a
    source of the request queue, and a vring that was already disabled
    is not touched. *)
Theorem get_vring_base_stops_vring (vdev : vhd_vdev) (msg : vhost_user_msg) (w : World)
    (p : nat) (v : vhd_vring) :
  get_vring vdev (vs_index (vring_state (payload msg))) = Some p ->
  vrings vdev !! p = Some v ->
  let '(r, vdev', w') := vhost_get_vring_base vdev msg w in
  w_sent w' = ack_message msg (wrap16 (last_avail (vq v))) :: w_sent w
  /\ (has_feature (negotiated_features vdev) VHOST_USER_F_PROTOCOL_FEATURES = true ->
      vdev' = vdev /\ w_rq_events w' = w_rq_events w)
  /\ (has_feature (negotiated_features vdev) VHOST_USER_F_PROTOCOL_FEATURES = false ->
      exists v', vrings vdev' !! p = Some v'
        /\ is_enabled v' = false
        /\ client_info v' = client_info v /\ kickfd v' = kickfd v
        /\ callfd v' = callfd v
        /\ ~ (is_enabled v = true /\ In (kickfd v) (w_rq_events w'))
        /\ (is_enabled v = false -> v' = v /\ w_rq_events w' = w_rq_events w)).
Proof.
  intros Hget Hslot. unfold vhost_get_vring_base. rewrite Hget.
  unfold vring_at. rewrite Hslot. simpl.
  destruct (has_feature _ _) eqn:Hf; simpl.
  - pose proof (vhost_send_reply_sent vdev msg (wrap16 (last_avail (vq v))) w) as Hsent.
    pose proof (vhost_send_reply_only_sent vdev msg (wrap16 (last_avail (vq v))) w)
      as (_ & _ & _ & Hr & _).
    destruct (vhost_send_reply vdev msg _ w) as [r w1]. simpl in *.
    split; [done |]. split; [done |]. done.
  - assert (exists v' w1,
              vring_set_enable v false w = (0, v', w1)
              /\ is_enabled v' = false /\ client_info v' = client_info v
              /\ kickfd v' = kickfd v /\ callfd v' = callfd v
              /\ w_sent w1 = w_sent w
              /\ ~ (is_enabled v = true /\ In (kickfd v) (w_rq_events w1))
              /\ (is_enabled v = false -> v' = v /\ w1 = w))
      as (v' & w1 & Hrun & Hen & Hci & Hk & Hc & Hs & Hout & Hidle).
    { unfold vring_set_enable, vhd_detach_event.
      destruct (is_enabled v) eqn:Hv; simpl.
      - eexists _, _. split; [reflexivity |]. simpl. repeat split; try done.
        intros [_ Hin]. by apply remove_fd_not_In in Hin.
      - eexists _, _. split; [reflexivity |]. repeat split; try done.
        intros [Hx _]. done. }
    rewrite Hrun. simpl.
    set (vdev1 := store_vring p v' vdev).
    pose proof (vhost_send_reply_sent vdev1 msg (wrap16 (last_avail (vq v))) w1) as Hsent.
    pose proof (vhost_send_reply_only_sent vdev1 msg (wrap16 (last_avail (vq v))) w1)
      as (_ & _ & _ & Hr & _).
    destruct (vhost_send_reply vdev1 msg _ w1) as [r w2]. simpl in *.
    split; [congruence |]. split; [done |]. intros _.
    exists v'. split.
    { subst vdev1. simpl. apply list_lookup_insert_eq. by eapply lookup_lt_Some. }
    repeat split; try done.
    + rewrite Hr. done.
    + by apply Hidle.
    + rewrite Hr. destruct (Hidle ltac:(done)) as [_ ->]. done.
Qed.

(** *** The inflight region: failures and SET_INFLIGHT_FD *)

Lemma inflight_cleanup_released (vdev : vhd_vdev) (w : World) :
  let res := vhd_vdev_inflight_cleanup vdev w in
  w_tick res.2 = w_tick w
  /\ (inflightfd res.1 = -1)
  /\ (forall x, In x (w_closed w) -> In x (w_closed res.2))
  /\ (forall x, In x (w_unmapped w) -> In x (w_unmapped res.2))
  /\ (inflightfd vdev <> -1 ->
      In (inflightfd vdev) (w_closed res.2)
      /\ In (inflight_mem vdev, inflight_size vdev) (w_unmapped res.2)).
Proof.
  unfold vhd_vdev_inflight_cleanup.
  destruct (Z.eqb_spec (inflightfd vdev) (-1)) as [Heq | Hne]; simpl.
  - split; [done |]. split; [done |]. split; [auto |]. split; [auto |]. done.
  - split; [done |]. split; [done |].
    split; [intros x Hx; by right |]. split; [intros x Hx; by right |].
    intros _. split; by left.
Qed.

(** X13. GET_INFLIGHT_FD leaves nothing behind when it fails.  Whenever
    the handler returns an error the device has no inflight region
    afterwards ([inflightfd] is -1), the memfd it created, if any, is
    closed, and the mapping it made, if any, is unmapped.  The region
    the device had before is released in every case, failure or not. *)
Theorem get_inflight_fd_failure (vdev : vhd_vdev) (msg : vhost_user_msg) (fds : list Z)
    (w : World) :
  let idesc := inflight_desc (payload msg) in
  let size := wrap64 (vring_inflight_buf_size (id_queue_size idesc) * id_num_queues idesc) in
  let t := w_tick w in
  let '(ret, msg', vdev', w') := vhost_get_inflight_fd vdev msg fds w in
  (inflightfd vdev <> -1 ->
     In (inflightfd vdev) (w_closed w')
     /\ In (inflight_mem vdev, inflight_size vdev) (w_unmapped w'))
  /\ (ret <> 0 ->
      inflightfd vdev' = -1
      /\ (forall fd, sys_memfd_create t = inl fd ->
            In fd (w_closed w')
            /\ forall buf, sys_ftruncate (S t) fd size = None ->
                 sys_mmap (S (S t)) size fd 0 = inl buf ->
                 In (Z.pos buf, size) (w_unmapped w')
                 /\ inflight_mem vdev' = 0)).
Proof.
  intros idesc size t. unfold vhost_get_inflight_fd. fold idesc. fold size.
  destruct (inflight_cleanup_released vdev w) as (Ht & Hfd0 & Hcl & Hun & Hold).
  destruct (vhd_vdev_inflight_cleanup vdev w) as [vdev0 w0]. simpl in Ht, Hfd0, Hcl, Hun, Hold.
  rewrite Ht. fold t.
  destruct (sys_memfd_create t) as [fd | errno] eqn:Hmemfd.
  - simpl. rewrite Ht. fold t.
    destruct (sys_ftruncate (S t) fd size) as [errno |] eqn:Htrunc.
    + split.
      { intros Hne. destruct (Hold Hne) as [Hc Hu]. split; [by right | done]. }
      intros _. split; [done |]. intros fd' [= <-]. split; [by left |].
      intros buf Hnone. congruence.
    + unfold inflight_mmap_region. simpl. rewrite Ht. fold t.
      destruct (sys_mmap (S (S t)) size fd 0) as [buf | errno] eqn:Hmap; simpl.
      * destruct (vhost_send_fds_frame (set_inflight fd (Z.pos buf) size vdev0)
                    (set_flags VHOST_USER_MSG_FLAGS_REPLY
                       (set_payload
                          (set_inflight_desc
                             (mk_inflight_desc size 0 (id_num_queues idesc)
                                (id_queue_size idesc)) (payload msg)) msg)) [fd]
                    (set_mem
                       (inflight_init_queues (Z.to_nat (id_num_queues idesc))
                          (memset (w_mem (tick (tick (tick w0)))) (Z.pos buf) 0 size)
                          (Z.pos buf) (vring_inflight_buf_size (id_queue_size idesc))
                          (id_queue_size idesc)) (tick (tick (tick w0)))))
          as (_ & Hc & Hu).
        destruct (vhost_send_fds _ _ [fd] _) as [ret w3]. simpl in Hc, Hu.
        destruct (ret =? 0) eqn:Hret; simpl.
        -- split.
           { intros Hne. destruct (Hold Hne) as [Hc0 Hu0]. rewrite Hc, Hu. done. }
           intros Hbad. done.
        -- split.
           { intros Hne. destruct (Hold Hne) as [Hc0 Hu0]. rewrite Hc, Hu.
             split; right; done. }
           intros _. split; [done |]. intros fd' [= <-]. split; [by left |].
           intros buf' _ Hm. rewrite Hmap in Hm. injection Hm as <-.
           split; [by left | done].
      * split.
        { intros Hne. destruct (Hold Hne) as [Hc0 Hu0]. split; [by right | done]. }
        intros _. split; [done |]. intros fd' [= <-]. split; [by left |].
        intros buf _ Hm. congruence.
  - simpl. split; [done |]. intros _. split; [done |]. done.
Qed.

(** X14. SET_INFLIGHT_FD.  The region the device had before is released
    first.  When [mmap] of the fd that came with the message succeeds the
    handler returns 0 and the device records that fd, the address and the
    size named in the message, and the fd stays open.  When it fails the
    handler returns the errno, closes the fd and the device has no
    inflight region. *)
Theorem set_inflight_fd_outcomes (vdev : vhd_vdev) (msg : vhost_user_msg) (fds : list Z)
    (w : World) :
  let size := id_mmap_size (inflight_desc (payload msg)) in
  let w0 := (vhd_vdev_inflight_cleanup vdev w).2 in
  let '(ret, vdev', w') := vhost_set_inflight_fd vdev msg fds w in
  (inflightfd vdev <> -1 ->
     In (inflightfd vdev) (w_closed w')
     /\ In (inflight_mem vdev, inflight_size vdev) (w_unmapped w'))
  /\ w_unmapped w' = w_unmapped w0
  /\ match sys_mmap (w_tick w) size (fds0 fds) 0 with
     | inl buf =>
         ret = 0 /\ inflightfd vdev' = fds0 fds /\ inflight_mem vdev' = Z.pos buf
         /\ inflight_size vdev' = size /\ w_closed w' = w_closed w0
     | inr errno =>
         ret = Z.pos errno /\ inflightfd vdev' = -1
         /\ w_closed w' = fds0 fds :: w_closed w0
     end.
Proof.
  intros size w0. subst w0. unfold vhost_set_inflight_fd. fold size.
  destruct (inflight_cleanup_released vdev w) as (Ht & Hfd0 & Hcl & Hun & Hold).
  destruct (vhd_vdev_inflight_cleanup vdev w) as [vdev0 w0]. simpl in *.
  unfold inflight_mmap_region. rewrite Ht.
  destruct (sys_mmap (w_tick w) size (fds0 fds) 0) as [buf | errno]; simpl.
  - split; [done |]. done.
  - split; [| done].
    intros Hne. destruct (Hold Hne) as [Hc Hu]. split; [by right | done].
Qed.

(** *** Tearing down: [vhd_vdev_uninit] and the disconnect *)

Lemma vhd_vring_uninit_frame (v : vhd_vring) (w : World) :
  let w' := (vhd_vring_uninit v w).2 in
  w_tick w' = w_tick w /\ w_closed w' = w_closed w /\ w_unmapped w' = w_unmapped w
  /\ w_sent w' = w_sent w /\ w_vhost_events w' = w_vhost_events w /\ w_mem w' = w_mem w.
Proof.
  unfold vhd_vring_uninit, vring_set_enable, vhd_detach_event.
  repeat case_match; simplify_eq; done.
Qed.

Lemma uninit_vrings_from_frame (n : nat) :
  forall (i : nat) (vs : list vhd_vring) (w : World),
    let w' := (uninit_vrings_from n i vs w).2 in
    w_tick w' = w_tick w /\ w_closed w' = w_closed w /\ w_unmapped w' = w_unmapped w
    /\ w_sent w' = w_sent w /\ w_vhost_events w' = w_vhost_events w /\ w_mem w' = w_mem w.
Proof.
  induction n as [| n IH]; intros i vs w; simpl; [done |].
  destruct (vs !! i) as [vring |]; [| apply IH].
  pose proof (vhd_vring_uninit_frame vring w) as (H1 & H2 & H3 & H4 & H5 & H6).
  destruct (vhd_vring_uninit vring w) as [vring' w1]. simpl in *.
  destruct (IH (S i) (<[i := vring']> vs) w1) as (G1 & G2 & G3 & G4 & G5 & G6).
  repeat split; congruence.
Qed.

(** X15. [vhd_vdev_uninit] closes the listen socket and releases the
    inflight region, and that is all it gives back: it closes neither the
    connection socket nor the fd of any guest memory region, unmaps no
    guest region, and removes no source from the vhost event loop.  The
    memory map, both sockets and the state of the device stay as they
    are. *)
Theorem vdev_uninit_effects (vdev : vhd_vdev) (w : World) :
  let '(vdev', w') := vhd_vdev_uninit vdev w in
  w_closed w'
  = (if inflightfd vdev =? -1 then [] else [inflightfd vdev])
    ++ listenfd vdev :: w_closed w
  /\ w_unmapped w'
     = (if inflightfd vdev =? -1 then []
        else [(inflight_mem vdev, inflight_size vdev)]) ++ w_unmapped w
  /\ inflightfd vdev' = -1
  /\ guest_memmap vdev' = guest_memmap vdev
  /\ listenfd vdev' = listenfd vdev /\ connfd vdev' = connfd vdev
  /\ state vdev' = state vdev
  /\ w_vhost_events w' = w_vhost_events w /\ w_sent w' = w_sent w.
Proof.
  unfold vhd_vdev_uninit.
  pose proof (uninit_vrings_from_frame (Z.to_nat (max_queues vdev)) 0 (vrings vdev)
                (sys_close (listenfd vdev) w)) as (_ & Hc & Hu & Hs & Hv & _).
  destruct (uninit_vrings_from _ 0 (vrings vdev) _) as [vrings' w1]. simpl in *.
  unfold vhd_vdev_inflight_cleanup. simpl.
  destruct (Z.eqb_spec (inflightfd vdev) (-1)) as [Heq | Hne]; simpl;
    rewrite ?Hc, ?Hu; repeat split; done.
Qed.

(** X16. The disconnect leaves a clean slate, whether or not the listen
    socket can be re-armed.  After [conn_close] on a CONNECTED device,
    which is [change_device_state] to LISTENING, the connection fd is
    closed, together with the fd of
    every guest region that was mapped, and no longer a source of the
    vhost event loop; the device has no owner, its [connfd] is -1 and no
    guest or client address translates any more.  The negotiated and
    supported features and the inflight region survive the disconnect.
    The listen socket is a source of the event loop exactly when the
    transition returned 0. *)
Theorem disconnect_clean_slate (vdev : vhd_vdev) (w : World) :
  state vdev = VDEV_CONNECTED ->
  let '(ret, vdev', w') := conn_close vdev w in
  connfd vdev' = -1 /\ is_owned vdev' = false
  /\ (forall a, map_uva (guest_memmap vdev') a = 0)
  /\ (forall a len, map_gpa_len (guest_memmap vdev') a len = 0)
  /\ w_closed w'
     = connfd vdev :: rev (reg_fd <$> live_regions (guest_memmap vdev)) ++ w_closed w
  /\ w_vhost_events w'
     = (if ret =? 0 then [listenfd vdev] else [])
       ++ remove_fd (connfd vdev) (w_vhost_events w)
  /\ negotiated_features vdev' = negotiated_features vdev
  /\ negotiated_protocol_features vdev' = negotiated_protocol_features vdev
  /\ supported_features vdev' = supported_features vdev
  /\ inflightfd vdev' = inflightfd vdev /\ inflight_mem vdev' = inflight_mem vdev
  /\ inflight_size vdev' = inflight_size vdev
  /\ w_sent w' = w_sent w.
Proof.
  intros Hst. unfold conn_close, change_device_state. rewrite Hst.
  set (w0 := vhd_del_vhost_event (connfd vdev) w).
  unfold vhd_guest_memory_unmap_all, map_uva, map_gpa_len, live_regions.
  generalize (Z.to_nat VHOST_USER_MEM_REGIONS_MAX). intros n.
  pose proof (unmap_from_world n 0 (guest_memmap vdev) w0)
    as (Hc & _ & Ht & Hs & Hv & _).
  destruct (unmap_from_spec n 0 (guest_memmap vdev) w0) as (_ & Hin & _ & _).
  rewrite drop_0 in Hc.
  destruct (unmap_from n 0 (guest_memmap vdev) w0) as [memmap w1].
  simpl in Hc, Ht, Hs, Hv, Hin. simpl.
  pose proof (uninit_vrings_from_frame (Z.to_nat (max_queues vdev)) 0 (vrings vdev) w1)
    as (Ht2 & Hc2 & _ & Hs2 & Hv2 & _).
  destruct (uninit_vrings_from _ 0 (vrings vdev) w1) as [vrings' w2].
  simpl in Ht2, Hc2, Hs2, Hv2. simpl.
  assert (forall a, map_uva_from n 0 memmap a = 0) as Huva.
  { intros a. apply map_uva_from_none. intros j Hj.
    apply holds_unmapped. intros r. by apply Hin. }
  assert (forall a len,
            (if len =? 0 then 0
             else map_gpa_len_from n 0 memmap a (wrap64 (a + len - 1))) = 0) as Hgpa.
  { intros a len. destruct (len =? 0); [done |].
    apply map_gpa_len_from_none. intros j Hj.
    apply holds_unmapped. intros r. by apply Hin. }
  unfold vhd_add_vhost_event. simpl.
  destruct (add_vhost_event_result (w_tick w2) (listenfd vdev) =? 0) eqn:E; simpl;
    rewrite ?E; simpl; rewrite ?Hc2, ?Hv2, ?Hs2, ?Hc, ?Hv, ?Hs; subst w0; simpl;
    repeat split; try done; by rewrite E.
Qed.

(** *** The invariant of a device *)

Lemma vring_set_enable_consistent (v : vhd_vring) (b : bool) (w : World) :
  let v' := (vring_set_enable v b w).1.2 in
  id v' = id v /\ (vring_consistent v -> vring_consistent v').
Proof.
  unfold vring_set_enable, vring_consistent.
  destruct (Bool.eqb b (is_enabled v)) eqn:Heq; [done |].
  destruct b.
  - assert (is_enabled v = false) as Hen by (by destruct (is_enabled v)).
    unfold virtio_virtq_attach, vhd_attach_event.
    destruct (virtq_attach_result (w_tick w) (client_info v) =? 0) eqn:Ha; simpl;
      rewrite ?Ha; simpl.
    + destruct (attach_event_result (S (w_tick w)) (kickfd v) =? 0) eqn:He; simpl;
        rewrite ?He; simpl; rewrite ?Hen; done.
    + rewrite Hen. done.
  - simpl. done.
Qed.

Lemma vring_step_fd_common (vdev : vhd_vdev) (msg : vhost_user_msg) (fd : Z)
    (type : vring_desc_type) (w : World) :
  vring_step vdev (vhost_set_vring_fd_common vdev msg fd type w).1.2.
Proof.
  unfold vhost_set_vring_fd_common, vring_step.
  destruct (negb _); [by left |].
  destruct (get_vring vdev _) as [p |]; [| by left].
  destruct type; simpl.
  - destruct (negb _); simpl.
    + pose proof (vring_set_enable_consistent (set_kickfd fd (vring_at vdev p)) true w)
        as [Hid Hcons].
      destruct (vring_set_enable _ true w) as [[res v'] w']. simpl in *.
      right. exists p, v'. split; [done |]. split; [done |]. done.
    + right. eexists _, _. split; [reflexivity |]. done.
  - right. eexists _, _. split; [reflexivity |]. unfold vring_consistent. simpl.
    destruct (is_enabled (vring_at vdev p)) eqn:Hen; simpl; rewrite ?Hen;
      (split; [done |]); intros [Hatt Hrest]; (split; [done |]);
      [intros _; split; [done | by apply Hrest] | done].
  - right. eexists _, _. split; [reflexivity |]. done.
Qed.

Lemma get_vring_not_enabled_disabled (vdev : vhd_vdev) (index : Z) (p : nat) :
  get_vring_not_enabled vdev index = Some p -> is_enabled (vring_at vdev p) = false.
Proof.
  unfold get_vring_not_enabled. destruct (get_vring vdev _) as [q |]; [| done].
  destruct (is_enabled (vring_at vdev q)) eqn:Hen; [done |]. by intros [= <-].
Qed.

Lemma vring_step_client_info (vdev : vhd_vdev) (p : nat) (ci : vring_client_info) :
  is_enabled (vring_at vdev p) = false ->
  vring_step vdev (store_vring p (set_client_info ci (vring_at vdev p)) vdev).
Proof.
  intros Hen. right. eexists _, _. split; [reflexivity |]. split; [done |].
  unfold vring_consistent. simpl. rewrite Hen. intros [Hatt _]. done.
Qed.

Lemma vring_step_num (vdev : vhd_vdev) (msg : vhost_user_msg) :
  vring_step vdev (vhost_set_vring_num vdev msg).2.
Proof.
  unfold vhost_set_vring_num.
  destruct (get_vring_not_enabled vdev _) as [p |] eqn:Hget; [| by left].
  apply vring_step_client_info. by eapply get_vring_not_enabled_disabled.
Qed.

Lemma vring_step_base (vdev : vhd_vdev) (msg : vhost_user_msg) :
  vring_step vdev (vhost_set_vring_base vdev msg).2.
Proof.
  unfold vhost_set_vring_base.
  destruct (get_vring_not_enabled vdev _) as [p |] eqn:Hget; [| by left].
  apply vring_step_client_info. by eapply get_vring_not_enabled_disabled.
Qed.

Lemma vring_step_addr (vdev : vhd_vdev) (msg : vhost_user_msg) :
  vring_step vdev (vhost_set_vring_addr vdev msg).2.
Proof.
  unfold vhost_set_vring_addr.
  destruct (get_vring_not_enabled vdev _) as [p |] eqn:Hget; [| by left].
  destruct (_ || _); [by left |].
  apply vring_step_client_info. by eapply get_vring_not_enabled_disabled.
Qed.

Lemma vring_step_get_base (vdev : vhd_vdev) (msg : vhost_user_msg) (w : World) :
  vring_step vdev (vhost_get_vring_base vdev msg w).1.2.
Proof.
  unfold vhost_get_vring_base.
  destruct (get_vring vdev _) as [p |]; [| by left].
  destruct (negb (has_feature _ _)).
  - pose proof (vring_set_enable_consistent (vring_at vdev p) false w) as [Hid Hcons].
    destruct (vring_set_enable _ false w) as [[e v'] w1]. simpl in *.
    destruct (negb (e =? 0)).
    + right. by exists p, v'.
    + destruct (vhost_send_reply _ msg _ w1) as [r w2]. right. by exists p, v'.
  - destruct (vhost_send_reply vdev msg _ w) as [r w1]. by left.
Qed.

Lemma vring_step_enable (vdev : vhd_vdev) (msg : vhost_user_msg) (w : World) :
  vring_step vdev (vhost_set_vring_enable vdev msg w).1.2.
Proof.
  unfold vhost_set_vring_enable.
  destruct (get_vring vdev _) as [p |]; [| by left].
  pose proof (vring_set_enable_consistent (vring_at vdev p)
                (vs_num (vring_state (payload msg)) =? 1) w) as [Hid Hcons].
  destruct (vring_set_enable _ _ w) as [[res v'] w']. simpl in *.
  right. by exists p, v'.
Qed.

Lemma vhost_handle_request_switch_vring (vdev : vhd_vdev) (msg : vhost_user_msg)
    (fds : list Z) (w : World) :
  is_vring_request (req msg) = true ->
  vring_step vdev (vhost_handle_request_switch vdev msg fds w).1.2.
Proof.
  unfold vhost_handle_request_switch.
  destruct (req msg) eqn:Hreq; simpl; try done; intros _;
    first
      [ unfold vhost_set_vring_call, vhost_set_vring_kick, vhost_set_vring_err;
        match goal with
        | |- context [vhost_set_vring_fd_common vdev msg ?fd ?ty w] =>
            pose proof (vring_step_fd_common vdev msg fd ty w) as Hs;
            by destruct (vhost_set_vring_fd_common vdev msg fd ty w) as [[r d] w']
        end
      | pose proof (vring_step_num vdev msg) as Hs;
        by destruct (vhost_set_vring_num vdev msg) as [r d]
      | pose proof (vring_step_base vdev msg) as Hs;
        by destruct (vhost_set_vring_base vdev msg) as [r d]
      | pose proof (vring_step_get_base vdev msg w) as Hs;
        by destruct (vhost_get_vring_base vdev msg w) as [[r d] w']
      | pose proof (vring_step_addr vdev msg) as Hs;
        by destruct (vhost_set_vring_addr vdev msg) as [r d]
      | pose proof (vring_step_enable vdev msg w) as Hs;
        by destruct (vhost_set_vring_enable vdev msg w) as [[r d] w'] ].
Qed.

Lemma vring_step_wf (d d' : vhd_vdev) : vdev_wf d -> vring_step d d' -> vdev_wf d'.
Proof.
  intros (Hnum & Hmem & Hvs) [-> | (p & v' & -> & Hid & Hcons)]; [done |].
  unfold vdev_wf, store_vring. simpl. rewrite length_insert.
  split; [done |]. split; [done |].
  intros j v Hj. destruct (decide (j = p)) as [-> | Hne].
  - assert (p < length (vrings d))%nat as Hlt.
    { apply lookup_lt_Some in Hj. by rewrite length_insert in Hj. }
    rewrite list_lookup_insert_eq in Hj by done. injection Hj as <-.
    destruct (vrings d !! p) as [v0 |] eqn:Hp;
      [| apply lookup_ge_None in Hp; lia].
    unfold vring_at in Hid, Hcons. rewrite Hp in Hid, Hcons. simpl in Hid, Hcons.
    destruct (Hvs p v0 Hp) as [Hid0 Hc0].
    split; [congruence | by apply Hcons].
  - rewrite list_lookup_insert_ne in Hj by done. by apply Hvs.
Qed.

Lemma vhost_handle_request_wf (vdev : vhd_vdev) (msg : vhost_user_msg) (fds : list Z)
    (w : World) :
  vdev_wf vdev -> vdev_wf (vhost_handle_request vdev msg fds w).1.2.
Proof.
  intros Hwf. rewrite vhost_handle_request_vdev.
  destruct (is_vring_request (req msg)) eqn:Hvr.
  { eapply vring_step_wf; [done |]. by apply vhost_handle_request_switch_vring. }
  pose proof (vhost_handle_request_switch_shape vdev msg fds w) as Hshape.
  simpl in Hshape.
  set (d' := (vhost_handle_request_switch vdev msg fds w).1.2) in *. clearbody d'.
  destruct Hwf as (Hnum & Hmem & Hvs).
  destruct (req msg) eqn:Hreq; simpl in Hshape, Hvr; try done;
    repeat match goal with
           | Hx : exists _, _ |- _ => destruct Hx
           | Hx : _ /\ _ |- _ => destruct Hx
           end;
    subst d'; unfold vdev_wf, vhost_set_protocol_features; simpl;
    (split; [done |]); (split; [congruence |]); done.
Qed.

Lemma uninit_vrings_wf (n : nat) (vs : list vhd_vring) (w : World) :
  (forall j v, vs !! j = Some v -> id v = Z.of_nat j /\ vring_consistent v) ->
  let vs' := (uninit_vrings_from n 0 vs w).1 in
  length vs' = length vs
  /\ forall j v', vs' !! j = Some v' -> id v' = Z.of_nat j /\ vring_consistent v'.
Proof.
  intros Hvs.
  pose proof (uninit_vrings_from_spec n 0 vs w) as (Hlen & Hin & Hout & _).
  destruct (uninit_vrings_from n 0 vs w) as [vs' w']. simpl in *.
  split; [done |]. intros j v' Hj.
  destruct (decide (j < n)%nat) as [Hlt | Hge].
  - destruct (vs !! j) as [v |] eqn:Hv.
    + destruct (Hin j v ltac:(lia) Hv)
        as (v1 & Hl1 & (Hen & Hci & Hid & _ & Hcall & _ & Hsame & Hrel) & _).
      assert (v1 = v') as -> by congruence.
      destruct (Hvs j v Hv) as [Hid0 [Hatt Hrest]].
      split; [congruence |]. unfold vring_consistent. rewrite Hen.
      split; [| done].
      destruct (is_enabled v) eqn:Hv_en; [by apply Hrel |].
      rewrite (Hsame eq_refl). done.
    + apply lookup_ge_None in Hv. apply lookup_lt_Some in Hj. lia.
  - rewrite Hout in Hj by lia. by apply Hvs.
Qed.

Lemma change_device_state_wf (vdev : vhd_vdev) (new_state : vhd_vdev_state) (w : World) :
  vdev_wf vdev -> vdev_wf (change_device_state vdev new_state w).1.2.
Proof.
  intros Hwf. unfold change_device_state, vhd_add_vhost_event.
  destruct new_state; [done | |].
  - destruct (state vdev) eqn:Hst; [| done |].
    + destruct (add_vhost_event_result _ _ =? 0) eqn:E; simpl; rewrite ?E; simpl; done.
    + destruct Hwf as (Hnum & Hmem & Hvs).
      pose proof (unmap_from_spec (Z.to_nat VHOST_USER_MEM_REGIONS_MAX) 0
                    (guest_memmap vdev) (vhd_del_vhost_event (connfd vdev) w))
        as (Hl & _).
      unfold vhd_guest_memory_unmap_all.
      destruct (unmap_from _ 0 (guest_memmap vdev) _) as [memmap w1].
      simpl in Hl. simpl.
      pose proof (uninit_vrings_wf (Z.to_nat (max_queues vdev)) (vrings vdev) w1 Hvs)
        as (Hlen & Hvs').
      destruct (uninit_vrings_from _ 0 (vrings vdev) w1) as [vrings' w2].
      simpl in Hlen, Hvs'. simpl.
      assert (vdev_wf (set_connfd (-1)
                         (set_vrings vrings'
                            (set_is_owned false (set_guest_memmap memmap vdev)))))
        as Hwf.
      { unfold vdev_wf. simpl. rewrite Hlen, Hl. done. }
      destruct (add_vhost_event_result _ _ =? 0) eqn:E; simpl; rewrite ?E; simpl; done.
  - destruct (state vdev) eqn:Hst; [done | | done].
    destruct (add_vhost_event_result _ _ =? 0) eqn:E; simpl; rewrite ?E; simpl; done.
Qed.

End Properties.

(** ** Properties of the listen, accept and set-up paths *)

Section ServerProperties.
Context {K : Constants} {H : Host} {SK : ServerConstants} {SH : SocketHost}.

(** *** The listen socket *)

Lemma lor_nonblock (flags : Z) : Z.land (Z.lor flags O_NONBLOCK) O_NONBLOCK = O_NONBLOCK.
Proof.
  apply Z.bits_inj'. intros n Hn. rewrite Z.land_spec, Z.lor_spec.
  by destruct (Z.testbit flags n), (Z.testbit O_NONBLOCK n).
Qed.

Lemma prepare_server_sock_path_spec (path : String.string) (sw : ServerWorld) :
  let '(ret, sw') := prepare_server_sock_path path sw in
  sw_sockets sw' = sw_sockets sw /\ sw_bound sw' = sw_bound sw
  /\ sw_listening sw' = sw_listening sw /\ sw_flags_set sw' = sw_flags_set sw
  /\ w_closed (sw_os sw') = w_closed (sw_os sw)
  /\ w_unmapped (sw_os sw') = w_unmapped (sw_os sw)
  /\ w_sent (sw_os sw') = w_sent (sw_os sw)
  /\ w_vhost_events (sw_os sw') = w_vhost_events (sw_os sw)
  /\ w_rq_events (sw_os sw') = w_rq_events (sw_os sw)
  /\ match sys_stat (sw_now sw) path with
     | inr errno =>
         sw_unlinked sw' = sw_unlinked sw
         /\ ret = (if Z.pos errno =? ENOENT then 0 else Z.pos errno)
     | inl false => sw_unlinked sw' = sw_unlinked sw /\ ret = EINVAL
     | inl true =>
         match sys_unlink (S (sw_now sw)) path with
         | Some errno => sw_unlinked sw' = sw_unlinked sw /\ ret = Z.pos errno
         | None => sw_unlinked sw' = path :: sw_unlinked sw /\ ret = 0
         end
     end.
Proof.
  unfold prepare_server_sock_path, sw_now.
  destruct (sys_stat (w_tick (sw_os sw)) path) as [[|] | errno]; cbn -[Z.eqb].
  - destruct (sys_unlink (S (w_tick (sw_os sw))) path) as [errno |]; simpl;
      repeat split; done.
  - repeat split; done.
  - destruct (Z.pos errno =? ENOENT); simpl; repeat split; done.
Qed.

(** What [sock_create_server] leaves behind, by its result. *)
Lemma sock_create_server_spec (path : String.string) (sw : ServerWorld) :
  let '(fd, sw') := sock_create_server path sw in
  w_unmapped (sw_os sw') = w_unmapped (sw_os sw)
  /\ w_sent (sw_os sw') = w_sent (sw_os sw)
  /\ w_vhost_events (sw_os sw') = w_vhost_events (sw_os sw)
  /\ w_rq_events (sw_os sw') = w_rq_events (sw_os sw)
  /\ ((0 <= fd
       /\ sw_sockets sw' = fd :: sw_sockets sw
       /\ sw_bound sw' = (fd, path) :: sw_bound sw
       /\ sw_listening sw' = (fd, 1) :: sw_listening sw
       /\ (exists flags, sw_flags_set sw' = (fd, flags) :: sw_flags_set sw
                         /\ Z.land flags O_NONBLOCK = O_NONBLOCK)
       /\ w_closed (sw_os sw') = w_closed (sw_os sw))
      \/ (fd = -1
          /\ sw_flags_set sw' = sw_flags_set sw
          /\ ((sw_sockets sw' = sw_sockets sw
               /\ w_closed (sw_os sw') = w_closed (sw_os sw))
              \/ exists s, sw_sockets sw' = s :: sw_sockets sw
                           /\ w_closed (sw_os sw') = s :: w_closed (sw_os sw)))).
Proof.
  unfold sock_create_server.
  destruct (SUN_PATH_SIZE <=? _).
  { repeat split; try done. right. repeat split; try done. by left. }
  pose proof (prepare_server_sock_path_spec path sw) as Hprep.
  destruct (prepare_server_sock_path path sw) as [ret sw0].
  destruct Hprep as (Hso & Hb & Hl & Hf & Hc & Hu & Hs & Hv & Hr & _).
  destruct (negb (ret =? 0)).
  { repeat split; try done. right. repeat split; try done. by left. }
  unfold sw_now.
  destruct (sys_socket _) as [s | e]; simpl.
  2: { repeat split; try done. right. repeat split; try done. by left. }
  destruct (sys_bind _ _ path) as [e |]; simpl.
  { repeat split; try done. right. repeat split; try done. right.
    exists (Z.of_N s). by rewrite Hso, Hc. }
  destruct (sys_listen _ _ 1) as [e |]; simpl.
  { repeat split; try done. right. repeat split; try done. right.
    exists (Z.of_N s). by rewrite Hso, Hc. }
  destruct (sys_fcntl_getfl _ _) as [flags | e]; simpl.
  2: { repeat split; try done. right. repeat split; try done. right.
       exists (Z.of_N s). by rewrite Hso, Hc. }
  destruct (sys_fcntl_setfl _ _ _) as [e |]; simpl.
  { repeat split; try done. right. repeat split; try done. right.
    exists (Z.of_N s). by rewrite Hso, Hc. }
  repeat split; try done. left.
  split; [lia |]. rewrite Hso, Hb, Hl, Hf, Hc.
  repeat split; try done.
  eexists. split; [reflexivity |]. apply lor_nonblock.
Qed.

Lemma sock_create_server_unlinked (path : String.string) (sw : ServerWorld) :
  let '(fd, sw') := sock_create_server path sw in
  (sw_unlinked sw' = sw_unlinked sw
   \/ (sw_unlinked sw' = path :: sw_unlinked sw
       /\ sys_stat (sw_now sw) path = inl true))
  /\ (sys_stat (sw_now sw) path = inl false -> fd = -1 /\ sw_sockets sw' = sw_sockets sw).
Proof.
  unfold sock_create_server.
  destruct (SUN_PATH_SIZE <=? _); [split; [by left | done] |].
  pose proof (prepare_server_sock_path_spec path sw) as Hprep.
  destruct (prepare_server_sock_path path sw) as [ret sw0].
  destruct Hprep as (Hso & _ & _ & _ & _ & _ & _ & _ & _ & Hstat).
  assert (sw_unlinked sw0 = sw_unlinked sw
          \/ (sw_unlinked sw0 = path :: sw_unlinked sw
              /\ sys_stat (sw_now sw) path = inl true)) as Hunl.
  { destruct (sys_stat (sw_now sw) path) as [[|] | errno].
    - destruct (sys_unlink (S (sw_now sw)) path); [left | right]; tauto.
    - left. tauto.
    - left. tauto. }
  assert (sys_stat (sw_now sw) path = inl false -> ret = EINVAL) as Hfile.
  { intros Hs. rewrite Hs in Hstat. tauto. }
  destruct (Z.eqb_spec ret 0) as [-> | Hne]; simpl.
  - assert (sys_stat (sw_now sw) path <> inl false) as Hno.
    { intros Hs. apply Hfile in Hs. done. }
    clear Hstat Hfile.
    repeat case_match; simplify_eq; simpl; (split; [exact Hunl | done]).
  - split; [exact Hunl | done].
Qed.

(** X17. [sock_create_server] returns -1 or a non-negative fd.  A path
    that does not fit [sun_path] is refused before anything is done.  A
    returned fd is a new socket, bound to the path, listening with a
    backlog of one connection, non-blocking and open.  When -1 is
    returned after a socket was created, that socket has been closed.  A
    file at the path is unlinked only when [stat] reports a socket; for a
    file of another kind -1 is returned and no socket is created. *)
Theorem sock_create_server_outcomes (path : String.string) (sw : ServerWorld) :
  let '(fd, sw') := sock_create_server path sw in
  (SUN_PATH_SIZE <= Z.of_nat (String.length path) -> fd = -1 /\ sw' = sw)
  /\ ((0 <= fd
       /\ sw_sockets sw' = fd :: sw_sockets sw
       /\ sw_bound sw' = (fd, path) :: sw_bound sw
       /\ sw_listening sw' = (fd, 1) :: sw_listening sw
       /\ (exists flags, sw_flags_set sw' = (fd, flags) :: sw_flags_set sw
                         /\ Z.land flags O_NONBLOCK = O_NONBLOCK)
       /\ w_closed (sw_os sw') = w_closed (sw_os sw))
      \/ (fd = -1
          /\ ((sw_sockets sw' = sw_sockets sw
               /\ w_closed (sw_os sw') = w_closed (sw_os sw))
              \/ exists s, sw_sockets sw' = s :: sw_sockets sw
                           /\ w_closed (sw_os sw') = s :: w_closed (sw_os sw))))
  /\ (sw_unlinked sw' = sw_unlinked sw
      \/ (sw_unlinked sw' = path :: sw_unlinked sw
          /\ sys_stat (sw_now sw) path = inl true))
  /\ (sys_stat (sw_now sw) path = inl false -> fd = -1 /\ sw_sockets sw' = sw_sockets sw).
Proof.
  pose proof (sock_create_server_spec path sw) as Hspec.
  pose proof (sock_create_server_unlinked path sw) as Hunl.
  assert (SUN_PATH_SIZE <= Z.of_nat (String.length path) ->
          sock_create_server path sw = (-1, sw)) as Hlong.
  { intros Hl. unfold sock_create_server.
    by replace (SUN_PATH_SIZE <=? Z.of_nat (String.length path)) with true
      by (symmetry; apply Z.leb_le; lia). }
  destruct (sock_create_server path sw) as [fd sw'].
  destruct Hspec as (_ & _ & _ & _ & Hcases). destruct Hunl as [Hu Hfile].
  split.
  { intros Hl. specialize (Hlong Hl). by injection Hlong as -> ->. }
  split; [| done].
  destruct Hcases as [Hok | (Hm & _ & Hleak)]; [left; done | right; done].
Qed.

(** *** Accepting a connection *)

(** X18. [server_read].  When [accept] fails its errno is returned and
    nothing changes.  Otherwise the call returns 0 only for a device that
    was LISTENING, and then the device is CONNECTED on the accepted fd,
    that fd is non-blocking and a source of the vhost event loop in place
    of the listen socket, and nothing is closed.  On every failure after
    [accept] the accepted fd is closed and the sources of the event loop
    are as before; the state is unchanged, and when the failure comes
    from the state change [connfd] still names the closed fd. *)
Theorem server_read_outcomes (vdev : vhd_vdev) (sw : ServerWorld) :
  let '(ret, vdev', sw') := server_read vdev sw in
  let w := sw_os sw in
  let w' := sw_os sw' in
  w_sent w' = w_sent w /\ w_unmapped w' = w_unmapped w
  /\ w_rq_events w' = w_rq_events w
  /\ match sys_accept (sw_now sw) (listenfd vdev) with
     | inr errno =>
         ret = Z.pos errno /\ vdev' = vdev /\ w_closed w' = w_closed w
         /\ w_vhost_events w' = w_vhost_events w
     | inl c =>
         let c := Z.of_N c in
         (ret = 0 ->
            state vdev = VDEV_LISTENING
            /\ vdev' = set_state VDEV_CONNECTED (set_connfd c vdev)
            /\ w_vhost_events w' = remove_fd (listenfd vdev) (c :: w_vhost_events w)
            /\ w_closed w' = w_closed w
            /\ exists flags, sw_flags_set sw' = (c, flags) :: sw_flags_set sw
                             /\ Z.land flags O_NONBLOCK = O_NONBLOCK)
         /\ (ret <> 0 ->
             w_closed w' = c :: w_closed w
             /\ w_vhost_events w' = w_vhost_events w
             /\ state vdev' = state vdev
             /\ (vdev' = vdev \/ vdev' = set_connfd c vdev))
     end.
Proof.
  unfold server_read, sw_now.
  destruct (sys_accept (w_tick (sw_os sw)) (listenfd vdev)) as [c | errno]; simpl;
    [| repeat split; done].
  destruct (sys_fcntl_getfl _ (Z.of_N c)) as [flags | errno]; simpl.
  2: { repeat split; try done. by left. }
  destruct (sys_fcntl_setfl _ (Z.of_N c) _) as [errno |]; simpl.
  { repeat split; try done. by left. }
  unfold change_device_state, vhd_add_vhost_event, vhd_del_vhost_event. simpl.
  destruct (state vdev) eqn:Hst; simpl.
  - repeat split; try done. by right.
  - destruct (add_vhost_event_result _ (Z.of_N c) =? 0) eqn:E; simpl; rewrite ?E; simpl;
      rewrite ?E; simpl.
    + repeat split; try done.
      eexists. split; [reflexivity |]. apply lor_nonblock.
    + apply Z.eqb_neq in E. repeat split; try done. by right.
  - repeat split; try done. by right.
Qed.

(** *** Setting up a device *)

Lemma init_vrings_from_spec (n : nat) :
  forall (i : nat) (vs : list vhd_vring),
    let res := init_vrings_from n i vs in
    length res = length vs
    /\ (forall j, (i <= j < i + n)%nat -> (j < length vs)%nat ->
          res !! j = Some (vhd_vring_init (default zero_vring (vs !! j)) (Z.of_nat j)))
    /\ (forall j, ~ (i <= j < i + n)%nat -> res !! j = vs !! j).
Proof.
  induction n as [| n IH]; intros i vs; simpl.
  - repeat split; try done. intros j Hj. lia.
  - destruct (IH (S i)
                (<[i := vhd_vring_init (default zero_vring (vs !! i)) (Z.of_nat i)]> vs))
      as (Hlen & Hin & Hout).
    rewrite length_insert in Hlen, Hin.
    split; [done |]. split.
    + intros j Hj Hl. destruct (decide (j = i)) as [-> | Hne].
      * rewrite Hout by lia. by apply list_lookup_insert_eq.
      * rewrite Hin by lia. by rewrite list_lookup_insert_ne by lia.
    + intros j Hj. rewrite Hout by lia. apply list_lookup_insert_ne. lia.
Qed.

Lemma uninit_fresh_vrings (n : nat) :
  forall (i : nat) (vs : list vhd_vring) (w : World),
    (forall j v, vs !! j = Some v -> is_enabled v = false) ->
    uninit_vrings_from n i vs w = (vs, w).
Proof.
  induction n as [| n IH]; intros i vs w Hdis; simpl; [done |].
  destruct (vs !! i) as [v |] eqn:Hi; [| by apply IH].
  unfold vhd_vring_uninit. rewrite (Hdis i v Hi). simpl.
  rewrite list_insert_id by done. by apply IH.
Qed.

(** X19. [vhd_vdev_init_server] aborts for a queue count that is not
    positive.  Otherwise, when it returns 0 the device is LISTENING on a
    new socket bound to the path and registered with the vhost event
    loop, has no connection, no owner, no negotiated feature, no mapped
    guest memory and no inflight region, supports the default protocol
    features, and has as many vrings as queues, each disabled, numbered
    by its position and with kick and call fds of -1.  When it fails the
    device never leaves the INITIALIZED state, the event loop has no new
    source and the socket, if one was created, is closed again. *)
Theorem init_server_outcomes (socket_path : String.string) (queues : Z)
    (sw : ServerWorld) :
  (queues <= 0 -> vhd_vdev_init_server socket_path queues sw = None)
  /\ (0 < queues < 2 ^ 31 ->
      exists ret vdev sw',
        vhd_vdev_init_server socket_path queues sw = Some (ret, vdev, sw')
        /\ (ret = 0 ->
            state vdev = VDEV_LISTENING
            /\ 0 <= listenfd vdev /\ connfd vdev = -1 /\ is_owned vdev = false
            /\ supported_protocol_features vdev = g_default_protocol_features
            /\ negotiated_protocol_features vdev = 0 /\ negotiated_features vdev = 0
            /\ max_queues vdev = queues /\ num_queues vdev = queues
            /\ length (vrings vdev) = Z.to_nat queues
            /\ (forall i, (i < Z.to_nat queues)%nat ->
                  vrings vdev !! i = Some (vhd_vring_init zero_vring (Z.of_nat i)))
            /\ guest_memmap vdev
               = replicate (Z.to_nat VHOST_USER_MEM_REGIONS_MAX) zero_region
            /\ inflightfd vdev = -1
            /\ w_vhost_events (sw_os sw') = listenfd vdev :: w_vhost_events (sw_os sw)
            /\ sw_bound sw' = (listenfd vdev, socket_path) :: sw_bound sw
            /\ w_closed (sw_os sw') = w_closed (sw_os sw))
        /\ (ret <> 0 ->
            state vdev = VDEV_INITIALIZED
            /\ w_vhost_events (sw_os sw') = w_vhost_events (sw_os sw)
            /\ ((sw_sockets sw' = sw_sockets sw
                 /\ w_closed (sw_os sw') = w_closed (sw_os sw))
                \/ exists s, sw_sockets sw' = s :: sw_sockets sw
                             /\ w_closed (sw_os sw') = s :: w_closed (sw_os sw)))).
Proof.
  unfold vhd_vdev_init_server. split.
  { intros Hq. by replace (queues <=? 0) with true by (symmetry; apply Z.leb_le; lia). }
  intros Hq. replace (queues <=? 0) with false by (symmetry; apply Z.leb_gt; lia).
  pose proof (sock_create_server_spec socket_path sw) as Hspec.
  destruct (sock_create_server socket_path sw) as [fd sw0].
  destruct Hspec as (_ & _ & Hv & _ & Hcases).
  destruct Hcases as [(Hfd & Hso & Hb & _ & _ & Hc) | (-> & _ & Hleak)].
  2: { simpl. eexists _, _, _. split; [reflexivity |]. split; [done |].
       intros _. done. }
  replace (fd <? 0) with false by (symmetry; apply Z.ltb_ge; lia).
  destruct (init_vrings_from_spec (Z.to_nat queues) 0
              (replicate (Z.to_nat queues) zero_vring)) as (Hlen & Hin & _).
  set (vs := init_vrings_from (Z.to_nat queues) 0 (replicate (Z.to_nat queues) zero_vring))
    in *.
  rewrite length_replicate in Hlen, Hin.
  assert (forall i, (i < Z.to_nat queues)%nat ->
            vs !! i = Some (vhd_vring_init zero_vring (Z.of_nat i))) as Hvs.
  { intros i Hi. rewrite Hin by lia. by rewrite lookup_replicate_2 by lia. }
  assert (wrap32 queues = queues) as Hw.
  { unfold wrap32. apply Z.mod_small. lia. }
  rewrite Hw.
  unfold change_device_state, vhd_add_vhost_event. simpl.
  destruct (add_vhost_event_result (w_tick (sw_os sw0)) fd =? 0) eqn:E; simpl;
    rewrite ?E; simpl; rewrite ?E; simpl.
  - eexists _, _, _. split; [reflexivity |]. simpl. split; [| done].
    intros _. rewrite Hv, Hb, Hc. repeat split; done.
  - apply Z.eqb_neq in E. unfold vhd_vdev_uninit. simpl. rewrite ?Hw.
    rewrite uninit_fresh_vrings.
    2: { intros j v Hj. assert (j < Z.to_nat queues)%nat as Hlt.
         { apply lookup_lt_Some in Hj. lia. }
         rewrite Hvs in Hj by done. by injection Hj as <-. }
    unfold vhd_vdev_inflight_cleanup. simpl.
    eexists _, _, _. split; [reflexivity |]. simpl. split; [done |].
    intros _. rewrite Hv. split; [done |]. split; [done |].
    right. exists fd. by rewrite Hso, Hc.
Qed.

(** X20. The invariant of a device.  A device is well formed when its
    vring array holds [num_queues] vrings at least, so that every vring
    a handler reaches through [get_vring] lies inside the array; the
    vring in slot [j] has id [j]; the virtqueue of a vring is attached
    exactly while the vring is enabled, and then it runs on the
    configuration stored in the vring and notifies on the vring's call
    fd; the memory map has its eight slots.  The device that a successful
    [vhd_vdev_init_server] hands back is well formed and linked in the
    list of devices.  After a failed one the device is not linked and has
    no vring array: it is well formed only if its [num_queues] is 0,
    which is so when the listen socket could not be created, and is not
    so when listening failed, where [vhd_vdev_uninit] has released the
    array and [num_queues] still is the number of queues asked for.
    Every vhost-user message and every state change, permitted or not,
    successful or not, keeps a well-formed device well formed. *)
Theorem device_invariant :
  (forall (socket_path : String.string) (queues : Z) (sw : ServerWorld) ret vdev sw',
     0 < queues < 2 ^ 31 ->
     vhd_vdev_init_server socket_path queues sw = Some (ret, vdev, sw') ->
     (ret = 0 -> vdev_wf vdev /\ vdev_list vdev = true)
     /\ (ret <> 0 ->
         vdev_list vdev = false /\ vrings vdev = []
         /\ (vdev_wf vdev <-> num_queues vdev = 0)
         /\ (listenfd vdev = 0 /\ num_queues vdev = 0
             \/ 0 <= listenfd vdev /\ num_queues vdev = queues
                /\ In (listenfd vdev) (w_closed (sw_os sw')))))
  /\ (forall (vdev : vhd_vdev) (msg : vhost_user_msg) (fds : list Z) (w : World),
        vdev_wf vdev -> vdev_wf (vhost_handle_request vdev msg fds w).1.2)
  /\ (forall (vdev : vhd_vdev) (new_state : vhd_vdev_state) (w : World),
        vdev_wf vdev -> vdev_wf (change_device_state vdev new_state w).1.2).
Proof.
  split; [| split; [apply @vhost_handle_request_wf | apply @change_device_state_wf]].
  intros socket_path queues sw ret vdev sw' Hq.
  unfold vhd_vdev_init_server.
  replace (queues <=? 0) with false by (symmetry; apply Z.leb_gt; lia).
  destruct (sock_create_server socket_path sw) as [fd sw0].
  destruct (Z.ltb_spec fd 0) as [Hneg | Hfd].
  { intros [= <- <- <-]. split; [done |]. intros _.
    split; [done |]. split; [done |]. split; [| by left].
    unfold vdev_wf, zero_vdev. simpl. split; [done |]. intros _.
    split; [lia |]. split; [done |]. intros j v Hj. done. }
  destruct (init_vrings_from_spec (Z.to_nat queues) 0
              (replicate (Z.to_nat queues) zero_vring)) as (Hlen & Hin & _).
  set (vs := init_vrings_from (Z.to_nat queues) 0 (replicate (Z.to_nat queues) zero_vring))
    in *.
  rewrite length_replicate in Hlen, Hin.
  assert (wrap32 queues = queues) as Hw.
  { unfold wrap32. apply Z.mod_small. lia. }
  rewrite Hw.
  assert (forall j v, vs !! j = Some v -> id v = Z.of_nat j /\ vring_consistent v) as Hvs.
  { intros j v Hj.
    assert (j < Z.to_nat queues)%nat as Hlt.
    { apply lookup_lt_Some in Hj. lia. }
    rewrite Hin in Hj by lia. rewrite lookup_replicate_2 in Hj by lia.
    injection Hj as <-. done. }
  unfold change_device_state, vhd_add_vhost_event. simpl.
  destruct (add_vhost_event_result (w_tick (sw_os sw0)) fd =? 0) eqn:E; simpl;
    rewrite ?E; simpl; rewrite ?E; simpl.
  - intros [= <- <- <-]. split; [| done]. intros _. split; [| done].
    unfold vdev_wf. simpl. rewrite Hlen. split; [lia |]. split; done.
  - apply Z.eqb_neq in E. unfold vhd_vdev_uninit. simpl. rewrite ?Hw.
    rewrite uninit_fresh_vrings.
    2: { intros j v Hj. destruct (Hvs j v Hj) as [_ Hc].
         assert (j < Z.to_nat queues)%nat as Hlt.
         { apply lookup_lt_Some in Hj. lia. }
         rewrite Hin in Hj by lia. rewrite lookup_replicate_2 in Hj by lia.
         by injection Hj as <-. }
    unfold vhd_vdev_inflight_cleanup. simpl.
    intros [= <- <- <-]. split; [done |]. intros _. simpl.
    split; [done |]. split; [done |]. split.
    + unfold vdev_wf. simpl. split; [lia |]. intros ->. lia.
    + right. split; [lia |]. split; [done |]. by left.
Qed.

End ServerProperties.

(** ** The properties on concrete inputs *)

(** A disabled vring asked to be disabled, through the handler. *)
Lemma vring_set_enable_idempotent_witness :
  vring_set_enable (H := host_ok) (fresh_vring 0) false empty_world
    = (0, fresh_vring 0, empty_world)
  /\ vhost_set_vring_enable (H := host_ok) sample_vdev
       (sample_msg VHOST_USER_SET_VRING_ENABLE) empty_world
     = (0, sample_vdev, empty_world).
Proof.
  pose proof (vring_set_enable_idempotent (H := host_ok) sample_vdev
                (sample_msg VHOST_USER_SET_VRING_ENABLE) 0%nat (fresh_vring 0) false
                empty_world) as [H1 H2].
  split; [apply H1 | apply H2]; reflexivity.
Defined.

(** The first 64 KiB of the one-region map translate to the region's
    host address. *)
Lemma map_gpa_len_first_region_witness :
  map_gpa_len (K := sample_constants) one_region_map 0 65536 = 1048576.
Proof.
  pose proof (map_gpa_len_first_region (K := sample_constants) one_region_map 0 65536
                ltac:(evaluate) ltac:(evaluate) ltac:(evaluate) ltac:(evaluate))
    as (_ & Hval & _).
  rewrite (Hval 0%nat (mk_region 0 139637976727552 1048576 16 5)).
  - evaluate.
  - evaluate.
  - split; [evaluate |]. split; [evaluate |]. split.
    + split; [evaluate |]. split; evaluate.
    + intros j r Hj. lia.
  - split; [evaluate |]. split; evaluate.
Defined.

(** C4 fails as stated: slot 1 of [overlapping_map] is mapped and contains
    [0, 8192), yet the search stops at slot 0, which holds address 0 but
    not the whole range, and returns null. *)
Lemma map_gpa_len_overlap_counterexample :
  ~ (map_gpa_len (K := sample_constants) overlapping_map 0 8192 <> 0 <->
     0 < 8192 /\ exists i reg, overlapping_map !! i = Some reg
                   /\ region_covers (K := sample_constants) reg 0 8192).
Proof.
  intros [_ Hback]. apply Hback; [| evaluate].
  split; [evaluate |]. exists 1%nat, (mk_region 0 139637976727552 2097152 2 6).
  split; [evaluate |]. split; [evaluate |]. split; evaluate.
Defined.

(** Remapping the region that slot 0 already holds closes the duplicate
    fd and keeps the map. *)
Lemma map_guest_region_checks_witness :
  map_guest_region (K := sample_constants) (H := host_ok)
    one_region_map 0 0 139637976727552 65536 0 9 empty_world
  = (0, one_region_map, sys_close 9 empty_world).
Proof.
  pose proof (map_guest_region_checks (K := sample_constants) (H := host_ok)
                one_region_map 0 0 139637976727552 65536 0 9 empty_world
                ltac:(evaluate)) as [_ Hocc].
  apply (Hocc (mk_region 0 139637976727552 1048576 16 5)); evaluate.
Defined.

(** Scenario S6: SET_VRING_NUM for vring 99 of a two-queue device is
    refused; for vring 0 it leaves 256 in [num]; a SET_VRING_ADDR for
    vring 0 leaves the three host addresses of the rings. *)
Lemma set_vring_num_base_addr_witness :
  vhost_set_vring_num sample_vdev (vring_state_msg VHOST_USER_SET_VRING_NUM 9 99 256)
  = (EINVAL, sample_vdev)
  /\ (exists v',
        vrings (vhost_set_vring_num sample_vdev
                  (vring_state_msg VHOST_USER_SET_VRING_NUM 1 0 256)).2 !! 0%nat = Some v'
        /\ num (client_info v') = 256 /\ kickfd v' = -1)
  /\ (exists v',
        vrings (vhost_set_vring_addr (K := sample_constants)
                  (set_guest_memmap one_region_map sample_vdev) ring_addr_msg).2 !! 0%nat
        = Some v'
        /\ desc_addr (client_info v') = 1048576
        /\ avail_addr (client_info v') = 1052672
        /\ used_addr (client_info v') = 1056768).
Proof.
  split; [| split].
  - pose proof (set_vring_num_base_addr (K := sample_constants) sample_vdev
                  (vring_state_msg VHOST_USER_SET_VRING_NUM 9 99 256)
                  ltac:(evaluate) ltac:(evaluate)) as [Hbad _].
    apply Hbad. left. evaluate.
  - pose proof (set_vring_num_base_addr (K := sample_constants) sample_vdev
                  (vring_state_msg VHOST_USER_SET_VRING_NUM 1 0 256)
                  ltac:(evaluate) ltac:(evaluate)) as (_ & _ & Hok & _).
    destruct (Hok ltac:(intros [Hq | Hen]; [vm_compute in Hq; by apply Hq
                                            | discriminate Hen])
                (fresh_vring 0) eq_refl) as [(_ & v' & Hl & Hnum & Hrest) _].
    exists v'. split; [exact Hl |]. split; [exact Hnum |].
    destruct Hrest as (_ & _ & _ & _ & _ & (v2 & Hl2 & _ & _ & Hk & _) & _).
    rewrite Hl in Hl2. injection Hl2 as <-. exact Hk.
  - pose proof (set_vring_num_base_addr (K := sample_constants)
                  (set_guest_memmap one_region_map sample_vdev) ring_addr_msg
                  ltac:(evaluate) ltac:(evaluate)) as (_ & _ & _ & Hok).
    destruct (Hok ltac:(intros [Hq | Hen]; [vm_compute in Hq; by apply Hq
                                            | discriminate Hen])) as [_ Hset].
    destruct (Hset ltac:(evaluate) ltac:(evaluate) ltac:(evaluate)
                (fresh_vring 0) eq_refl) as (_ & v' & Hl & Hd & Ha & Hu & _).
    exists v'. split; [exact Hl |]. split; [exact Hd |]. split; [exact Ha | exact Hu].
Defined.

(** Scenario S2 on a fresh connection: slot 0 is mapped afterwards.  On a
    device that holds that region already, a table of two regions whose
    second [mmap] fails: the duplicate fd 9 of the first region is closed
    by its map step, then fd 10 is closed, and the region that the device
    held is released, its 64 KiB through [munmap] and its fd 5 through
    [close]; no slot is mapped any more. *)
Lemma set_mem_table_outcomes_witness :
  (exists r,
     guest_memmap
       (vhost_set_mem_table (K := sample_constants) (H := host_ok)
          sample_vdev s2_msg [5] empty_world).1.2 !! 0%nat = Some r
     /\ is_region_mapped r = true)
  /\ (let res := vhost_set_mem_table (K := sample_constants) (H := host_no_mmap)
                   (set_guest_memmap one_region_map sample_vdev) two_region_msg [9; 10]
                   empty_world in
      res.1.1 = 12
      /\ (forall i r, guest_memmap res.1.2 !! i = Some r -> is_region_mapped r = false)
      /\ w_unmapped res.2 = [(1048576, 65536)]
      /\ w_closed res.2 = [5; 10; 9]).
Proof.
  split.
  - pose proof (set_mem_table_outcomes (K := sample_constants) (H := host_ok)
                  sample_vdev s2_msg [5] empty_world ltac:(evaluate)) as [_ Hfew].
    specialize (Hfew ltac:(evaluate)).
    destruct (vhost_set_mem_table sample_vdev s2_msg [5] empty_world)
      as [[ret vdev'] w'] eqn:Hrun.
    assert (ret = 0) as Hret.
    { vm_compute in Hrun. congruence. }
    destruct Hfew as [_ Hok]. destruct (Hok Hret) as [Hin _].
    apply (Hin 0%nat). evaluate.
  - pose proof (set_mem_table_outcomes (K := sample_constants) (H := host_no_mmap)
                  (set_guest_memmap one_region_map sample_vdev) two_region_msg [9; 10]
                  empty_world ltac:(evaluate)) as [_ Hfew].
    specialize (Hfew ltac:(evaluate)).
    destruct (vhost_set_mem_table (set_guest_memmap one_region_map sample_vdev)
                two_region_msg [9; 10] empty_world) as [[ret vdev'] w'] eqn:Hrun.
    assert (ret = 12) as Hret.
    { vm_compute in Hrun. congruence. }
    clear Hrun. cbn [fst snd].
    destruct Hfew as [Hfail _].
    destruct (Hfail ltac:(rewrite Hret; discriminate))
      as (Hnone & k & memmap_k & w_k & w_f & Hk & Hpre & Hstep & Hcf & Huf & _ & Hu & Hc).
    split; [exact Hret |]. split; [exact Hnone |].
    destruct k as [| [| k]].
    + vm_compute in Hpre. injection Hpre as <- <-.
      vm_compute in Hstep. rewrite Hret in Hstep. discriminate Hstep.
    + vm_compute in Hpre. injection Hpre as <- <-.
      rewrite Hu, Hc, Huf, Hcf. split; reflexivity.
    + exfalso. vm_compute in Hk. lia.
Defined.

(** C5 fails as stated: with slots 0 and 1 mapped, a SET_MEM_TABLE that
    names only the region of slot 0 again succeeds with n = 1, and slot 1
    is still mapped afterwards. *)
Lemma set_mem_table_stale_slot_counterexample :
  let '(ret, vdev', _) :=
    vhost_set_mem_table (K := sample_constants) (H := host_ok)
      (set_guest_memmap two_region_map sample_vdev)
      (mem_table_msg [mk_mem_region 0 4096 139637976727552 0]) [9] empty_world in
  ret = 0
  /\ ~ (forall i r, guest_memmap vdev' !! i = Some r ->
          is_region_mapped r = true -> (i < 1)%nat).
Proof.
  vm_compute. split; [reflexivity |]. intros Hall.
  specialize (Hall 1%nat (mk_region 4096 139637976731648 2097152 2 6) eq_refl eq_refl).
  lia.
Defined.



(** Scenario S3: the kick message enables vring 0 with kick fd 7. *)
Lemma set_vring_kick_enable_witness :
  let '(ret, vdev', w') :=
    vhost_set_vring_kick (K := sample_constants) (H := host_ok)
      legacy_vdev kick_msg [7] empty_world in
  ret = 0
  /\ exists v', vrings vdev' !! 0%nat = Some v'
       /\ kickfd v' = 7 /\ is_enabled v' = true /\ In 7 (w_rq_events w').
Proof.
  pose proof (set_vring_kick_enable (K := sample_constants) (H := host_ok)
                legacy_vdev kick_msg [7] empty_world 0%nat prekick_vring
                ltac:(evaluate) ltac:(evaluate) ltac:(evaluate)) as Hthm.
  destruct (vhost_set_vring_kick legacy_vdev kick_msg [7] empty_world)
    as [[ret vdev'] w'].
  destruct Hthm as (v' & Hl & Hk & Hlegacy & _).
  destruct (Hlegacy ltac:(evaluate)) as [_ Hok].
  destruct (Hok ltac:(evaluate) ltac:(evaluate) ltac:(evaluate))
    as (Hret & Hen & _ & _ & Hin).
  split; [exact Hret |]. exists v'. repeat split; assumption.
Defined.



(** Two queues of four descriptors: 80 bytes per queue, 160 in all, and
    the header of the second queue records four descriptors. *)
Lemma get_inflight_fd_layout_witness :
  let '(ret, msg', vdev', w') :=
    vhost_get_inflight_fd (K := sample_constants) (H := host_ok)
      sample_vdev inflight_msg [] empty_world in
  id_mmap_size (inflight_desc (payload msg')) = 160
  /\ load_le 2 (w_mem w') (3145728 + 80 + off_desc_num) = 4
  /\ load_le 2 (w_mem w') (3145728 + 80 + off_version) = 1.
Proof.
  pose proof (get_inflight_fd_layout (K := sample_constants) (H := host_ok)
                sample_vdev inflight_msg [] empty_world 100 3145728%positive
                ltac:(evaluate) ltac:(evaluate) ltac:(evaluate) ltac:(evaluate)
                ltac:(evaluate) ltac:(evaluate) ltac:(evaluate) ltac:(evaluate)
                ltac:(evaluate) ltac:(evaluate)) as Hthm.
  destruct (vhost_get_inflight_fd sample_vdev inflight_msg [] empty_world)
    as [[[ret msg'] vdev'] w'].
  destruct Hthm as (_ & Hmsg & _ & Hfields & _).
  split; [by rewrite Hmsg |].
  destruct (Hfields 1 ltac:(evaluate)) as (_ & Hversion & Hnum & _).
  split; [exact Hnum | exact Hversion].
Defined.

(** The re-arm of the listen socket can fail: the disconnect is a
    permitted transition, yet it returns the error of the event loop and
    the state field stays CONNECTED. *)
Example listen_rearm_failure_keeps_state :
  let '(ret, vdev', _) :=
    change_device_state (K := sample_constants) (H := host_failing)
      sample_vdev VDEV_LISTENING empty_world in
  ret = - EINVAL /\ state vdev' = VDEV_CONNECTED /\ connfd vdev' = -1.
Proof. vm_compute. repeat split; reflexivity. Qed.

(** A SET_VRING_KICK for an enabled vring replaces the stored kick fd
    without detaching the attached one: after fd 9 has replaced fd 7 on
    the enabled vring 0, the disconnect and [vhd_vdev_uninit] detach fd 9,
    which never was a source, and fd 7 stays a source of the request
    queue. *)
Example replaced_kick_fd_stays_attached :
  let '(_, vdev1, w1) :=
    vhost_handle_request (K := sample_constants) (H := host_ok)
      enabled_vdev kick_msg [9] enabled_world in
  let '(ret, vdev2, w2) :=
    change_device_state (K := sample_constants) (H := host_ok) vdev1 VDEV_LISTENING w1 in
  (exists v, vrings vdev1 !! 0%nat = Some v /\ is_enabled v = true /\ kickfd v = 9)
  /\ ret = 0
  /\ (exists v', vrings vdev2 !! 0%nat = Some v' /\ is_enabled v' = false /\ kickfd v' = 9)
  /\ w_rq_events w2 = [7]
  /\ w_rq_events (vhd_vdev_uninit (H := host_ok) vdev1 w1).2 = [7].
Proof.
  vm_compute. split; [eexists; repeat split; reflexivity |]. split; [reflexivity |].
  split; [eexists; repeat split; reflexivity |]. split; reflexivity.
Qed.

(** GET_CONFIG overwrites the flags of the message before it replies, so
    when the reply cannot be sent no acknowledgement follows, even with
    REPLY_ACK negotiated and set on the request: the failed reply is the
    only message handed to [sendmsg]. *)
Example get_config_failed_reply_unacknowledged :
  let '(ret, _, w') :=
    vhost_handle_request (K := sample_constants) (H := host_failing)
      ack_vdev (mk_msg VHOST_USER_GET_CONFIG 9 0 zero_payload) [] empty_world in
  ret = -32 /\ length (w_sent w') = 1%nat.
Proof. vm_compute. split; reflexivity. Qed.

(** A client address 4 KiB into the one-region map. *)
Lemma map_uva_first_region_witness :
  map_uva (K := sample_constants) one_region_map (139637976727552 + 4096)
  = 1048576 + 4096.
Proof.
  pose proof (map_uva_first_region (K := sample_constants) one_region_map
                (139637976727552 + 4096)
                ltac:(evaluate) ltac:(evaluate) ltac:(evaluate)) as [_ Hval].
  destruct (Hval 0%nat (mk_region 0 139637976727552 1048576 16 5)) as [Heq _].
  - split; [evaluate |]. split; [evaluate |]. split.
    + split; [evaluate |]. split; evaluate.
    + intros j r Hj. lia.
  - rewrite Heq. evaluate.
Defined.

(** Scenario S2 through [map_guest_region]: 64 KiB mapped into slot 0 of
    an empty map, then translated. *)
Lemma map_then_translate_witness :
  map_uva (K := sample_constants) one_region_map (139637976727552 + 100)
  = 1048576 + 100
  /\ map_gpa_len (K := sample_constants) one_region_map (0 + 65000) 536
     = 1048576 + 65000
  /\ map_gpa_len (K := sample_constants) one_region_map (0 + 65000) 537 = 0.
Proof.
  destruct (map_then_translate (K := sample_constants) (H := host_ok)
              (replicate 8 zero_region) 0 0 139637976727552 65536 0 5 empty_world
              one_region_map (tick empty_world)
              ltac:(evaluate) ltac:(evaluate) ltac:(evaluate) ltac:(evaluate)
              ltac:(evaluate) ltac:(evaluate) ltac:(evaluate) ltac:(evaluate)
              ltac:(evaluate) ltac:(evaluate) ltac:(evaluate))
    as (vaddr & Hmmap & _ & _ & Hmain).
  vm_compute in Hmmap. injection Hmmap as <-.
  destruct (Hmain ltac:(evaluate) 100 ltac:(evaluate)) as [Huva _].
  destruct (Hmain ltac:(evaluate) 65000 ltac:(evaluate)) as [_ Hgpa].
  split.
  { apply Huva. intros j r Hj. lia. }
  destruct (Hgpa ltac:(intros j r Hj; lia) 536 ltac:(evaluate)) as [Hin _].
  destruct (Hgpa ltac:(intros j r Hj; lia) 537 ltac:(evaluate)) as [_ Hout].
  split; [apply Hin | apply Hout]; evaluate.
Defined.

(** Scenario S2 sent twice: the second message only has its fd closed. *)
Lemma set_mem_table_again_witness :
  vhost_set_mem_table (K := sample_constants) (H := host_ok)
    (set_guest_memmap one_region_map sample_vdev) s2_msg [9] (tick empty_world)
  = (0, set_guest_memmap one_region_map sample_vdev, sys_close 9 (tick empty_world)).
Proof.
  destruct (set_mem_table_again (K := sample_constants) (H := host_ok)
              sample_vdev (set_guest_memmap one_region_map sample_vdev) s2_msg s2_msg
              [5] [9] empty_world (tick empty_world)
              ltac:(evaluate) ltac:(evaluate) ltac:(evaluate)) as [Hres _].
  - intros j Hj. assert (j = 0%nat) as -> by (vm_compute in Hj; lia). evaluate.
  - exact Hres.
Defined.

(** The master asks for protocol feature bits 3 and 12 of a device that
    supports bits 0, 1, 3 and 9: bit 3 alone is negotiated. *)
Lemma negotiated_protocol_features_supported_witness :
  negotiated_protocol_features
    (vhost_handle_request (K := sample_constants) (H := host_ok)
       negotiating_vdev greedy_features_msg [] empty_world).1.2 = 8.
Proof.
  destruct (negotiated_protocol_features_supported (K := sample_constants) (H := host_ok)
              negotiating_vdev greedy_features_msg [] empty_world ltac:(evaluate))
    as (_ & Hset & _).
  rewrite Hset; [evaluate | reflexivity].
Defined.

(** GET_FEATURES, then a SET_FEATURES that asks for bit 30 and bit 0 of a
    device type without feature bits: bit 30 alone is negotiated. *)
Lemma features_handshake_witness :
  negotiated_features
    (vhost_set_features
       (vhost_get_features (K := sample_constants) (H := host_ok)
          sample_vdev (sample_msg VHOST_USER_GET_FEATURES) empty_world).1.2
       set_features_msg).2 = 1073741824.
Proof.
  pose proof (features_handshake (K := sample_constants) (H := host_ok)
                sample_vdev (sample_msg VHOST_USER_GET_FEATURES) set_features_msg
                empty_world ltac:(evaluate)) as Hthm.
  destruct (vhost_get_features sample_vdev (sample_msg VHOST_USER_GET_FEATURES) empty_world)
    as [[r vdev1] w1].
  cbn [fst snd].
  destruct (vhost_set_features vdev1 set_features_msg) as [r2 vdev2].
  destruct Hthm as (Hsupp & _ & _ & _ & Hneg & _).
  cbn [fst snd]. rewrite Hneg, Hsupp. evaluate.
Defined.

(** Enabling the configured vring 0: its kick fd 7 becomes the one source
    of the request queue. *)
Lemma vring_enable_all_or_nothing_witness :
  let '(r, v1, w1) :=
    vring_set_enable (H := host_ok) configured_vring true empty_world in
  r = 0 /\ is_enabled v1 = true /\ w_rq_events w1 = [7].
Proof.
  pose proof (vring_enable_all_or_nothing (H := host_ok) configured_vring empty_world
                ltac:(evaluate)) as Hthm.
  destruct (vring_set_enable configured_vring true empty_world) as [[r v1] w1] eqn:Hrun.
  assert (r = 0) as Hr.
  { vm_compute in Hrun. congruence. }
  destruct Hthm as (_ & _ & Hok). destruct (Hok Hr) as (Hen & Hev & _).
  split; [exact Hr |]. split; [exact Hen | exact Hev].
Defined.

(** A new kick fd 9 for the enabled vring 0: stored, and the request
    queue still has fd 7 only. *)
Lemma set_vring_kick_while_enabled_witness :
  vhost_set_vring_kick (K := sample_constants) (H := host_ok)
    enabled_vdev kick_msg [9] enabled_world
  = (0, store_vring 0 (set_kickfd 9 enabled_vring) enabled_vdev, enabled_world).
Proof.
  destruct (set_vring_kick_while_enabled (K := sample_constants) (H := host_ok)
              enabled_vdev kick_msg [9] enabled_world 0%nat enabled_vring
              ltac:(evaluate) ltac:(evaluate) ltac:(evaluate) ltac:(evaluate))
    as [Hres _].
  exact Hres.
Defined.

(** GET_VRING_BASE for the enabled vring 0 of a device that did not
    negotiate VHOST_USER_F_PROTOCOL_FEATURES: the vring is disabled. *)
Lemma get_vring_base_stops_vring_witness :
  exists v',
    vrings (vhost_get_vring_base (K := sample_constants) (H := host_ok)
              legacy_enabled_vdev (vring_state_msg VHOST_USER_GET_VRING_BASE 1 0 0)
              enabled_world).1.2 !! 0%nat = Some v'
    /\ is_enabled v' = false.
Proof.
  pose proof (get_vring_base_stops_vring (K := sample_constants) (H := host_ok)
                legacy_enabled_vdev (vring_state_msg VHOST_USER_GET_VRING_BASE 1 0 0)
                enabled_world 0%nat enabled_vring ltac:(evaluate) ltac:(evaluate))
    as Hthm.
  destruct (vhost_get_vring_base legacy_enabled_vdev _ enabled_world) as [[r vdev'] w'].
  destruct Hthm as (_ & _ & Hlegacy).
  destruct (Hlegacy ltac:(evaluate)) as (v' & Hl & Hen & _).
  exists v'. split; [exact Hl | exact Hen].
Defined.

(** GET_INFLIGHT_FD when [mmap] fails: the memfd 100 is closed again and
    the device has no inflight region. *)
Lemma get_inflight_fd_failure_witness :
  let '(ret, _, vdev', w') :=
    vhost_get_inflight_fd (K := sample_constants) (H := host_no_mmap)
      sample_vdev inflight_msg [] empty_world in
  ret = 12 /\ inflightfd vdev' = -1 /\ In 100 (w_closed w').
Proof.
  pose proof (get_inflight_fd_failure (K := sample_constants) (H := host_no_mmap)
                sample_vdev inflight_msg [] empty_world) as Hthm.
  destruct (vhost_get_inflight_fd sample_vdev inflight_msg [] empty_world)
    as [[[ret msg'] vdev'] w'] eqn:Hrun.
  assert (ret = 12) as Hret.
  { vm_compute in Hrun. congruence. }
  destruct Hthm as [_ Hfail].
  destruct (Hfail ltac:(lia)) as [Hfd Hclosed].
  split; [exact Hret |]. split; [exact Hfd |].
  apply (Hclosed 100). reflexivity.
Defined.

(** SET_INFLIGHT_FD with fd 9 for a region of 160 bytes. *)
Lemma set_inflight_fd_outcomes_witness :
  let '(ret, vdev', w') :=
    vhost_set_inflight_fd (H := host_ok) sample_vdev
      (mk_msg VHOST_USER_SET_INFLIGHT_FD 1 24
         (set_inflight_desc (mk_inflight_desc 160 0 2 4) zero_payload))
      [9] empty_world in
  ret = 0 /\ inflightfd vdev' = 9 /\ inflight_size vdev' = 160 /\ w_closed w' = [].
Proof.
  pose proof (set_inflight_fd_outcomes (H := host_ok) sample_vdev
                (mk_msg VHOST_USER_SET_INFLIGHT_FD 1 24
                   (set_inflight_desc (mk_inflight_desc 160 0 2 4) zero_payload))
                [9] empty_world) as Hthm.
  destruct (vhost_set_inflight_fd sample_vdev _ [9] empty_world) as [[ret vdev'] w'].
  destruct Hthm as (_ & _ & Hmap). cbn in Hmap.
  destruct Hmap as (Hret & Hfd & _ & Hsize & Hclosed).
  split; [exact Hret |]. split; [exact Hfd |]. split; [exact Hsize | exact Hclosed].
Defined.

(** Disconnecting the enabled device: the connection socket 4 and the fd
    5 of the mapped region are closed, and the listen socket 3 is the
    one source of the vhost event loop. *)
Lemma disconnect_clean_slate_witness :
  let '(ret, vdev', w') :=
    conn_close (K := sample_constants) (H := host_ok) enabled_vdev connected_world in
  connfd vdev' = -1 /\ w_closed w' = [4; 5] /\ w_vhost_events w' = [3].
Proof.
  pose proof (disconnect_clean_slate (K := sample_constants) (H := host_ok)
                enabled_vdev connected_world ltac:(evaluate)) as Hthm.
  destruct (conn_close enabled_vdev connected_world) as [[ret vdev'] w'] eqn:Hrun.
  assert (ret = 0) as ->.
  { vm_compute in Hrun. congruence. }
  destruct Hthm as (Hconn & _ & _ & _ & Hcl & Hev & _).
  split; [exact Hconn |]. split; [rewrite Hcl | rewrite Hev]; evaluate.
Defined.

(** A two-queue device set up on a free path. *)
Lemma init_server_outcomes_witness :
  exists vdev sw',
    vhd_vdev_init_server (K := sample_constants) (H := host_ok)
      (SK := sample_server_constants) (SH := socket_host_ok)
      sample_path 2 empty_server_world = Some (0, vdev, sw')
    /\ state vdev = VDEV_LISTENING
    /\ vrings vdev !! 1%nat = Some (fresh_vring 1)
    /\ w_vhost_events (sw_os sw') = [listenfd vdev].
Proof.
  destruct (init_server_outcomes (K := sample_constants) (H := host_ok)
              (SK := sample_server_constants) (SH := socket_host_ok)
              sample_path 2 empty_server_world) as [_ Hok].
  destruct (Hok ltac:(evaluate)) as (ret & vdev & sw' & Hrun & Hz & _).
  assert (ret = 0) as ->.
  { vm_compute in Hrun. congruence. }
  exists vdev, sw'. split; [exact Hrun |].
  destruct (Hz eq_refl)
    as (Hst & _ & _ & _ & _ & _ & _ & _ & _ & _ & Hvs & _ & _ & Hev & _).
  split; [exact Hst |]. split; [apply (Hvs 1%nat); evaluate | exact Hev].
Defined.

(** A connection accepted on fd 4 by the listening device. *)
Lemma server_read_outcomes_witness :
  let '(ret, vdev', sw') :=
    server_read (K := sample_constants) (H := host_ok) (SH := socket_host_ok)
      listening_vdev empty_server_world in
  ret = 0 /\ state vdev' = VDEV_CONNECTED /\ connfd vdev' = 4
  /\ w_vhost_events (sw_os sw') = [4].
Proof.
  pose proof (server_read_outcomes (K := sample_constants) (H := host_ok)
                (SH := socket_host_ok) listening_vdev empty_server_world) as Hthm.
  destruct (server_read listening_vdev empty_server_world) as [[ret vdev'] sw'] eqn:Hrun.
  assert (ret = 0) as Hret.
  { vm_compute in Hrun. congruence. }
  destruct Hthm as (_ & _ & _ & Hacc). cbn in Hacc. destruct Hacc as [Hok _].
  destruct (Hok Hret) as (_ & -> & Hev & _).
  split; [exact Hret |]. split; [reflexivity |]. split; [reflexivity |].
  rewrite Hev. evaluate.
Defined.

(** A path of 108 characters does not fit [sun_path]. *)
Lemma sock_create_server_outcomes_witness :
  sock_create_server (SH := socket_host_ok)
    (String.concat String.EmptyString (repeat "123456789"%string 12)) empty_server_world
  = (-1, empty_server_world).
Proof.
  pose proof (sock_create_server_outcomes (SH := socket_host_ok)
                (String.concat String.EmptyString (repeat "123456789"%string 12)) empty_server_world)
    as Hthm.
  destruct (sock_create_server _ empty_server_world) as [fd sw'].
  destruct Hthm as [Hlong _]. destruct (Hlong ltac:(evaluate)) as [-> ->]. reflexivity.
Defined.

(** The enabled device is well formed, and stays so under a
    SET_VRING_KICK; a set-up for two queues whose listen socket the event
    loop refuses hands back a device that is not well formed. *)
Lemma device_invariant_witness :
  vdev_wf enabled_vdev
  /\ vdev_wf (vhost_handle_request (K := sample_constants) (H := host_ok)
               enabled_vdev kick_msg [9] enabled_world).1.2
  /\ (forall ret vdev sw',
        vhd_vdev_init_server (K := sample_constants) (H := host_failing)
          (SK := sample_server_constants) (SH := socket_host_ok)
          sample_path 2 empty_server_world = Some (ret, vdev, sw') ->
        ret <> 0 /\ num_queues vdev = 2 /\ vrings vdev = [] /\ ~ vdev_wf vdev).
Proof.
  assert (vdev_wf enabled_vdev) as Hwf.
  { split; [evaluate |]. split; [evaluate |].
    intros j v Hj. destruct j as [| [| j]]; simpl in Hj; [| | done].
    - injection Hj as <-. split; [reflexivity |]. split; [reflexivity |].
      intros _. split; reflexivity.
    - injection Hj as <-. split; [reflexivity |]. split; [reflexivity |].
      intros Hen. discriminate Hen. }
  split; [exact Hwf |]. split.
  - destruct (device_invariant (K := sample_constants) (H := host_ok)
                (SK := sample_server_constants) (SH := socket_host_ok))
      as (_ & Hmsg & _).
    apply Hmsg. exact Hwf.
  - intros ret vdev sw' Heq.
    destruct (device_invariant (K := sample_constants) (H := host_failing)
                (SK := sample_server_constants) (SH := socket_host_ok))
      as (Hinit & _ & _).
    destruct (Hinit sample_path 2 empty_server_world ret vdev sw' ltac:(lia) Heq)
      as [_ Hfail].
    vm_compute in Heq. injection Heq as <- <- <-.
    destruct (Hfail ltac:(discriminate)) as (_ & Hnil & Hiff & _).
    split; [discriminate |]. split; [reflexivity |]. split; [reflexivity |].
    intros Hbad. apply Hiff in Hbad. discriminate Hbad.
Defined.
